(** * Roo-Cline: the multi-profile API configuration manager

    A shallow embedding of [ConfigManager] (the class defined after the
    message types in [src/shared/WebviewMessage.ts]) and of the three
    validators of [shared/validation] ([validateProfileSettings],
    [validateProfileName], [validateProfileTransition]).

    Conventions.
    - A JavaScript string is the list of its UTF-16 code units.
    - A JavaScript object used as a dictionary is an association list kept
      in the order [Object.keys] enumerates it.
    - An optional property is an [option]; [None] is [undefined], which
      [JSON.stringify] drops, so a document survives the write/read
      round trip through the secret store unchanged.
    - Such an object inherits the members of [Object.prototype]:
      [Obj.get] looks up an own property, [Profiles.read] evaluates the
      expression [profiles[name]], and [Profiles.assign] the assignment
      [profiles[name] = value], which for the key [__proto__] sets the
      prototype instead of a property.
    - The manager is a state: the secret store, the shared [defaultConfig]
      object (held as the document [JSON.stringify] would write of it), the
      results [Math.random] is going to give, and the console. *)

From Stdlib Require Import String Ascii NArith Arith Bool Lia List.
Import ListNotations.

Set Implicit Arguments.

(* ================================================================== *)
(** ** JavaScript strings *)
(* ================================================================== *)

Module Js.

(** A string value: its UTF-16 code units. *)
Definition jstr : Type := list N.

(** An ASCII literal as a JavaScript string. *)
Definition str (s : string) : jstr :=
  map N_of_ascii (list_ascii_of_string s).

Fixpoint eqb (a b : jstr) : bool :=
  match a, b with
  | [], [] => true
  | x :: a', y :: b' => N.eqb x y && eqb a' b'
  | _, _ => false
  end.

(** [a === b] on optional strings: [undefined] equals only [undefined]. *)
Definition opt_eqb (a b : option jstr) : bool :=
  match a, b with
  | None, None => true
  | Some x, Some y => eqb x y
  | _, _ => false
  end.

(** Truthiness of a string: every string but the empty one. *)
Definition truthy (s : jstr) : bool :=
  match s with [] => false | _ :: _ => true end.

(** Truthiness of an optional string property. *)
Definition opt_truthy (s : option jstr) : bool :=
  match s with Some v => truthy v | None => false end.

(** Truthiness of an optional object property: an object is always truthy. *)
Definition present {A : Type} (o : option A) : bool :=
  match o with Some _ => true | None => false end.

(** [a || b] on an optional string with a string default. *)
Definition or_else (a : option jstr) (b : jstr) : jstr :=
  match a with
  | Some v => if truthy v then v else b
  | None => b
  end.

(** The code units of WhiteSpace and LineTerminator: what [String.prototype.trim]
    strips and what the regular-expression class [\s] matches. *)
Definition isWhiteSpace (c : N) : bool :=
  (N.leb 9 c && N.leb c 13)          (* TAB, LF, VT, FF, CR *)
  || N.eqb c 32                      (* SPACE *)
  || N.eqb c 160                     (* NO-BREAK SPACE *)
  || N.eqb c 5760                    (* OGHAM SPACE MARK *)
  || (N.leb 8192 c && N.leb c 8202)  (* EN QUAD .. HAIR SPACE *)
  || N.eqb c 8232 || N.eqb c 8233    (* LINE and PARAGRAPH SEPARATOR *)
  || N.eqb c 8239 || N.eqb c 8287    (* NARROW NBSP, MEDIUM MATH SPACE *)
  || N.eqb c 12288                   (* IDEOGRAPHIC SPACE *)
  || N.eqb c 65279.                  (* ZERO WIDTH NO-BREAK SPACE *)

Fixpoint trimStart (s : jstr) : jstr :=
  match s with
  | [] => []
  | c :: r => if isWhiteSpace c then trimStart r else s
  end.

Definition trimEnd (s : jstr) : jstr := rev (trimStart (rev s)).

(** [s.trim()] *)
Definition trim (s : jstr) : jstr := trimEnd (trimStart s).

(** [list.includes(x)] on an array of strings. *)
Definition includes (l : list jstr) (x : jstr) : bool := existsb (eqb x) l.

(** [list.join(sep)] *)
Fixpoint join (sep : jstr) (l : list jstr) : jstr :=
  match l with
  | [] => []
  | [x] => x
  | x :: r => x ++ sep ++ join sep r
  end.

Definition isDigit (c : N) : bool := N.leb 48 c && N.leb c 57.
Definition isUpper (c : N) : bool := N.leb 65 c && N.leb c 90.
Definition isLower (c : N) : bool := N.leb 97 c && N.leb c 122.

End Js.

Import Js.

Arguments str : simpl never.

(* ================================================================== *)
(** ** JavaScript objects used as dictionaries *)
(* ================================================================== *)

Module Obj.

Definition obj (V : Type) : Type := list (jstr * V).

Section Dict.
Context {V : Type}.

(** The own property [k] of [o]: what [Object.entries], [Object.keys] and
    [JSON.stringify] see.  The expression [o[k]] looks further, at the
    prototype of [o]: see [inherited] below and [Profiles.read]. *)
Fixpoint get (o : obj V) (k : jstr) : option V :=
  match o with
  | [] => None
  | (k', v) :: r => if eqb k' k then Some v else get r k
  end.

(** [Object.keys(o)] *)
Definition keys (o : obj V) : list jstr := map fst o.

(** [delete o[k]] *)
Fixpoint remove (o : obj V) (k : jstr) : obj V :=
  match o with
  | [] => []
  | (k', v) :: r => if eqb k' k then remove r k else (k', v) :: remove r k
  end.

(** The value of a canonical array index ("0", "7", "42", up to 2^32 - 2):
    such keys are enumerated first, in ascending numeric order. *)
Fixpoint digitsValue (acc : N) (s : jstr) : option N :=
  match s with
  | [] => Some acc
  | c :: r => if isDigit c then digitsValue (acc * 10 + (c - 48)) r else None
  end.

Definition arrayIndex (k : jstr) : option N :=
  match k with
  | [] => None
  | [c] => digitsValue 0 [c]
  | c :: _ =>
      if N.eqb c 48 then None
      else match digitsValue 0 k with
           | Some n => if N.leb n 4294967294 then Some n else None
           | None => None
           end
  end.

(** Overwrite the value of a key that is present, keeping its place. *)
Fixpoint replace (o : obj V) (k : jstr) (v : V) : obj V :=
  match o with
  | [] => []
  | (k', v') :: r =>
      if eqb k' k then (k', v) :: r else (k', v') :: replace r k v
  end.

(** Place a new array-index key [k] (of value [n]) among the index keys. *)
Fixpoint insertIndex (o : obj V) (n : N) (k : jstr) (v : V) : obj V :=
  match o with
  | [] => [(k, v)]
  | (k', v') :: r =>
      match arrayIndex k' with
      | Some n' =>
          if N.ltb n n' then (k, v) :: o else (k', v') :: insertIndex r n k v
      | None => (k, v) :: o
      end
  end.

(** [o[k] = v] where the assignment overwrites or creates an own property
    (the key [__proto__] does so only if [o] owns it: see [Profiles.assign]): a
    present key keeps its place; a new array index goes among the indices; any
    other new key is appended. *)
Definition set (o : obj V) (k : jstr) (v : V) : obj V :=
  match get o k with
  | Some _ => replace o k v
  | None =>
      match arrayIndex k with
      | Some n => insertIndex o n k v
      | None => o ++ [(k, v)]
      end
  end.

End Dict.

(** The members of [Object.prototype], the prototype of every object that
    [JSON.parse] or an object literal makes: the expression [o[k]] finds them
    when [o] has no own property [k], and so does [k in o]. *)
Definition prototypeMembers : list jstr :=
  [str "constructor"; str "__defineGetter__"; str "__defineSetter__";
   str "hasOwnProperty"; str "__lookupGetter__"; str "__lookupSetter__";
   str "isPrototypeOf"; str "propertyIsEnumerable"; str "toString";
   str "valueOf"; str "__proto__"; str "toLocaleString"].

Definition inherited (k : jstr) : bool := includes prototypeMembers k.

(** [k in o], for an object [o] whose prototype is [Object.prototype]. *)
Definition has {V : Type} (o : obj V) (k : jstr) : bool :=
  present (get o k) || inherited k.

End Obj.

(* ================================================================== *)
(** ** Data model *)
(* ================================================================== *)

(** A JSON value the manager copies without looking inside (a [ModelInfo],
    a [vscode.LanguageModelChatSelector], a setting that is not a profile
    field): its serialised text.  [ModelInfo] is declared in [shared/api],
    no part of which the manager reads. *)
Definition Json : Type := jstr.

(** [ApiConfiguration], and [ProfileSpecificSettings], which at run time is an
    object of the same shape: the fields [extractProfileSettings] reads, and
    whatever other properties the object carries. *)
Record ApiConfiguration : Type := mkApiConfiguration {
  id : option jstr;
  apiProvider : option jstr;
  apiModelId : option jstr;
  apiKey : option jstr;
  glamaModelId : option jstr;
  glamaModelInfo : option Json;
  glamaApiKey : option jstr;
  openRouterApiKey : option jstr;
  awsAccessKey : option jstr;
  awsSecretKey : option jstr;
  awsSessionToken : option jstr;
  awsRegion : option jstr;
  awsUseCrossRegionInference : option bool;
  vertexProjectId : option jstr;
  vertexRegion : option jstr;
  openAiBaseUrl : option jstr;
  openAiApiKey : option jstr;
  openAiModelId : option jstr;
  ollamaModelId : option jstr;
  ollamaBaseUrl : option jstr;
  lmStudioModelId : option jstr;
  lmStudioBaseUrl : option jstr;
  anthropicBaseUrl : option jstr;
  geminiApiKey : option jstr;
  openAiNativeApiKey : option jstr;
  deepSeekApiKey : option jstr;
  mistralApiKey : option jstr;
  azureApiVersion : option jstr;
  openAiStreamingEnabled : option bool;
  openRouterModelId : option jstr;
  openRouterModelInfo : option Json;
  openRouterUseMiddleOutTransform : option bool;
  vsCodeLmModelSelector : option Json;
  otherFields : Obj.obj Json
}.

Definition ProfileSpecificSettings : Type := ApiConfiguration.

(** The object with no property at all. *)
Definition emptySettings : ApiConfiguration :=
  mkApiConfiguration None None None None None None None None None None None
    None None None None None None None None None None None None None None
    None None None None None None None None [].

Record GlobalSettings : Type := mkGlobalSettings {
  currentApiConfigName : option jstr;
  alwaysAllowReadOnly : option bool;
  alwaysAllowWrite : option bool;
  alwaysAllowExecute : option bool;
  alwaysAllowBrowser : option bool;
  alwaysAllowMcp : option bool;
  modeApiConfigs : option (Obj.obj jstr)
}.

(** The document under the secret key, as [JSON.parse] returns it: the current
    shape has [globalSettings] and [profiles]; the old one has [apiConfigs]
    with [currentApiConfigName] and [modeApiConfigs] at top level. *)
Record ApiConfigData : Type := mkApiConfigData {
  globalSettings : option GlobalSettings;
  profiles : option (Obj.obj ProfileSpecificSettings);
  apiConfigs : option (Obj.obj ApiConfiguration);
  oldCurrentApiConfigName : option jstr;
  oldModeApiConfigs : option (Obj.obj jstr)
}.

Record ValidationResult : Type := mkValidationResult {
  isValid : bool;
  errors : list jstr
}.

(** [{ isValid: errors.length === 0, errors }] *)
Definition validationOf (errs : list jstr) : ValidationResult :=
  {| isValid := Nat.eqb (length errs) 0; errors := errs |}.

(* ================================================================== *)
(** ** shared/validation *)
(* ================================================================== *)

(** [if (!field) errors.push(message)] *)
Definition required (field : option jstr) (message : string) : list jstr :=
  if opt_truthy field then [] else [str message].

Definition requiredObject (field : option Json) (message : string) : list jstr :=
  if present field then [] else [str message].

(** [case "p":] of a [switch (config.apiProvider)]. *)
Definition providerIs (config : ApiConfiguration) (p : string) : bool :=
  opt_eqb (apiProvider config) (Some (str p)).

(** The [switch (config.apiProvider)] of [validateProfileSettings]. *)
Definition providerErrors (config : ApiConfiguration) : list jstr :=
  if providerIs config "anthropic" then required (apiKey config) "API key is required for Anthropic"
  else if providerIs config "openai" then
    required (openAiApiKey config) "API key is required for OpenAI"
    ++ required (openAiBaseUrl config) "Base URL is required for OpenAI"
  else if providerIs config "glama" then required (glamaApiKey config) "API key is required for Glama"
  else if providerIs config "openrouter" then
    required (openRouterApiKey config) "API key is required for OpenRouter"
  else if providerIs config "bedrock" then
    required (awsAccessKey config) "Access key is required for AWS Bedrock"
    ++ required (awsSecretKey config) "Secret key is required for AWS Bedrock"
  else if providerIs config "vertex" then
    required (vertexProjectId config) "Project ID is required for Vertex AI"
    ++ required (vertexRegion config) "Region is required for Vertex AI"
  else if providerIs config "gemini" then required (geminiApiKey config) "API key is required for Gemini"
  else if providerIs config "openai-native" then
    required (openAiNativeApiKey config) "API key is required for OpenAI Native"
  else if providerIs config "deepseek" then
    required (deepSeekApiKey config) "API key is required for DeepSeek"
  else if providerIs config "mistral" then
    required (mistralApiKey config) "API key is required for Mistral"
  else if providerIs config "ollama" || providerIs config "lmstudio" then []
  else if providerIs config "vscode-lm" then
    requiredObject (vsCodeLmModelSelector config)
      "Model selector is required for VS Code Language Model"
  else [str "Invalid API provider"].

Definition validateProfileSettings (config : ApiConfiguration) : ValidationResult :=
  let modelErrors :=
    match apiModelId config with
    | Some m =>
        if truthy m && negb (truthy (trim m))
        then [str "Model ID cannot be empty if specified"] else []
    | None => []
    end in
  validationOf (providerErrors config ++ modelErrors).

(** A code unit of the class [[a-zA-Z0-9\s-_]]: after the class escape [\s] the
    hyphen is a literal hyphen, so the class is letters, digits, white space,
    hyphen and underscore. *)
Definition nameChar (c : N) : bool :=
  isLower c || isUpper c || isDigit c || isWhiteSpace c
  || N.eqb c 45 || N.eqb c 95.

(** [/^[a-zA-Z0-9\s-_]+$/.test(name)] *)
Definition nameRegexTest (name : jstr) : bool :=
  truthy name && forallb nameChar name.

Definition validateProfileName (name : jstr) (existingNames : list jstr)
  : ValidationResult :=
  validationOf
    (if negb (truthy name) then [str "Profile name is required"]
     else if Nat.eqb (length (trim name)) 0 then [str "Profile name cannot be empty"]
     else if includes existingNames name then [str "Profile name already exists"]
     else if Nat.ltb 50 (length name) then
       [str "Profile name cannot be longer than 50 characters"]
     else if negb (nameRegexTest name) then
       [str "Profile name can only contain letters, numbers, spaces, hyphens, and underscores"]
     else []).

(** The providers between which a switch asks for new credentials. *)
Definition requiresReauth : list jstr :=
  map str ["anthropic"; "openai"; "glama"; "openrouter"; "bedrock"; "vertex";
           "gemini"; "openai-native"; "deepseek"; "mistral"]%string.

Definition includesOpt (l : list jstr) (x : option jstr) : bool :=
  match x with Some v => includes l v | None => false end.

Definition validateProfileTransition (fromConfig toConfig : ApiConfiguration)
  : ValidationResult :=
  let differ := negb (opt_eqb (apiProvider fromConfig) (apiProvider toConfig)) in
  validationOf
    ((if differ
         && includesOpt requiresReauth (apiProvider fromConfig)
         && includesOpt requiresReauth (apiProvider toConfig)
      then [str "Switching between these providers may require re-authentication"]
      else [])
     ++
     (if opt_truthy (apiModelId fromConfig) && differ
      then [str "Model ID may not be compatible with the new provider"]
      else [])).

(* ================================================================== *)
(** ** Exceptions, the manager's state, and asynchronous methods *)
(* ================================================================== *)

Inductive Exception : Type :=
| Error (message : jstr)       (* [new Error(message)] *)
| TypeError (message : jstr).  (* raised by the engine on [undefined] *)

(** The text a template literal gives an exception. *)
Definition toString (e : Exception) : jstr :=
  match e with
  | Error [] => str "Error"
  | Error m => str "Error: " ++ m
  | TypeError m => str "TypeError: " ++ m
  end.

Definition cannotRead (property : jstr) : Exception :=
  TypeError (str "Cannot read properties of undefined (reading '" ++ property ++ str "')").

Definition cannotSet (property : jstr) : Exception :=
  TypeError (str "Cannot set properties of undefined (setting '" ++ property ++ str "')").

Definition cannotConvert : Exception :=
  TypeError (str "Cannot convert undefined or null to object").

(** The state a [ConfigManager] works on.  [secrets] is what the extension's
    secret storage holds under ["roo_cline_config_api_config"], already parsed;
    [random] lists the identifiers [Math.random().toString(36).substring(2, 15)]
    is going to produce, [draws] counts those already taken. *)
Record ConfigManager : Type := mkConfigManager {
  secrets : option ApiConfigData;
  defaultConfig : ApiConfigData;
  random : nat -> jstr;
  draws : nat;
  console : list jstr
}.

(** How a run ends: normally, or abruptly with an exception.  [Unmodelled]
    marks a run that has read, through a prototype the run itself installed, a
    property of that prototype (see [Profiles.read]): the only step of the
    manager whose result depends on the inside of the JSON values it otherwise
    only copies. *)
Inductive Completion (A : Type) : Type :=
| Normal (value : A)
| Throw (e : Exception)
| Unmodelled.
Arguments Normal {A} value.
Arguments Throw {A} e.
Arguments Unmodelled {A}.

(** A method of the manager: it runs on a state and completes normally or
    abruptly, leaving a state either way. *)
Definition Promise (A : Type) : Type := ConfigManager -> Completion A * ConfigManager.

Definition ret {A : Type} (a : A) : Promise A := fun m => (Normal a, m).

Definition throw {A : Type} (e : Exception) : Promise A := fun m => (Throw e, m).

Definition unmodelled {A : Type} : Promise A := fun m => (Unmodelled, m).

Definition bind {A B : Type} (c : Promise A) (k : A -> Promise B) : Promise B :=
  fun m =>
    match c m with
    | (Normal a, m') => k a m'
    | (Throw e, m') => (Throw e, m')
    | (Unmodelled, m') => (Unmodelled, m')
    end.

Declare Scope promise_scope.
Delimit Scope promise_scope with promise.
Notation "x <- c ;; k" := (bind c (fun x => k))
  (at level 61, c at next level, right associativity) : promise_scope.
Notation "' p <- c ;; k" := (bind c (fun x => let 'p := x in k))
  (at level 61, p pattern, c at next level, right associativity) : promise_scope.
Notation "c ;; k" := (bind c (fun _ => k))
  (at level 61, right associativity) : promise_scope.
Open Scope promise_scope.

(** [try { body } catch (error) { throw new Error(`prefix: ${error}`) }] *)
Definition tryCatch {A : Type} (prefix : string) (body : Promise A) : Promise A :=
  fun m =>
    match body m with
    | (Normal a, m') => (Normal a, m')
    | (Throw e, m') => (Throw (Error (str prefix ++ str ": " ++ toString e)), m')
    | (Unmodelled, m') => (Unmodelled, m')
    end.

(** [console.warn(line)] *)
Definition warn (line : jstr) : Promise unit :=
  fun m => (Normal tt,
            mkConfigManager (secrets m) (defaultConfig m) (random m) (draws m)
              (console m ++ [line])).

(** [obj.property] where [obj] may be [undefined]. *)
Definition propertyOf {A : Type} (o : option A) (property : jstr) : Promise A :=
  match o with
  | Some v => ret v
  | None => throw (cannotRead property)
  end.

(** [Object.keys(obj)] and [Object.entries(obj)] where [obj] may be [undefined]. *)
Definition objectOf {A : Type} (o : option A) : Promise A :=
  match o with
  | Some v => ret v
  | None => throw cannotConvert
  end.

(** *** Record updates *)

Definition withId (p : ApiConfiguration) (i : option jstr) : ApiConfiguration :=
  mkApiConfiguration i (apiProvider p) (apiModelId p) (apiKey p) (glamaModelId p)
    (glamaModelInfo p) (glamaApiKey p) (openRouterApiKey p) (awsAccessKey p)
    (awsSecretKey p) (awsSessionToken p) (awsRegion p) (awsUseCrossRegionInference p)
    (vertexProjectId p) (vertexRegion p) (openAiBaseUrl p) (openAiApiKey p)
    (openAiModelId p) (ollamaModelId p) (ollamaBaseUrl p) (lmStudioModelId p)
    (lmStudioBaseUrl p) (anthropicBaseUrl p) (geminiApiKey p) (openAiNativeApiKey p)
    (deepSeekApiKey p) (mistralApiKey p) (azureApiVersion p) (openAiStreamingEnabled p)
    (openRouterModelId p) (openRouterModelInfo p) (openRouterUseMiddleOutTransform p)
    (vsCodeLmModelSelector p) (otherFields p).

(** The object literal [extractProfileSettings] returns: the listed fields of
    its argument under the given [id], and nothing else. *)
Definition profileFields (p : ApiConfiguration) (i : option jstr) : ProfileSpecificSettings :=
  mkApiConfiguration i (apiProvider p) (apiModelId p) (apiKey p) (glamaModelId p)
    (glamaModelInfo p) (glamaApiKey p) (openRouterApiKey p) (awsAccessKey p)
    (awsSecretKey p) (awsSessionToken p) (awsRegion p) (awsUseCrossRegionInference p)
    (vertexProjectId p) (vertexRegion p) (openAiBaseUrl p) (openAiApiKey p)
    (openAiModelId p) (ollamaModelId p) (ollamaBaseUrl p) (lmStudioModelId p)
    (lmStudioBaseUrl p) (anthropicBaseUrl p) (geminiApiKey p) (openAiNativeApiKey p)
    (deepSeekApiKey p) (mistralApiKey p) (azureApiVersion p) (openAiStreamingEnabled p)
    (openRouterModelId p) (openRouterModelInfo p) (openRouterUseMiddleOutTransform p)
    (vsCodeLmModelSelector p) [].

Definition withCurrent (g : GlobalSettings) (name : option jstr) : GlobalSettings :=
  mkGlobalSettings name (alwaysAllowReadOnly g) (alwaysAllowWrite g)
    (alwaysAllowExecute g) (alwaysAllowBrowser g) (alwaysAllowMcp g) (modeApiConfigs g).

Definition withModes (g : GlobalSettings) (modes : option (Obj.obj jstr)) : GlobalSettings :=
  mkGlobalSettings (currentApiConfigName g) (alwaysAllowReadOnly g) (alwaysAllowWrite g)
    (alwaysAllowExecute g) (alwaysAllowBrowser g) (alwaysAllowMcp g) modes.

Definition withGlobalSettings (d : ApiConfigData) (g : GlobalSettings) : ApiConfigData :=
  mkApiConfigData (Some g) (profiles d) (apiConfigs d) (oldCurrentApiConfigName d)
    (oldModeApiConfigs d).

Definition withProfiles (d : ApiConfigData) (ps : Obj.obj ProfileSpecificSettings)
  : ApiConfigData :=
  mkApiConfigData (globalSettings d) (Some ps) (apiConfigs d) (oldCurrentApiConfigName d)
    (oldModeApiConfigs d).

(** A document of the current shape. *)
Definition document (g : GlobalSettings) (ps : Obj.obj ProfileSpecificSettings)
  : ApiConfigData :=
  mkApiConfigData (Some g) (Some ps) None None None.

(** [{ currentApiConfigName: name }] *)
Definition onlyCurrent (name : option jstr) : GlobalSettings :=
  mkGlobalSettings name None None None None None None.

(* ================================================================== *)
(** ** The [profiles] object in memory *)
(* ================================================================== *)

(** What [profiles[name]] can evaluate to: a settings object; or, found on
    [Object.prototype], one of its functions; or, through [__proto__], that
    object itself. *)
Inductive Value : Type :=
| Settings (p : ProfileSpecificSettings)
| Method (name : jstr)
| ObjectPrototype.

(** The settings the manager reads off a value.  A function and
    [Object.prototype] have none of the properties of a profile, so each of
    [value.id], [value.apiProvider], ... is [undefined] and [{ ...value }] is
    the empty object. *)
Definition asSettings (v : Value) : ProfileSpecificSettings :=
  match v with
  | Settings p => p
  | Method _ => emptySettings
  | ObjectPrototype => emptySettings
  end.

Module Profiles.

(** The object: its own properties, and its prototype when an assignment to
    [__proto__] has replaced [Object.prototype] ([None]) by another object. *)
Record Object : Type := mkObject {
  own : Obj.obj Value;
  prototype : option Value
}.

(** The object [JSON.parse] makes of stored profiles (or an object literal
    of them): every key an own property, [Object.prototype] the prototype. *)
Definition parse (ps : Obj.obj ProfileSpecificSettings) : Object :=
  mkObject (map (fun '(k, p) => (k, Settings p)) ps) None.

Inductive Lookup : Type :=
| Found (v : Value)
| Undefined
| Unknown.

Definition named {A : Type} (field : option A) (name : string) : list jstr :=
  if present field then [str name] else [].

(** The names of the properties of a settings object. *)
Definition properties (p : ProfileSpecificSettings) : list jstr :=
  named (id p) "id" ++ named (apiProvider p) "apiProvider"
  ++ named (apiModelId p) "apiModelId" ++ named (apiKey p) "apiKey"
  ++ named (glamaModelId p) "glamaModelId" ++ named (glamaModelInfo p) "glamaModelInfo"
  ++ named (glamaApiKey p) "glamaApiKey"
  ++ named (openRouterApiKey p) "openRouterApiKey"
  ++ named (awsAccessKey p) "awsAccessKey" ++ named (awsSecretKey p) "awsSecretKey"
  ++ named (awsSessionToken p) "awsSessionToken" ++ named (awsRegion p) "awsRegion"
  ++ named (awsUseCrossRegionInference p) "awsUseCrossRegionInference"
  ++ named (vertexProjectId p) "vertexProjectId" ++ named (vertexRegion p) "vertexRegion"
  ++ named (openAiBaseUrl p) "openAiBaseUrl" ++ named (openAiApiKey p) "openAiApiKey"
  ++ named (openAiModelId p) "openAiModelId" ++ named (ollamaModelId p) "ollamaModelId"
  ++ named (ollamaBaseUrl p) "ollamaBaseUrl"
  ++ named (lmStudioModelId p) "lmStudioModelId"
  ++ named (lmStudioBaseUrl p) "lmStudioBaseUrl"
  ++ named (anthropicBaseUrl p) "anthropicBaseUrl"
  ++ named (geminiApiKey p) "geminiApiKey"
  ++ named (openAiNativeApiKey p) "openAiNativeApiKey"
  ++ named (deepSeekApiKey p) "deepSeekApiKey" ++ named (mistralApiKey p) "mistralApiKey"
  ++ named (azureApiVersion p) "azureApiVersion"
  ++ named (openAiStreamingEnabled p) "openAiStreamingEnabled"
  ++ named (openRouterModelId p) "openRouterModelId"
  ++ named (openRouterModelInfo p) "openRouterModelInfo"
  ++ named (openRouterUseMiddleOutTransform p) "openRouterUseMiddleOutTransform"
  ++ named (vsCodeLmModelSelector p) "vsCodeLmModelSelector"
  ++ Obj.keys (otherFields p).

(** What [Object.prototype] has under a key other than [__proto__]. *)
Definition member (k : jstr) : Lookup :=
  if Obj.inherited k then Found (Method k) else Undefined.

(** [object[k]]: the own property; else what the prototype chain has.  On
    [Object.prototype], [__proto__] is an accessor that returns the prototype
    of the object.  Through an installed prototype the chain goes on to
    [Object.prototype]: from a settings object, unless that object has a
    property [k] itself; from a function, for the names [Object.prototype]
    has, each of which gives a built-in function.  A property of the installed
    settings object, and any other property of the installed function, is
    [Unknown] here: a value that is none of the three kinds. *)
Definition read (o : Object) (k : jstr) : Lookup :=
  match Obj.get (own o) k with
  | Some v => Found v
  | None =>
      match prototype o with
      | None => if eqb k (str "__proto__") then Found ObjectPrototype else member k
      | Some installed =>
          if eqb k (str "__proto__") then Found installed
          else
            match installed with
            | Settings p => if includes (properties p) k then Unknown else member k
            | Method _ => if Obj.inherited k then Found (Method k) else Unknown
            | ObjectPrototype => member k
            end
      end
  end.

(** [object[k] = v].  When [k] is [__proto__] and not an own property (one
    that [JSON.parse] made), the assignment runs the setter of
    [Object.prototype]: [v], an object, becomes the prototype, and no property
    is created.  Any other key is created or overwritten as an own property. *)
Definition assign (o : Object) (k : jstr) (v : Value) : Object :=
  if eqb k (str "__proto__") && negb (present (Obj.get (own o) k)) then
    mkObject (own o)
      match v with
      | ObjectPrototype => None
      | _ => Some v
      end
  else mkObject (Obj.set (own o) k v) (prototype o).

(** [delete object[k]]: own properties only. *)
Definition delete (o : Object) (k : jstr) : Object :=
  mkObject (Obj.remove (own o) k) (prototype o).

(** What [JSON.stringify] writes of the object and [JSON.parse] reads back:
    the own properties, in order; a property whose value is a function is left
    out, and [Object.prototype], which has no enumerable property, is written
    as the empty object. *)
Definition stringify (o : Object) : Obj.obj ProfileSpecificSettings :=
  flat_map (fun '(k, v) =>
              match v with
              | Settings p => [(k, p)]
              | Method _ => []
              | ObjectPrototype => [(k, emptySettings)]
              end) (own o).

End Profiles.

(* ================================================================== *)
(** ** ConfigManager *)
(* ================================================================== *)

(** The object a local variable holds after [readConfig]: [this.defaultConfig]
    itself when the store is empty, else a copy fresh from [JSON.parse]. *)
Inductive Ref : Type := Shared | Parsed.

(** [generateId()] *)
Definition generateId : Promise jstr :=
  fun m => (Normal (random m (draws m)),
            mkConfigManager (secrets m) (defaultConfig m) (random m) (S (draws m))
              (console m)).

(** The field initialiser of [defaultConfig], given the id it generated. *)
Definition freshDefaultConfig (i : jstr) : ApiConfigData :=
  document (onlyCurrent (Some (str "default")))
           [(str "default", withId emptySettings (Some i))].

(** [new ConfigManager(context)], before the constructor starts [initConfig]. *)
Definition newConfigManager (rnd : nat -> jstr) (stored : option ApiConfigData)
  : ConfigManager :=
  mkConfigManager stored (freshDefaultConfig (rnd 0)) rnd 1 [].

Definition readConfig : Promise (Ref * ApiConfigData) :=
  fun m =>
    match secrets m with
    | None => (Normal (Shared, defaultConfig m), m)
    | Some config => (Normal (Parsed, config), m)
    end.

Definition writeConfig (config : ApiConfigData) : Promise unit :=
  fun m => (Normal tt,
            mkConfigManager (Some config) (defaultConfig m) (random m) (draws m)
              (console m)).

(** An assignment through the local variable: it changes [this.defaultConfig]
    when that is the object the variable holds. *)
Definition assign (r : Ref) (config : ApiConfigData) : Promise unit :=
  fun m =>
    match r with
    | Shared => (Normal tt,
                 mkConfigManager (secrets m) config (random m) (draws m) (console m))
    | Parsed => (Normal tt, m)
    end.

(** [object[name]], with [None] for [undefined]. *)
Definition element (object : Profiles.Object) (name : jstr) : Promise (option Value) :=
  match Profiles.read object name with
  | Profiles.Found v => ret (Some v)
  | Profiles.Undefined => ret None
  | Profiles.Unknown => unmodelled
  end.

(** [this.defaultConfig] *)
Definition thisDefaultConfig : Promise ApiConfigData :=
  fun m => (Normal (defaultConfig m), m).

Definition extractProfileSettings (apiConfiguration : ApiConfiguration)
  : Promise ProfileSpecificSettings :=
  i <- (if opt_truthy (id apiConfiguration) then ret (id apiConfiguration)
        else g <- generateId ;; ret (Some g)) ;;
  ret (profileFields apiConfiguration i).

(** The loop of [initConfig] over [Object.entries(oldConfig.apiConfigs)],
    which fills [newConfig.profiles]. *)
Fixpoint migrateProfiles (entries : list (jstr * ApiConfiguration))
    (newProfiles : Profiles.Object) : Promise Profiles.Object :=
  match entries with
  | [] => ret newProfiles
  | (name, apiConfig) :: rest =>
      profileSettings <- extractProfileSettings apiConfig ;;
      migrateProfiles rest (Profiles.assign newProfiles name (Settings profileSettings))
  end.

(** The loop of [initConfig] over [Object.entries(config.profiles)]: the
    profiles with every missing id filled in, and [needsMigration]. *)
Fixpoint ensureIds (entries : Obj.obj ProfileSpecificSettings)
  : Promise (Obj.obj ProfileSpecificSettings * bool) :=
  match entries with
  | [] => ret ([], false)
  | (name, profile) :: rest =>
      if opt_truthy (id profile) then
        ' (rest', needsMigration) <- ensureIds rest ;;
        ret ((name, profile) :: rest', needsMigration)
      else
        i <- generateId ;;
        ' (rest', _) <- ensureIds rest ;;
        ret ((name, withId profile (Some i)) :: rest', true)
  end.

(** An object reference is never falsy. *)
Definition objectTruthy (config : ApiConfigData) : bool := true.

Definition initConfig : Promise unit :=
  tryCatch "Failed to initialize config" (
    ' (ref, config) <- readConfig ;;
    if negb (objectTruthy config) then
      d <- thisDefaultConfig ;; writeConfig d
    else
      (* Migrate old config structure to new structure *)
      needsMigration <-
        match apiConfigs config with
        | Some oldApiConfigs =>
            newProfiles <- migrateProfiles oldApiConfigs (Profiles.parse []) ;;
            writeConfig
              (document
                 (mkGlobalSettings
                    (Some (or_else (oldCurrentApiConfigName config) (str "default")))
                    None None None None None
                    (Some match oldModeApiConfigs config with
                          | Some modes => modes
                          | None => []
                          end))
                 (Profiles.stringify newProfiles)) ;;
            ret true
        | None => ret false
        end ;;
      (* Ensure all configs have IDs *)
      config <-
        (if negb needsMigration then
           entries <- objectOf (profiles config) ;;
           ' (filled, needsMigration) <- ensureIds entries ;;
           let config := withProfiles config filled in
           assign ref config ;;
           (if needsMigration then writeConfig config else ret tt) ;;
           ret config
         else ret config) ;;
      (* Ensure global settings exist *)
      if negb (present (globalSettings config)) then
        ps <- propertyOf (profiles config) (str "default") ;;
        let config :=
          withGlobalSettings config
            (onlyCurrent (if present (Obj.get ps (str "default"))
                          then Some (str "default")
                          else hd_error (Obj.keys ps))) in
        assign ref config ;;
        writeConfig config
      else ret tt).

(** [ApiConfigMeta] *)
Record ApiConfigMeta : Type := mkApiConfigMeta {
  metaName : jstr;
  metaId : option jstr;
  metaApiProvider : option jstr
}.

Definition ListConfig : Promise (list ApiConfigMeta) :=
  tryCatch "Failed to list configs" (
    ' (_, config) <- readConfig ;;
    entries <- objectOf (profiles config) ;;
    ret (map (fun '(name, profile) =>
                mkApiConfigMeta name (id profile) (apiProvider profile)) entries)).

(** [`Config '${name}' not found`] *)
Definition notFound (name : jstr) : Exception :=
  Error (str "Config '" ++ name ++ str "' not found").

(** [`Invalid configuration: ${errors.join(", ")}`] *)
Definition invalidConfiguration (errs : list jstr) : Exception :=
  Error (str "Invalid configuration: " ++ join (str ", ") errs).

(** [`Invalid profile name: ${errors.join(", ")}`] *)
Definition invalidProfileName (errs : list jstr) : Exception :=
  Error (str "Invalid profile name: " ++ join (str ", ") errs).

Definition cannotDeleteLast : Exception :=
  Error (str "Cannot delete the last remaining configuration.").

(** [Object.keys(profiles).filter((n) => n !== name)] *)
Definition otherNames (ps : Obj.obj ProfileSpecificSettings) (name : jstr) : list jstr :=
  filter (fun n => negb (eqb n name)) (Obj.keys ps).

Definition SaveConfig (name : jstr) (config : ApiConfiguration) : Promise unit :=
  tryCatch "Failed to save config" (
    ' (ref, currentConfig) <- readConfig ;;
    profileSettings <- extractProfileSettings config ;;
    (* Validate profile settings *)
    let settingsValidation := validateProfileSettings profileSettings in
    if negb (isValid settingsValidation) then
      throw (invalidConfiguration (errors settingsValidation))
    else
      (* Validate profile name *)
      ps <- objectOf (profiles currentConfig) ;;
      let nameValidation := validateProfileName name (otherNames ps name) in
      if negb (isValid nameValidation) then
        throw (invalidProfileName (errors nameValidation))
      else
        (* If this is an existing profile, validate the transition *)
        let object := Profiles.parse ps in
        found <- element object name ;;
        match found with
        | Some existing =>
            let transitionValidation :=
              validateProfileTransition (asSettings existing) profileSettings in
            if negb (isValid transitionValidation) then
              warn (str "Profile transition warnings: "
                    ++ join (str ", ") (errors transitionValidation))
            else ret tt
        | None => ret tt
        end ;;
        let object := Profiles.assign object name (Settings profileSettings) in
        let currentConfig := withProfiles currentConfig (Profiles.stringify object) in
        assign ref currentConfig ;;
        writeConfig currentConfig).

(** [{ ...settings }] *)
Definition profileSettingsToApiConfig (settings : ProfileSpecificSettings)
  : ApiConfiguration := settings.

Definition LoadConfig (name : jstr) : Promise ApiConfiguration :=
  tryCatch "Failed to load config" (
    ' (ref, config) <- readConfig ;;
    ps <- propertyOf (profiles config) name ;;
    found <- element (Profiles.parse ps) name ;;
    match found with
    | None => throw (notFound name)
    | Some profileSettings =>
        (* Validate profile settings before loading *)
        let settingsValidation := validateProfileSettings (asSettings profileSettings) in
        (if negb (isValid settingsValidation) then
           warn (str "Loading profile with validation errors: "
                 ++ join (str ", ") (errors settingsValidation))
         else ret tt) ;;
        (* Update current profile in global settings *)
        match globalSettings config with
        | None => throw (cannotSet (str "currentApiConfigName"))
        | Some g =>
            let config := withGlobalSettings config (withCurrent g (Some name)) in
            assign ref config ;;
            writeConfig config ;;
            ret (profileSettingsToApiConfig (asSettings profileSettings))
        end
    end).

(** The loop of [DeleteConfig] over [Object.entries(modeApiConfigs)]: every
    mode bound to [profileId] is deleted from the object. *)
Definition pruneModes (profileId : option jstr) (modes : Obj.obj jstr) : Obj.obj jstr :=
  fold_left
    (fun remaining '(mode, configId) =>
       if opt_eqb (Some configId) profileId then Obj.remove remaining mode
       else remaining)
    modes modes.

Definition DeleteConfig (name : jstr) : Promise unit :=
  tryCatch "Failed to delete config" (
    ' (ref, currentConfig) <- readConfig ;;
    ps <- propertyOf (profiles currentConfig) name ;;
    let object := Profiles.parse ps in
    found <- element object name ;;
    match found with
    | None => throw (notFound name)
    | Some profile =>
        (* Don't allow deleting the default config *)
        if Nat.eqb (length (Obj.keys ps)) 1 then throw cannotDeleteLast
        else
          g <- propertyOf (globalSettings currentConfig) (str "currentApiConfigName") ;;
          (* If deleting the current profile, switch to another one *)
          let g :=
            if opt_eqb (currentApiConfigName g) (Some name) then
              match find (fun n => negb (eqb n name)) (Obj.keys ps) with
              | Some newCurrentName =>
                  if truthy newCurrentName then withCurrent g (Some newCurrentName)
                  else g
              | None => g
              end
            else g in
          (* Remove profile from mode configs if it's being used *)
          let g :=
            match modeApiConfigs g with
            | Some modes => withModes g (Some (pruneModes (id (asSettings profile)) modes))
            | None => g
            end in
          let currentConfig :=
            withProfiles (withGlobalSettings currentConfig g)
              (Profiles.stringify (Profiles.delete object name)) in
          assign ref currentConfig ;;
          writeConfig currentConfig
    end).

Definition SetCurrentConfig (name : jstr) : Promise unit :=
  tryCatch "Failed to set current config" (
    ' (ref, currentConfig) <- readConfig ;;
    ps <- propertyOf (profiles currentConfig) name ;;
    found <- element (Profiles.parse ps) name ;;
    match found with
    | None => throw (notFound name)
    | Some _ =>
        match globalSettings currentConfig with
        | None => throw (cannotSet (str "currentApiConfigName"))
        | Some g =>
            let currentConfig :=
              withGlobalSettings currentConfig (withCurrent g (Some name)) in
            assign ref currentConfig ;;
            writeConfig currentConfig
        end
    end).

Definition cannotSearch (name : jstr) : Exception :=
  TypeError (str "Cannot use 'in' operator to search for '" ++ name ++ str "' in undefined").

Definition HasConfig (name : jstr) : Promise bool :=
  tryCatch "Failed to check config existence" (
    ' (_, config) <- readConfig ;;
    match profiles config with
    | Some ps => ret (Obj.has ps name)
    | None => throw (cannotSearch name)
    end).

(** [mode] is a [Mode], one of the mode names that [prompts/types] declares;
    in [SetModeConfig] and [GetModeConfigId] a mode is a property of
    [modeApiConfigs] like any other. *)
Definition SetModeConfig (mode configId : jstr) : Promise unit :=
  tryCatch "Failed to set mode config" (
    ' (ref, currentConfig) <- readConfig ;;
    g <- propertyOf (globalSettings currentConfig) (str "modeApiConfigs") ;;
    let modes := match modeApiConfigs g with Some ms => ms | None => [] end in
    let currentConfig :=
      withGlobalSettings currentConfig
        (withModes g (Some (Obj.set modes mode configId))) in
    assign ref currentConfig ;;
    writeConfig currentConfig).

Definition GetModeConfigId (mode : jstr) : Promise (option jstr) :=
  tryCatch "Failed to get mode config" (
    ' (_, config) <- readConfig ;;
    g <- propertyOf (globalSettings config) (str "modeApiConfigs") ;;
    ret match modeApiConfigs g with
        | Some modes => Obj.get modes mode
        | None => None
        end).

(** [globalSettings.modeApiConfigs[mode] = value] on a document that has
    both objects ([RenameConfig] has read both before its loop starts); an
    [undefined] value is a property [JSON.stringify] leaves out. *)
Definition setMode (config : ApiConfigData) (mode : jstr) (value : option jstr)
  : ApiConfigData :=
  match globalSettings config with
  | Some g =>
      match modeApiConfigs g, value with
      | Some modes, Some v =>
          withGlobalSettings config (withModes g (Some (Obj.set modes mode v)))
      | Some modes, None =>
          withGlobalSettings config (withModes g (Some (Obj.remove modes mode)))
      | None, _ => config
      end
  | None => config
  end.

(** The loop of [RenameConfig] over [Object.entries(modeApiConfigs)]; each
    round reads [currentConfig.profiles[oldName].id] on the object as the move
    has left it. *)
Fixpoint renameModes (ref : Ref) (object : Profiles.Object) (oldName newName : jstr)
    (entries : list (jstr * jstr)) (currentConfig : ApiConfigData)
  : Promise ApiConfigData :=
  match entries with
  | [] => ret currentConfig
  | (mode, configId) :: rest =>
      old <- element object oldName ;;
      old <- propertyOf old (str "id") ;;
      if opt_eqb (Some configId) (id (asSettings old)) then
        new <- element object newName ;;
        new <- propertyOf new (str "id") ;;
        let currentConfig := setMode currentConfig mode (id (asSettings new)) in
        assign ref currentConfig ;;
        renameModes ref object oldName newName rest currentConfig
      else renameModes ref object oldName newName rest currentConfig
  end.

Definition RenameConfig (oldName newName : jstr) : Promise unit :=
  tryCatch "Failed to rename config" (
    ' (ref, currentConfig) <- readConfig ;;
    ps <- propertyOf (profiles currentConfig) oldName ;;
    let object := Profiles.parse ps in
    found <- element object oldName ;;
    match found with
    | None => throw (notFound oldName)
    | Some moved =>
        (* Validate new profile name *)
        let nameValidation := validateProfileName newName (otherNames ps oldName) in
        if negb (isValid nameValidation) then
          throw (invalidProfileName (errors nameValidation))
        else
          (* Move the profile to the new name *)
          let object := Profiles.delete (Profiles.assign object newName moved) oldName in
          let currentConfig := withProfiles currentConfig (Profiles.stringify object) in
          assign ref currentConfig ;;
          (* Update current profile name if necessary *)
          g <- propertyOf (globalSettings currentConfig) (str "currentApiConfigName") ;;
          let currentConfig :=
            if opt_eqb (currentApiConfigName g) (Some oldName)
            then withGlobalSettings currentConfig (withCurrent g (Some newName))
            else currentConfig in
          assign ref currentConfig ;;
          (* Update mode configs if necessary *)
          currentConfig <-
            match modeApiConfigs g with
            | Some modes => renameModes ref object oldName newName modes currentConfig
            | None => ret currentConfig
            end ;;
          writeConfig currentConfig
    end).

(** The document a method of the manager works on. *)
Definition currentDocument (m : ConfigManager) : ApiConfigData :=
  match secrets m with
  | Some config => config
  | None => defaultConfig m
  end.

(** The manager's own, private [validateProfileSettings]: a boolean. *)
Module Private.

Definition validateProfileSettings (settings : ProfileSpecificSettings) : bool :=
  if negb (opt_truthy (apiProvider settings)) then false
  else if providerIs settings "anthropic" then opt_truthy (apiKey settings)
  else if providerIs settings "glama" then opt_truthy (glamaApiKey settings)
  else if providerIs settings "openrouter" then opt_truthy (openRouterApiKey settings)
  else if providerIs settings "bedrock" then
    opt_truthy (awsAccessKey settings) && opt_truthy (awsSecretKey settings)
  else if providerIs settings "vertex" then
    opt_truthy (vertexProjectId settings) && opt_truthy (vertexRegion settings)
  else if providerIs settings "openai" then
    opt_truthy (openAiApiKey settings) && opt_truthy (openAiBaseUrl settings)
  else if providerIs settings "gemini" then opt_truthy (geminiApiKey settings)
  else if providerIs settings "openai-native" then
    opt_truthy (openAiNativeApiKey settings)
  else if providerIs settings "deepseek" then opt_truthy (deepSeekApiKey settings)
  else if providerIs settings "mistral" then opt_truthy (mistralApiKey settings)
  else if providerIs settings "ollama" then true
  else if providerIs settings "lmstudio" then true
  else if providerIs settings "vscode-lm" then present (vsCodeLmModelSelector settings)
  else false.

End Private.

(* ================================================================== *)
(** ** Sample data *)
(* ================================================================== *)

Module Sample.

(** A run of [Math.random]: the identifiers "rnd0", "rnd1", ... *)
Definition random (n : nat) : jstr := str "rnd" ++ [N.of_nat (48 + n)].

(** A stored profile that has only an id. *)
Definition profile (i : string) : ProfileSpecificSettings :=
  withId emptySettings (Some (str i)).

(** A configuration as the settings view sends it: a provider, no id, and a
    global setting bundled in. *)
Definition provider (p : string) : ApiConfiguration :=
  mkApiConfiguration None (Some (str p)) None None None None None None None None None
    None None None None None None None None None None None None None None
    None None None None None None None None [(str "soundEnabled", str "true")].

(** [{ apiProvider: "bedrock", awsAccessKey: "k" }] *)
Definition bedrockNoSecret : ApiConfiguration :=
  mkApiConfiguration None (Some (str "bedrock")) None None None None None None
    (Some (str "k")) None None
    None None None None None None None None None None None None None None
    None None None None None None None None [].

(** A manager whose store holds [config]. *)
Definition manager (config : ApiConfigData) : ConfigManager :=
  mkConfigManager (Some config) (freshDefaultConfig (random 0)) random 1 [].

(** [{ globalSettings: { currentApiConfigName: "default" },
       profiles: { default: { id: "abc" } } }] *)
Definition single : ApiConfigData :=
  document (onlyCurrent (Some (str "default"))) [(str "default", profile "abc")].

(** Profiles "a" and "b", "a" current, no mode bound. *)
Definition pair : ApiConfigData :=
  document (onlyCurrent (Some (str "a")))
           [(str "a", profile "id-a"); (str "b", profile "id-b")].

(** Profiles "a" and "" (the empty name), "a" current, no mode bound. *)
Definition unnamed : ApiConfigData :=
  document (onlyCurrent (Some (str "a")))
           [(str "a", profile "id-a"); ([], profile "id-b")].

(** Profiles "a" and "b", "a" current, mode "code" bound to the id of "a" and
    mode "ask" to the id of "b". *)
Definition bound : ApiConfigData :=
  document
    (mkGlobalSettings (Some (str "a")) None None None None None
       (Some [(str "code", str "id-a"); (str "ask", str "id-b")]))
    [(str "a", profile "id-a"); (str "b", profile "id-b")].

(** A document of the old shape:
    [{ currentApiConfigName: "p2", apiConfigs: { p1: {}, p2: {} },
       modeApiConfigs: { chat: "p1" } }] *)
Definition legacy : ApiConfigData :=
  mkApiConfigData None None
    (Some [(str "p1", emptySettings); (str "p2", emptySettings)])
    (Some (str "p2"))
    (Some [(str "chat", str "p1")]).

(** A manager built over an empty store, after its [initConfig]. *)
Definition initialised : ConfigManager :=
  snd (initConfig (newConfigManager random None)).

(** "a", TAB, "b" *)
Definition tabbed : jstr := [97; 9; 98]%N.

(** Sixty times "a". *)
Definition sixty : jstr := repeat 97%N 60.

End Sample.

(** More sample data. *)
Module Cases.

(** [{ id: "id-c", apiProvider: "anthropic", apiKey: "sk-1" }] *)
Definition anthropic : ProfileSpecificSettings :=
  mkApiConfiguration (Some (str "id-c")) (Some (str "anthropic")) None (Some (str "sk-1"))
    None None None None None None None
    None None None None None None None None None None None None None None
    None None None None None None None None [].

(** [{ id: "id-c", apiProvider: "gemini", geminiApiKey: "g-1" }] *)
Definition gemini : ApiConfiguration :=
  mkApiConfiguration (Some (str "id-c")) (Some (str "gemini")) None None
    None None None None None None None
    None None None None None None None None None None None None (Some (str "g-1")) None
    None None None None None None None None [].

(** Profiles "claude" (Anthropic) and "default", "default" current. *)
Definition withAnthropic : ApiConfigData :=
  document (onlyCurrent (Some (str "default")))
           [(str "claude", anthropic); (str "default", Sample.profile "abc")].

(** Profiles "a" (with an id) and "b" (without), and no global settings. *)
Definition unfinished : ApiConfigData :=
  mkApiConfigData None
    (Some [(str "a", Sample.profile "id-a"); (str "b", emptySettings)])
    None None None.

End Cases.

(* ================================================================== *)
(** ** Vocabulary of the properties *)
(* ================================================================== *)

(** The profile stored under [name] in the document the manager works on. *)
Definition profileOf (m : ConfigManager) (name : jstr) : option ProfileSpecificSettings :=
  match profiles (currentDocument m) with
  | Some ps => Obj.get ps name
  | None => None
  end.

(** What the expression [profiles[name]] gives on stored profiles [ps]: the
    profile stored under [name]; or else, when [name] names a member of
    [Object.prototype], that member; or else [undefined]. *)
Definition lookup (ps : Obj.obj ProfileSpecificSettings) (name : jstr) : option Value :=
  match Obj.get ps name with
  | Some p => Some (Settings p)
  | None =>
      if eqb name (str "__proto__") then Some ObjectPrototype
      else if Obj.inherited name then Some (Method name)
      else None
  end.

(** The stored profiles after [profiles[name] = p]: an assignment to a
    [__proto__] that is not stored creates no entry. *)
Definition assigned (ps : Obj.obj ProfileSpecificSettings) (name : jstr)
    (p : ProfileSpecificSettings) : Obj.obj ProfileSpecificSettings :=
  if eqb name (str "__proto__") && negb (present (Obj.get ps name)) then ps
  else Obj.set ps name p.

(** An object holds each of its keys once. *)
Definition uniqueKeys {V : Type} (o : Obj.obj V) : Prop := NoDup (Obj.keys o).

(** The exception a caller of [method] sees when its body throws [e]. *)
Definition rethrown (prefix : string) (e : Exception) : Exception :=
  Error (str prefix ++ str ": " ++ toString e).

(** A document of the current shape: both parts present, each key once (as
    in every object of the language), and no profile under the empty name (a
    name [validateProfileName] refuses, though a stored document could hold
    it). *)
Record currentShape (d : ApiConfigData) (g : GlobalSettings)
    (ps : Obj.obj ProfileSpecificSettings) : Prop := mkCurrentShape {
  shape_global : globalSettings d = Some g;
  shape_profiles : profiles d = Some ps;
  shape_unique : uniqueKeys ps;
  shape_named : ~ In [] (Obj.keys ps);
  shape_modes : forall modes, modeApiConfigs g = Some modes -> uniqueKeys modes
}.

(** Where the object [readConfig] returns comes from. *)
Definition refOf (m : ConfigManager) : Ref :=
  match secrets m with None => Shared | Some _ => Parsed end.

(** The state after a method has changed the object it read into [config] and
    written it: the store holds [config], and so does [defaultConfig] when that
    was the object read. *)
Definition committed (m : ConfigManager) (config : ApiConfigData) : ConfigManager :=
  mkConfigManager (Some config)
    (match secrets m with None => config | Some _ => defaultConfig m end)
    (random m) (draws m) (console m).

(** The state after a method has changed the object it read into [config]
    and thrown before writing it: the store is as it was, and [defaultConfig]
    holds [config] when that was the object read. *)
Definition abandoned (m : ConfigManager) (config : ApiConfigData) : ConfigManager :=
  mkConfigManager (secrets m)
    (match secrets m with None => config | Some _ => defaultConfig m end)
    (random m) (draws m) (console m).

(** [console.warn(line)] has run. *)
Definition warned (m : ConfigManager) (line : jstr) : ConfigManager :=
  mkConfigManager (secrets m) (defaultConfig m) (random m) (draws m) (console m ++ [line]).

(** A mode binding that [DeleteConfig] keeps when it deletes the profile of
    id [profileId]. *)
Definition keptBinding (profileId : option jstr) (binding : jstr * jstr) : bool :=
  negb (opt_eqb (Some (snd binding)) profileId).

(** The user-interface toggles of two global settings agree. *)
Definition sameToggles (g g' : GlobalSettings) : Prop :=
  alwaysAllowReadOnly g' = alwaysAllowReadOnly g
  /\ alwaysAllowWrite g' = alwaysAllowWrite g
  /\ alwaysAllowExecute g' = alwaysAllowExecute g
  /\ alwaysAllowBrowser g' = alwaysAllowBrowser g
  /\ alwaysAllowMcp g' = alwaysAllowMcp g.

(** The id [extractProfileSettings] gives the profile it builds from
    [config]: the one [config] carries, or else the next random one. *)
Definition extractedId (m : ConfigManager) (config : ApiConfiguration) : option jstr :=
  if opt_truthy (id config) then id config else Some (random m (draws m)).

(** The profile [SaveConfig name config] builds. *)
Definition extracted (m : ConfigManager) (config : ApiConfiguration)
  : ProfileSpecificSettings :=
  profileFields config (extractedId m config).

(** The state after [extractProfileSettings config]: one more draw when
    [config] carried no id. *)
Definition afterExtract (m : ConfigManager) (config : ApiConfiguration) : ConfigManager :=
  if opt_truthy (id config) then m
  else mkConfigManager (secrets m) (defaultConfig m) (random m) (S (draws m)) (console m).

(** The state after [SaveConfig] has compared the profile it found under the
    name, if any, with the one it is about to store: a warning on the console
    when [validateProfileTransition] has something to say. *)
Definition transitionWarned (m : ConfigManager) (existing : option ProfileSpecificSettings)
    (profileSettings : ProfileSpecificSettings) : ConfigManager :=
  match existing with
  | Some e =>
      if isValid (validateProfileTransition e profileSettings) then m
      else warned m (str "Profile transition warnings: "
                     ++ join (str ", ") (errors (validateProfileTransition e profileSettings)))
  | None => m
  end.

(** The state [SaveConfig name config] leaves when it succeeds on profiles [ps]. *)
Definition saved (m : ConfigManager) (name : jstr) (config : ApiConfiguration)
    (ps : Obj.obj ProfileSpecificSettings) : ConfigManager :=
  committed
    (transitionWarned (afterExtract m config) (option_map asSettings (lookup ps name))
       (extracted m config))
    (withProfiles (currentDocument m) (assigned ps name (extracted m config))).

(** The document [RenameConfig oldName newName] builds from profiles [ps],
    global settings [g] and the profile [moved] found under [oldName], before
    it turns to the mode bindings. *)
Definition renamed (d : ApiConfigData) (g : GlobalSettings)
    (ps : Obj.obj ProfileSpecificSettings) (oldName newName : jstr)
    (moved : ProfileSpecificSettings) : ApiConfigData :=
  let d1 := withProfiles d (Obj.remove (Obj.set ps newName moved) oldName) in
  if opt_eqb (currentApiConfigName g) (Some oldName)
  then withGlobalSettings d1 (withCurrent g (Some newName))
  else d1.

(** No mode is bound. *)
Definition noModes (g : GlobalSettings) : Prop :=
  modeApiConfigs g = None \/ modeApiConfigs g = Some [].

(** The profile id bound to [mode] in the document the manager works on. *)
Definition modeBinding (m : ConfigManager) (mode : jstr) : option jstr :=
  match globalSettings (currentDocument m) with
  | Some g =>
      match modeApiConfigs g with
      | Some modes => Obj.get modes mode
      | None => None
      end
  | None => None
  end.

(** The current profile name in the document the manager works on. *)
Definition currentName (m : ConfigManager) : option jstr :=
  match globalSettings (currentDocument m) with
  | Some g => currentApiConfigName g
  | None => None
  end.

(** The global settings the migration of [initConfig] builds from a document
    of the old shape. *)
Definition migratedSettings (old : ApiConfigData) : GlobalSettings :=
  mkGlobalSettings
    (Some (or_else (oldCurrentApiConfigName old) (str "default")))
    None None None None None
    (Some match oldModeApiConfigs old with
          | Some modes => modes
          | None => []
          end).

(** [m'] differs from [m] at most in the number of draws, which has not
    gone down. *)
Definition drawsOnly (m m' : ConfigManager) : Prop :=
  secrets m' = secrets m /\ defaultConfig m' = defaultConfig m
  /\ random m' = random m /\ console m' = console m /\ draws m <= draws m'.

(** [q] is what [extractProfileSettings] makes of [config] in a run that
    started in state [m]: the fields of [config], under the id of [config]
    when it has one, and else under an id drawn since. *)
Definition migratedFrom (m : ConfigManager) (config : ApiConfiguration)
    (q : ProfileSpecificSettings) : Prop :=
  exists i,
    q = profileFields config i
    /\ (opt_truthy (id config) = true -> i = id config)
    /\ (opt_truthy (id config) = false ->
        exists k, draws m <= k /\ i = Some (random m k)).

(** The invariant of a document: it has a profile, and its current name is
    one of its profile names. *)
Definition consistent (d : ApiConfigData) : Prop :=
  exists g ps c,
    globalSettings d = Some g /\ profiles d = Some ps
    /\ ps <> [] /\ currentApiConfigName g = Some c /\ In c (Obj.keys ps).

(** Every stored profile has a non-empty id. *)
Definition allHaveIds (ps : Obj.obj ProfileSpecificSettings) : Prop :=
  forall name p, In (name, p) ps -> opt_truthy (id p) = true.

(** [config.apiModelId && !config.apiModelId.trim()]: a model id that is
    given and blank. *)
Definition blankModelId (config : ApiConfiguration) : bool :=
  match apiModelId config with
  | Some modelId => truthy modelId && negb (truthy (trim modelId))
  | None => false
  end.

(** [config.apiProvider] is one of the providers of [requiresReauth]. *)
Definition reauthProvider (config : ApiConfiguration) : bool :=
  includesOpt requiresReauth (apiProvider config).

(** [filled] is the entry [entry] after the id loop of [initConfig], in a
    run that started in state [m]: the same key, and the same profile if it had
    a non-empty id, else the profile under an id drawn since. *)
Definition backfilledEntry (m : ConfigManager)
    (entry filled : jstr * ProfileSpecificSettings) : Prop :=
  fst filled = fst entry
  /\ ((opt_truthy (id (snd entry)) = true /\ snd filled = snd entry)
      \/ (opt_truthy (id (snd entry)) = false
          /\ exists k, draws m <= k
                       /\ snd filled = withId (snd entry) (Some (random m k)))).

(** The current name [initConfig] chooses for a document without global
    settings. *)
Definition chosenCurrent (ps : Obj.obj ProfileSpecificSettings) : option jstr :=
  if present (Obj.get ps (str "default")) then Some (str "default")
  else hd_error (Obj.keys ps).

(** The rules of name validation as the specification lists them, each with
    the message it reports. *)
Inductive NameRule : Type :=
| Missing | BlankAfterTrim | AlreadyExists | LongerThan50 | DisallowedCharacters.

Definition nameRules : list NameRule :=
  [Missing; BlankAfterTrim; AlreadyExists; LongerThan50; DisallowedCharacters].

Definition ruleFails (name : jstr) (existingNames : list jstr) (r : NameRule) : bool :=
  match r with
  | Missing => negb (truthy name)
  | BlankAfterTrim => negb (truthy (trim name))
  | AlreadyExists => includes existingNames name
  | LongerThan50 => Nat.ltb 50 (length name)
  | DisallowedCharacters => negb (forallb nameChar name)
  end.

Definition ruleMessage (r : NameRule) : jstr :=
  match r with
  | Missing => str "Profile name is required"
  | BlankAfterTrim => str "Profile name cannot be empty"
  | AlreadyExists => str "Profile name already exists"
  | LongerThan50 => str "Profile name cannot be longer than 50 characters"
  | DisallowedCharacters =>
      str "Profile name can only contain letters, numbers, spaces, hyphens, and underscores"
  end.

(** Only the first rule that fails reports. *)
Definition firstFailure (name : jstr) (existingNames : list jstr) : list jstr :=
  match find (ruleFails name existingNames) nameRules with
  | Some r => [ruleMessage r]
  | None => []
  end.

(** The characters the specification (and the validator's own message) allow
    in a name: letters, digits, the space, underscore and hyphen. *)
Definition allowedChar (c : N) : bool :=
  isLower c || isUpper c || isDigit c || N.eqb c 32 || N.eqb c 95 || N.eqb c 45.

(* ================================================================== *)
(** ** Strings and objects: basic facts *)
(* ================================================================== *)

Unset Implicit Arguments.

Lemma eqb_refl (a : jstr) : eqb a a = true.
Proof.
  induction a as [|x a IH]; simpl; [reflexivity|].
  now rewrite N.eqb_refl, IH.
Qed.

Lemma eqb_eq (a b : jstr) : eqb a b = true <-> a = b.
Proof.
  split.
  - revert b; induction a as [|x a IH]; intros [|y b]; simpl; try discriminate; auto.
    intros H. apply andb_true_iff in H as [Hx Ha].
    apply N.eqb_eq in Hx. now rewrite Hx, (IH _ Ha).
  - intros ->. apply eqb_refl.
Qed.

Lemma eqb_neq (a b : jstr) : eqb a b = false <-> a <> b.
Proof.
  destruct (eqb a b) eqn:E.
  - apply eqb_eq in E. split; [discriminate | congruence].
  - split; [|reflexivity]. intros _ Hab. apply eqb_eq in Hab. congruence.
Qed.

Lemma eqb_sym (a b : jstr) : eqb a b = eqb b a.
Proof.
  destruct (eqb a b) eqn:E.
  - apply eqb_eq in E. subst. symmetry. apply eqb_refl.
  - symmetry. apply eqb_neq. apply eqb_neq in E. congruence.
Qed.

Lemma opt_eqb_eq (a b : option jstr) : opt_eqb a b = true <-> a = b.
Proof.
  destruct a as [a|], b as [b|]; simpl; try (split; congruence).
  rewrite eqb_eq. split; congruence.
Qed.

Lemma includes_In (l : list jstr) (x : jstr) : includes l x = true <-> In x l.
Proof.
  unfold includes. rewrite existsb_exists. split.
  - intros [y [Hy E]]. apply eqb_eq in E. now subst.
  - intros H. exists x. split; [assumption | apply eqb_refl].
Qed.

Lemma truthy_nonempty (s : jstr) : truthy s = true <-> s <> [].
Proof. destruct s; simpl; split; congruence. Qed.

Module ObjFacts.
Import Obj.

Section Facts.
Context {V : Type}.
Implicit Types (o : obj V) (k : jstr) (v : V).

Lemma get_None_keys o k : get o k = None <-> ~ In k (keys o).
Proof.
  induction o as [|[k' v'] r IH]; simpl.
  - tauto.
  - destruct (eqb k' k) eqn:E.
    + apply eqb_eq in E. split; [discriminate | intros H; exfalso; auto].
    + apply eqb_neq in E. rewrite IH. tauto.
Qed.

Lemma get_Some_keys o k v : get o k = Some v -> In k (keys o).
Proof.
  intros H. destruct (in_dec (list_eq_dec N.eq_dec) k (keys o)) as [Hin|Hout]; auto.
  apply get_None_keys in Hout. congruence.
Qed.

Lemma keys_get o k : In k (keys o) -> exists v, get o k = Some v.
Proof.
  intros H. destruct (get o k) as [v|] eqn:E; eauto.
  apply get_None_keys in E. contradiction.
Qed.

Lemma get_replace_same o k v v0 : get o k = Some v0 -> get (replace o k v) k = Some v.
Proof.
  induction o as [|[k' v'] r IH]; simpl; [discriminate|].
  destruct (eqb k' k) eqn:E; simpl; rewrite E; auto.
Qed.

Lemma get_replace_other o k v k0 : k0 <> k -> get (replace o k v) k0 = get o k0.
Proof.
  intros Hne. induction o as [|[k' v'] r IH]; simpl; [reflexivity|].
  destruct (eqb k' k) eqn:E; simpl.
  - apply eqb_eq in E. subst k'.
    destruct (eqb k k0) eqn:E0; [apply eqb_eq in E0; congruence | reflexivity].
  - now rewrite IH.
Qed.


Lemma get_insertIndex o n k v k0 :
  get o k = None ->
  get (insertIndex o n k v) k0 = if eqb k k0 then Some v else get o k0.
Proof.
  induction o as [|[k' v'] r IH]; simpl; intros Hk; [reflexivity|].
  destruct (eqb k' k) eqn:E; [discriminate|].
  assert (Hhead : get ((k, v) :: (k', v') :: r) k0
                  = if eqb k k0 then Some v else get ((k', v') :: r) k0) by reflexivity.
  destruct (arrayIndex k') as [n'|]; [destruct (N.ltb n n')|]; try exact Hhead.
  simpl. rewrite (IH Hk).
  destruct (eqb k' k0) eqn:E1, (eqb k k0) eqn:E2; try reflexivity.
  apply eqb_eq in E1, E2. subst. rewrite eqb_refl in E. discriminate.
Qed.

Lemma get_app_new o k v k0 :
  get o k = None -> get (o ++ [(k, v)]) k0 = if eqb k k0 then Some v else get o k0.
Proof.
  induction o as [|[k' v'] r IH]; simpl; intros Hk.
  - reflexivity.
  - destruct (eqb k' k) eqn:E; [discriminate|]. rewrite (IH Hk).
    destruct (eqb k' k0) eqn:E1, (eqb k k0) eqn:E2; try reflexivity.
    apply eqb_eq in E1, E2. subst. rewrite eqb_refl in E. discriminate.
Qed.

(** Reading a property after [o[k] = v]. *)
Lemma get_set o k v k0 : get (set o k v) k0 = if eqb k k0 then Some v else get o k0.
Proof.
  unfold set. destruct (get o k) as [v0|] eqn:E.
  - destruct (eqb k k0) eqn:E0.
    + apply eqb_eq in E0. subst k0. eapply get_replace_same; eauto.
    + apply eqb_neq in E0. apply get_replace_other. congruence.
  - destruct (arrayIndex k); [apply get_insertIndex | apply get_app_new]; assumption.
Qed.

Lemma get_set_same o k v : get (set o k v) k = Some v.
Proof. now rewrite get_set, eqb_refl. Qed.

Lemma get_set_other o k v k0 : k0 <> k -> get (set o k v) k0 = get o k0.
Proof.
  intros H. rewrite get_set.
  destruct (eqb k k0) eqn:E; [apply eqb_eq in E; congruence | reflexivity].
Qed.


(** Reading a property after [delete o[k]]. *)
Lemma get_remove o k k0 : get (remove o k) k0 = if eqb k k0 then None else get o k0.
Proof.
  induction o as [|[k' v'] r IH]; simpl.
  - now destruct (eqb k k0).
  - destruct (eqb k' k) eqn:E; simpl.
    + apply eqb_eq in E. subst k'. rewrite IH. now destruct (eqb k k0).
    + rewrite IH. destruct (eqb k' k0) eqn:E1, (eqb k k0) eqn:E2; try reflexivity.
      apply eqb_eq in E1, E2. subst. rewrite eqb_refl in E. discriminate.
Qed.

Lemma keys_remove o k : keys (remove o k) = filter (fun n => negb (eqb n k)) (keys o).
Proof.
  induction o as [|[k' v'] r IH]; simpl; [reflexivity|].
  destruct (eqb k' k); simpl; now rewrite IH.
Qed.

Lemma remove_absent o k : ~ In k (keys o) -> remove o k = o.
Proof.
  induction o as [|[k' v'] r IH]; simpl; intros H; [reflexivity|].
  destruct (eqb k' k) eqn:E.
  - apply eqb_eq in E. tauto.
  - f_equal. apply IH. tauto.
Qed.

End Facts.
End ObjFacts.

(* ================================================================== *)
(** ** The [profiles] object: basic facts *)
(* ================================================================== *)

Lemma get_parse (ps : Obj.obj ProfileSpecificSettings) (k : jstr) :
  Obj.get (Profiles.own (Profiles.parse ps)) k = option_map Settings (Obj.get ps k).
Proof.
  induction ps as [|[k' p] ps IH]; simpl; [reflexivity|].
  destruct (eqb k' k); [reflexivity | exact IH].
Qed.

Lemma read_parse (ps : Obj.obj ProfileSpecificSettings) (k : jstr) :
  Profiles.read (Profiles.parse ps) k
  = match lookup ps k with
    | Some v => Profiles.Found v
    | None => Profiles.Undefined
    end.
Proof.
  unfold Profiles.read, Profiles.member, lookup. rewrite get_parse.
  destruct (Obj.get ps k); simpl; [reflexivity|].
  destruct (eqb k (str "__proto__")); [reflexivity|].
  destruct (Obj.inherited k); reflexivity.
Qed.

(** On an object fresh from [JSON.parse], [profiles[name]] is [lookup]. *)
Lemma element_parse (ps : Obj.obj ProfileSpecificSettings) (k : jstr) (m : ConfigManager) :
  element (Profiles.parse ps) k m = (Normal (lookup ps k), m).
Proof. unfold element. rewrite read_parse. now destruct (lookup ps k). Qed.

Lemma lookup_stored (ps : Obj.obj ProfileSpecificSettings) (k : jstr)
    (p : ProfileSpecificSettings) :
  Obj.get ps k = Some p -> lookup ps k = Some (Settings p).
Proof. unfold lookup. now intros ->. Qed.

Lemma inherited_proto : Obj.inherited (str "__proto__") = true.
Proof. vm_compute. reflexivity. Qed.

Lemma lookup_absent (ps : Obj.obj ProfileSpecificSettings) (k : jstr) :
  Obj.get ps k = None -> Obj.inherited k = false -> lookup ps k = None.
Proof.
  unfold lookup. intros -> Hk. rewrite Hk.
  destruct (eqb k (str "__proto__")) eqn:E; [|reflexivity].
  apply eqb_eq in E. subst k. rewrite inherited_proto in Hk. discriminate.
Qed.

(** An inherited name that is not stored is found all the same, and what is
    found has none of the properties of a profile. *)
Lemma lookup_inherited (ps : Obj.obj ProfileSpecificSettings) (k : jstr) :
  Obj.get ps k = None -> Obj.inherited k = true ->
  exists v, lookup ps k = Some v /\ asSettings v = emptySettings.
Proof.
  unfold lookup. intros -> Hk. rewrite Hk.
  destruct (eqb k (str "__proto__")); eexists; split; reflexivity.
Qed.

Lemma stringify_parse (ps : Obj.obj ProfileSpecificSettings) :
  Profiles.stringify (Profiles.parse ps) = ps.
Proof.
  unfold Profiles.stringify, Profiles.parse. cbn [Profiles.own].
  induction ps as [|[k p] ps IH]; simpl; [reflexivity | now rewrite IH].
Qed.

Lemma replace_parse (ps : Obj.obj ProfileSpecificSettings) (k : jstr)
    (p : ProfileSpecificSettings) :
  Obj.replace (Profiles.own (Profiles.parse ps)) k (Settings p)
  = Profiles.own (Profiles.parse (Obj.replace ps k p)).
Proof.
  induction ps as [|[k' p'] ps IH]; simpl; [reflexivity|].
  destruct (eqb k' k); simpl; [reflexivity|]. f_equal. exact IH.
Qed.

Lemma insertIndex_parse (ps : Obj.obj ProfileSpecificSettings) (n : N) (k : jstr)
    (p : ProfileSpecificSettings) :
  Obj.insertIndex (Profiles.own (Profiles.parse ps)) n k (Settings p)
  = Profiles.own (Profiles.parse (Obj.insertIndex ps n k p)).
Proof.
  induction ps as [|[k' p'] ps IH]; simpl; [reflexivity|].
  destruct (Obj.arrayIndex k') as [n'|]; [|reflexivity].
  destruct (N.ltb n n'); simpl; [reflexivity|]. f_equal. exact IH.
Qed.

Lemma set_parse (ps : Obj.obj ProfileSpecificSettings) (k : jstr)
    (p : ProfileSpecificSettings) :
  Obj.set (Profiles.own (Profiles.parse ps)) k (Settings p)
  = Profiles.own (Profiles.parse (Obj.set ps k p)).
Proof.
  unfold Obj.set. rewrite get_parse.
  destruct (Obj.get ps k); simpl; [apply replace_parse|].
  destruct (Obj.arrayIndex k); [apply insertIndex_parse|].
  unfold Profiles.parse. cbn [Profiles.own]. now rewrite map_app.
Qed.

Lemma remove_parse (ps : Obj.obj ProfileSpecificSettings) (k : jstr) :
  Obj.remove (Profiles.own (Profiles.parse ps)) k
  = Profiles.own (Profiles.parse (Obj.remove ps k)).
Proof.
  induction ps as [|[k' p'] ps IH]; simpl; [reflexivity|].
  destruct (eqb k' k); simpl; [exact IH|]. f_equal. exact IH.
Qed.

(** The stored profiles after [profiles[name] = settings]. *)
Lemma assign_parse (ps : Obj.obj ProfileSpecificSettings) (k : jstr)
    (p : ProfileSpecificSettings) :
  Profiles.stringify (Profiles.assign (Profiles.parse ps) k (Settings p))
  = assigned ps k p.
Proof.
  unfold Profiles.assign, assigned. rewrite get_parse.
  destruct (eqb k (str "__proto__") && negb (present (Obj.get ps k))) eqn:E.
  - replace (eqb k (str "__proto__")
             && negb (present (option_map Settings (Obj.get ps k)))) with true
      by (now destruct (Obj.get ps k)).
    exact (stringify_parse ps).
  - replace (eqb k (str "__proto__")
             && negb (present (option_map Settings (Obj.get ps k)))) with false
      by (now destruct (Obj.get ps k)).
    rewrite set_parse. exact (stringify_parse (Obj.set ps k p)).
Qed.

(** The stored profiles after [delete profiles[name]]. *)
Lemma delete_parse (ps : Obj.obj ProfileSpecificSettings) (k : jstr) :
  Profiles.stringify (Profiles.delete (Profiles.parse ps) k) = Obj.remove ps k.
Proof.
  unfold Profiles.delete. cbn [Profiles.prototype Profiles.parse].
  rewrite remove_parse. exact (stringify_parse (Obj.remove ps k)).
Qed.


Lemma assigned_ordinary (ps : Obj.obj ProfileSpecificSettings) (k : jstr)
    (p : ProfileSpecificSettings) :
  k <> str "__proto__" -> assigned ps k p = Obj.set ps k p.
Proof.
  unfold assigned. intros Hk. apply eqb_neq in Hk. now rewrite Hk.
Qed.

(** An assignment changes no profile under another name. *)
Lemma get_assigned_other (ps : Obj.obj ProfileSpecificSettings) (k k0 : jstr)
    (p : ProfileSpecificSettings) :
  k0 <> k -> Obj.get (assigned ps k p) k0 = Obj.get ps k0.
Proof.
  intros Hk. unfold assigned.
  destruct (eqb k (str "__proto__") && negb (present (Obj.get ps k))); [reflexivity|].
  now apply ObjFacts.get_set_other.
Qed.

(** Under the name itself an assignment leaves the new value, or, for a
    [__proto__] that was not stored, nothing. *)
Lemma get_assigned_same (ps : Obj.obj ProfileSpecificSettings) (k : jstr)
    (p : ProfileSpecificSettings) :
  Obj.get (assigned ps k p) k
  = if eqb k (str "__proto__") && negb (present (Obj.get ps k)) then None else Some p.
Proof.
  unfold assigned.
  destruct (eqb k (str "__proto__") && negb (present (Obj.get ps k))) eqn:E.
  - apply andb_prop in E. destruct E as [_ E].
    now destruct (Obj.get ps k).
  - apply ObjFacts.get_set_same.
Qed.

(* ================================================================== *)
(** ** Name validation *)
(* ================================================================== *)

Lemma truthy_length (s : jstr) : Nat.eqb (length s) 0 = negb (truthy s).
Proof. now destruct s. Qed.

(** C10.  Whatever the candidate and the existing names, [validateProfileName]
    reports at most one error: the rules are tried in the order missing, blank
    after trimming, already among the existing names, longer than 50, characters
    not allowed, and only the first one that fails contributes its message.  A
    candidate of 60 characters that is also an existing name reports only
    "Profile name already exists". *)
Theorem validateProfileName_first_failure_only :
  forall (name : jstr) (existingNames : list jstr),
    errors (validateProfileName name existingNames) = firstFailure name existingNames
    /\ length (errors (validateProfileName name existingNames)) <= 1
    /\ isValid (validateProfileName name existingNames)
       = negb (existsb (ruleFails name existingNames) nameRules)
    /\ errors (validateProfileName Sample.sixty [Sample.sixty])
       = [str "Profile name already exists"].
Proof.
  intros name existingNames.
  assert (E : errors (validateProfileName name existingNames)
              = firstFailure name existingNames).
  { unfold validateProfileName, validationOf, firstFailure, nameRules, nameRegexTest.
    cbn [errors find ruleFails].
    rewrite truthy_length.
    destruct (truthy name) eqn:Hn; cbn [negb andb]; [|reflexivity].
    destruct (truthy (trim name)); cbn [negb]; [|reflexivity].
    destruct (includes existingNames name); [reflexivity|].
    destruct (Nat.ltb 50 (length name)); [reflexivity|].
    destruct (forallb nameChar name); reflexivity. }
  split; [exact E|]. split; [|split].
  - rewrite E. unfold firstFailure.
    destruct (find (ruleFails name existingNames) nameRules); simpl; lia.
  - unfold validateProfileName at 1. unfold validationOf. cbn [isValid].
    fold (errors (validateProfileName name existingNames)).
    change (Nat.eqb (length (errors (validateProfileName name existingNames))) 0
            = negb (existsb (ruleFails name existingNames) nameRules)).
    rewrite E. unfold firstFailure, nameRules. cbn [find existsb].
    destruct (ruleFails name existingNames Missing); [reflexivity|].
    destruct (ruleFails name existingNames BlankAfterTrim); [reflexivity|].
    destruct (ruleFails name existingNames AlreadyExists); [reflexivity|].
    destruct (ruleFails name existingNames LongerThan50); [reflexivity|].
    destruct (ruleFails name existingNames DisallowedCharacters); reflexivity.
  - vm_compute. reflexivity.
Qed.

(** C9, at the input on which the validator departs from it: the candidate
    "a", TAB, "b" has a character that is none of letter, digit, space,
    underscore or hyphen, and [validateProfileName] accepts it, because the
    class escape [\s] of its regular expression matches every white-space
    character. *)
Theorem validateProfileName_accepts_tab :
  forallb allowedChar Sample.tabbed = false
  /\ validateProfileName Sample.tabbed [] = mkValidationResult true [].
Proof. split; vm_compute; reflexivity. Qed.

(* ================================================================== *)
(** ** The manager: reading and committing *)
(* ================================================================== *)

Lemma readConfig_eq (m : ConfigManager) :
  readConfig m = (Normal (refOf m, currentDocument m), m).
Proof. unfold readConfig, refOf, currentDocument. now destruct (secrets m). Qed.

Lemma commit_eq (m : ConfigManager) (config : ApiConfigData) :
  (assign (refOf m) config ;; writeConfig config) m = (Normal tt, committed m config).
Proof.
  unfold bind, assign, writeConfig, committed, refOf.
  destruct m as [s d r n c]; simpl. now destruct s.
Qed.

Lemma currentDocument_committed (m : ConfigManager) (config : ApiConfigData) :
  currentDocument (committed m config) = config.
Proof. reflexivity. Qed.

(* ================================================================== *)
(** ** DeleteConfig *)
(* ================================================================== *)

Lemma remove_app {V : Type} (a b : Obj.obj V) (k : jstr) :
  Obj.remove (a ++ b) k = Obj.remove a k ++ Obj.remove b k.
Proof.
  induction a as [|[k' v'] a IH]; simpl; [reflexivity|].
  destruct (eqb k' k); simpl; now rewrite IH.
Qed.

Lemma keys_filter_subset {V : Type} (f : jstr * V -> bool) (o : Obj.obj V) (k : jstr) :
  In k (Obj.keys (filter f o)) -> In k (Obj.keys o).
Proof.
  unfold Obj.keys. rewrite !in_map_iff. intros [x [E Hx]].
  apply filter_In in Hx. exists x. tauto.
Qed.

Lemma pruneModes_steps (i : option jstr) (todo done : Obj.obj jstr) :
  uniqueKeys (done ++ todo) ->
  fold_left
    (fun remaining '(mode, configId) =>
       if opt_eqb (Some configId) i then Obj.remove remaining mode else remaining)
    todo (filter (keptBinding i) done ++ todo)
  = filter (keptBinding i) (done ++ todo).
Proof.
  revert done. induction todo as [|[mode configId] todo IH]; intros done Hu.
  - simpl. now rewrite !app_nil_r.
  - cbn [fold_left].
    assert (Hu' : uniqueKeys ((done ++ [(mode, configId)]) ++ todo))
      by now rewrite <- app_assoc.
    specialize (IH (done ++ [(mode, configId)]) Hu').
    rewrite <- app_assoc in IH. cbn [app] in IH. rewrite <- IH. clear IH.
    rewrite filter_app. cbn [filter].
    replace (keptBinding i (mode, configId)) with (negb (opt_eqb (Some configId) i))
      by reflexivity.
    destruct (opt_eqb (Some configId) i) eqn:E; cbn [negb].
    + f_equal. rewrite app_nil_r.
      unfold uniqueKeys, Obj.keys in Hu. rewrite map_app in Hu. cbn [map fst] in Hu.
      apply NoDup_remove_2 in Hu. rewrite in_app_iff in Hu.
      rewrite remove_app. cbn [Obj.remove]. rewrite eqb_refl.
      rewrite !ObjFacts.remove_absent; [reflexivity | tauto |].
      intros Hin. apply keys_filter_subset in Hin. tauto.
    + now rewrite <- app_assoc.
Qed.

(** With each mode once, the loop of [DeleteConfig] drops exactly the
    bindings to the deleted profile's id. *)
Lemma pruneModes_filter (i : option jstr) (modes : Obj.obj jstr) :
  uniqueKeys modes -> pruneModes i modes = filter (keptBinding i) modes.
Proof. intros Hu. exact (pruneModes_steps i modes [] Hu). Qed.

(** With each key once, the first key other than [name] is the first key
    that remains after [name] is deleted. *)
Lemma find_other_remaining {V : Type} (o : Obj.obj V) (name : jstr) :
  find (fun n => negb (eqb n name)) (Obj.keys o) = hd_error (Obj.keys (Obj.remove o name)).
Proof.
  induction o as [|[k v] o IH]; simpl; [reflexivity|].
  destruct (eqb k name); simpl; [exact IH | reflexivity].
Qed.

Lemma remaining_nonempty {V : Type} (o : Obj.obj V) (name : jstr) (v : V) :
  uniqueKeys o -> Obj.get o name = Some v -> length (Obj.keys o) <> 1 ->
  exists n, hd_error (Obj.keys (Obj.remove o name)) = Some n /\ In n (Obj.keys o).
Proof.
  intros Hu Hget Hlen.
  destruct (Obj.keys (Obj.remove o name)) as [|n rest] eqn:E.
  - exfalso. apply Hlen. rewrite ObjFacts.keys_remove in E.
    apply ObjFacts.get_Some_keys in Hget. unfold uniqueKeys in Hu.
    revert Hu Hget E. generalize (Obj.keys o). intros l Hu Hin E.
    destruct l as [|a l]; [contradiction|]. destruct l as [|b l]; [reflexivity|].
    exfalso. simpl in E.
    destruct (eqb a name) eqn:Ea; [|discriminate].
    destruct (eqb b name) eqn:Eb; [|discriminate].
    apply eqb_eq in Ea, Eb. subst. inversion Hu; subst. simpl in *. tauto.
  - exists n. split; [reflexivity|].
    assert (Hin : In n (Obj.keys (Obj.remove o name))) by (rewrite E; now left).
    rewrite ObjFacts.keys_remove in Hin. apply filter_In in Hin. tauto.
Qed.

Lemma tryCatch_normal {A : Type} (prefix : string) (body : Promise A)
    (m m' : ConfigManager) (a : A) :
  body m = (Normal a, m') -> tryCatch prefix body m = (Normal a, m').
Proof. unfold tryCatch. now intros ->. Qed.

Lemma tryCatch_throw {A : Type} (prefix : string) (body : Promise A)
    (m m' : ConfigManager) (e : Exception) :
  body m = (Throw e, m') -> tryCatch prefix body m = (Throw (rethrown prefix e), m').
Proof. unfold tryCatch. now intros ->. Qed.

Lemma bind_readConfig {A : Type} (k : Ref * ApiConfigData -> Promise A) (m : ConfigManager) :
  bind readConfig k m = k (refOf m, currentDocument m) m.
Proof. unfold bind. now rewrite readConfig_eq. Qed.

Lemma sameToggles_refl (g : GlobalSettings) : sameToggles g g.
Proof. repeat split. Qed.

(** The global settings [DeleteConfig name] writes when it deletes the
    profile [p]: the first remaining key is current if [name] was, and the
    modes bound to the id of [p] are gone. *)
Lemma DeleteConfig_deletes (m : ConfigManager) (name : jstr) (g : GlobalSettings)
    (ps : Obj.obj ProfileSpecificSettings) (p : ProfileSpecificSettings) :
  currentShape (currentDocument m) g ps ->
  Obj.get ps name = Some p ->
  length (Obj.keys ps) <> 1 ->
  exists g',
    DeleteConfig name m
    = (Normal tt,
       committed m (withProfiles (withGlobalSettings (currentDocument m) g')
                                 (Obj.remove ps name)))
    /\ currentApiConfigName g'
       = (if opt_eqb (currentApiConfigName g) (Some name)
          then hd_error (Obj.keys (Obj.remove ps name))
          else currentApiConfigName g)
    /\ modeApiConfigs g'
       = option_map (filter (keptBinding (id p))) (modeApiConfigs g)
    /\ sameToggles g g'.
Proof.
  intros [Hg Hp Hu Hn Hm] Hget Hlen.
  destruct (remaining_nonempty ps name p Hu Hget Hlen) as [n [Hhd Hin]].
  assert (Hne : truthy n = true).
  { apply truthy_nonempty. intros ->. contradiction. }
  set (g1 := if opt_eqb (currentApiConfigName g) (Some name)
             then withCurrent g (Some n) else g).
  set (g2 := match modeApiConfigs g1 with
             | Some modes => withModes g1 (Some (pruneModes (id p) modes))
             | None => g1
             end).
  exists g2. split; [|split; [|split]].
  - apply tryCatch_normal.
    rewrite bind_readConfig. unfold bind at 1. rewrite Hp. cbn [propertyOf ret].
    unfold bind at 1. rewrite element_parse, (lookup_stored ps name p Hget).
    cbn [asSettings].
    apply Nat.eqb_neq in Hlen. rewrite Hlen.
    unfold bind at 1. rewrite Hg. cbn [propertyOf ret].
    rewrite find_other_remaining, Hhd, Hne, delete_parse.
    apply commit_eq.
  - subst g2 g1. rewrite Hhd.
    destruct (opt_eqb (currentApiConfigName g) (Some name));
      cbn [withCurrent modeApiConfigs];
      destruct (modeApiConfigs g); reflexivity.
  - assert (Hmodes : modeApiConfigs g1 = modeApiConfigs g).
    { subst g1. now destruct (opt_eqb (currentApiConfigName g) (Some name)). }
    subst g2. rewrite Hmodes.
    destruct (modeApiConfigs g) as [modes|] eqn:E; cbn [option_map withModes modeApiConfigs].
    + now rewrite (pruneModes_filter (id p) modes (Hm modes eq_refl)).
    + exact Hmodes.
  - subst g2 g1.
    destruct (opt_eqb (currentApiConfigName g) (Some name));
      cbn [withCurrent modeApiConfigs];
      destruct (modeApiConfigs g); repeat split.
Qed.

(** C7, at inputs on which the manager departs from it.  With profiles "a"
    and "b" stored, "constructor" is not a profile; yet [DeleteConfig] finds
    [profiles["constructor"]] (the function every object inherits), does not
    throw "not found", and writes the document again.  And with profiles "a"
    and "" stored and "a" current, deleting "a" leaves "a" the current name,
    because the test [if (newCurrentName)] takes the empty first remaining key
    for no key at all. *)
Theorem DeleteConfig_finds_inherited_name :
  profileOf (Sample.manager Sample.pair) (str "constructor") = None
  /\ DeleteConfig (str "constructor") (Sample.manager Sample.pair)
     = (Normal tt, Sample.manager Sample.pair)
  /\ DeleteConfig (str "a") (Sample.manager Sample.unnamed)
     = (Normal tt,
        Sample.manager (document (onlyCurrent (Some (str "a")))
                                 [([], Sample.profile "id-b")]))
  /\ profileOf (snd (DeleteConfig (str "a") (Sample.manager Sample.unnamed))) (str "a")
     = None.
Proof. vm_compute. repeat split. Qed.

(** On a document of the current shape (both parts present, each key once,
    no profile under the empty name), [DeleteConfig name]
    - throws "Config 'name' not found" when there is no such profile and
      [name] names no member of [Object.prototype],
    - throws "Cannot delete the last remaining configuration." and leaves the
      state as it was when [name] is the only profile,
    - and otherwise deletes the profile, makes the first remaining key the
      current name when the deleted profile was current, drops every mode
      binding whose value is the deleted profile's id (and no other), keeps the
      toggles, and writes the document.
    With profiles "a" and "b" and "a" current, deleting "a" leaves "b", current. *)
Theorem DeleteConfig_cases :
  forall (m : ConfigManager) (name : jstr) (g : GlobalSettings)
         (ps : Obj.obj ProfileSpecificSettings),
    currentShape (currentDocument m) g ps ->
    (Obj.get ps name = None -> Obj.inherited name = false ->
       DeleteConfig name m
       = (Throw (rethrown "Failed to delete config" (notFound name)), m))
    /\ (forall p, Obj.get ps name = Some p -> length (Obj.keys ps) = 1 ->
          DeleteConfig name m
          = (Throw (rethrown "Failed to delete config" cannotDeleteLast), m))
    /\ (forall p, Obj.get ps name = Some p -> length (Obj.keys ps) <> 1 ->
          exists g',
            DeleteConfig name m
            = (Normal tt,
               committed m (withProfiles (withGlobalSettings (currentDocument m) g')
                                         (Obj.remove ps name)))
            /\ currentApiConfigName g'
               = (if opt_eqb (currentApiConfigName g) (Some name)
                  then hd_error (Obj.keys (Obj.remove ps name))
                  else currentApiConfigName g)
            /\ modeApiConfigs g'
               = option_map (filter (keptBinding (id p))) (modeApiConfigs g)
            /\ sameToggles g g'
            /\ Obj.get (Obj.remove ps name) name = None
            /\ (forall other, other <> name ->
                  Obj.get (Obj.remove ps name) other = Obj.get ps other))
    /\ DeleteConfig (str "a") (Sample.manager Sample.pair)
       = (Normal tt,
          Sample.manager (document (onlyCurrent (Some (str "b")))
                                   [(str "b", Sample.profile "id-b")])).
Proof.
  intros m name g ps S.
  split; [|split; [|split]].
  - destruct S as [_ Hp _ _ _]. intros Hget Hname. apply tryCatch_throw.
    rewrite bind_readConfig. unfold bind. rewrite Hp. cbn [propertyOf ret].
    now rewrite element_parse, (lookup_absent ps name Hget Hname).
  - destruct S as [_ Hp _ _ _]. intros p Hget Hlen. apply tryCatch_throw.
    rewrite bind_readConfig. unfold bind. rewrite Hp. cbn [propertyOf ret].
    rewrite element_parse, (lookup_stored ps name p Hget), Hlen. reflexivity.
  - intros p Hget Hlen.
    destruct (DeleteConfig_deletes m name g ps p S Hget Hlen) as [g' [H1 [H2 [H3 H4]]]].
    exists g'. repeat (split; [assumption|]). split.
    + rewrite ObjFacts.get_remove. now rewrite eqb_refl.
    + intros other Hother. rewrite ObjFacts.get_remove.
      destruct (eqb name other) eqn:E; [apply eqb_eq in E; congruence | reflexivity].
  - vm_compute. reflexivity.
Qed.

(** [DeleteConfig_cases] on a store that holds profiles "a" and "b" with a mode
    bound to each: deleting "a" succeeds and writes a document. *)
Lemma DeleteConfig_cases_witness :
  exists g',
    DeleteConfig (str "a") (Sample.manager Sample.bound)
    = (Normal tt,
       committed (Sample.manager Sample.bound)
         (withProfiles (withGlobalSettings Sample.bound g')
                       [(str "b", Sample.profile "id-b")]))
    /\ currentApiConfigName g' = Some (str "b")
    /\ modeApiConfigs g' = Some [(str "ask", str "id-b")].
Proof.
  assert (S : currentShape (currentDocument (Sample.manager Sample.bound))
                (mkGlobalSettings (Some (str "a")) None None None None None
                   (Some [(str "code", str "id-a"); (str "ask", str "id-b")]))
                [(str "a", Sample.profile "id-a"); (str "b", Sample.profile "id-b")]).
  { split; try reflexivity.
    - unfold uniqueKeys. repeat constructor; vm_compute; intuition discriminate.
    - vm_compute. intuition discriminate.
    - intros modes H. injection H as <-.
      unfold uniqueKeys. repeat constructor; vm_compute; intuition discriminate. }
  destruct (DeleteConfig_cases _ (str "a") _ _ S) as [_ [_ [H _]]].
  destruct (H (Sample.profile "id-a") eq_refl) as [g' [H1 [H2 [H3 _]]]].
  - vm_compute. discriminate.
  - exists g'. split; [exact H1|]. split; [exact H2 | exact H3].
Defined.

(* ================================================================== *)
(** ** initConfig on an empty store *)
(* ================================================================== *)

(** With nothing stored, [readConfig] hands out [this.defaultConfig], which is
    an object; so the branch of [initConfig] that writes the default document
    is never taken, and when the default profile's id is not empty the two
    "ensure" steps find nothing to repair: the store stays empty. *)
Lemma initConfig_nothing_stored (rnd : nat -> jstr) :
  truthy (rnd 0) = true ->
  initConfig (newConfigManager rnd None) = (Normal tt, newConfigManager rnd None).
Proof.
  intros H. unfold initConfig, tryCatch, newConfigManager, freshDefaultConfig, bind.
  cbn -[str]. rewrite H. reflexivity.
Qed.

(** C5, at the input on which the manager departs from it: a manager built
    over an empty store.  [initConfig] completes and the store is still empty:
    no document was written. *)
Theorem initConfig_empty_store_writes_nothing :
  secrets (newConfigManager Sample.random None) = None
  /\ initConfig (newConfigManager Sample.random None)
     = (Normal tt, newConfigManager Sample.random None)
  /\ secrets (snd (initConfig (newConfigManager Sample.random None))) = None.
Proof.
  split; [reflexivity|].
  rewrite (initConfig_nothing_stored Sample.random eq_refl). split; reflexivity.
Qed.

(* ================================================================== *)
(** ** RenameConfig *)
(* ================================================================== *)

(** C3, on a run that breaks it: a manager over an empty store is initialised
    and its only profile is renamed to its own name.  [RenameConfig] assigns
    the profile to the new key and then deletes the old key, which is the same
    key: the document it writes has no profile, and its current name
    "default" is not a key of [profiles]. *)
Theorem RenameConfig_same_name_deletes_profile :
  fst (RenameConfig (str "default") (str "default") Sample.initialised) = Normal tt
  /\ secrets (snd (RenameConfig (str "default") (str "default") Sample.initialised))
     = Some (document (onlyCurrent (Some (str "default"))) [])
  /\ profileOf (snd (RenameConfig (str "default") (str "default") Sample.initialised))
       (str "default") = None.
Proof. vm_compute. repeat split. Qed.

(** C4, at an input on which the manager departs from it: profiles "a" and
    "b", mode "code" bound to the id of "a", and "a" renamed to the fresh,
    valid name "c".  The loop over the mode bindings reads
    [profiles[oldName].id] after [profiles[oldName]] has been deleted, so the
    method throws a [TypeError] and nothing is written. *)
Theorem RenameConfig_throws_when_a_mode_is_bound :
  isValid (validateProfileName (str "c") [str "b"]) = true
  /\ RenameConfig (str "a") (str "c") (Sample.manager Sample.bound)
     = (Throw (rethrown "Failed to rename config" (cannotRead (str "id"))),
        Sample.manager Sample.bound).
Proof. split; vm_compute; reflexivity. Qed.

(* ================================================================== *)
(** ** SaveConfig and LoadConfig: validation of the settings *)
(* ================================================================== *)

Lemma extractProfileSettings_eq (config : ApiConfiguration) (m : ConfigManager) :
  extractProfileSettings config m = (Normal (extracted m config), afterExtract m config).
Proof.
  unfold extractProfileSettings, extracted, extractedId, afterExtract, bind, generateId, ret.
  destruct (opt_truthy (id config)); reflexivity.
Qed.

(** The validator reads fields that extraction copies: the id and the other
    properties do not matter to it. *)
Lemma validateProfileSettings_profileFields (config : ApiConfiguration) (i : option jstr) :
  validateProfileSettings (profileFields config i) = validateProfileSettings config.
Proof. reflexivity. Qed.

Lemma currentDocument_afterExtract (m : ConfigManager) (config : ApiConfiguration) :
  currentDocument (afterExtract m config) = currentDocument m.
Proof. unfold afterExtract. now destruct (opt_truthy (id config)). Qed.

Lemma secrets_afterExtract (m : ConfigManager) (config : ApiConfiguration) :
  secrets (afterExtract m config) = secrets m.
Proof. unfold afterExtract. now destruct (opt_truthy (id config)). Qed.

Lemma refOf_afterExtract (m : ConfigManager) (config : ApiConfiguration) :
  refOf (afterExtract m config) = refOf m.
Proof. unfold refOf. now rewrite secrets_afterExtract. Qed.

Lemma invalid_has_errors (errs : list jstr) :
  isValid (validationOf errs) = false -> errors (validationOf errs) <> [].
Proof. destruct errs; simpl; [discriminate | intros _; discriminate]. Qed.

(** C6, at an input on which the manager departs from it.  The store holds
    the single profile "default"; saving the Bedrock configuration without its
    secret key under the name "toString" is refused with "Invalid
    configuration: Secret key is required for AWS Bedrock" and nothing is
    written.  "toString" is still not a profile; yet [LoadConfig] finds
    [profiles["toString"]] (the function every object inherits): instead of
    throwing "not found" it warns, writes the document with "toString" as the
    current name, and returns the empty object. *)
Theorem LoadConfig_finds_inherited_name :
  SaveConfig (str "toString") Sample.bedrockNoSecret (Sample.manager Sample.single)
  = (Throw (rethrown "Failed to save config"
              (invalidConfiguration [str "Secret key is required for AWS Bedrock"])),
     afterExtract (Sample.manager Sample.single) Sample.bedrockNoSecret)
  /\ secrets (afterExtract (Sample.manager Sample.single) Sample.bedrockNoSecret)
     = Some Sample.single
  /\ profileOf (afterExtract (Sample.manager Sample.single) Sample.bedrockNoSecret)
       (str "toString") = None
  /\ fst (LoadConfig (str "toString")
            (afterExtract (Sample.manager Sample.single) Sample.bedrockNoSecret))
     = Normal emptySettings
  /\ secrets (snd (LoadConfig (str "toString")
                     (afterExtract (Sample.manager Sample.single) Sample.bedrockNoSecret)))
     = Some (document (onlyCurrent (Some (str "toString")))
                      [(str "default", Sample.profile "abc")])
  /\ console (snd (LoadConfig (str "toString")
                     (afterExtract (Sample.manager Sample.single) Sample.bedrockNoSecret)))
     = [str "Loading profile with validation errors: Invalid API provider"].
Proof. vm_compute. repeat split. Qed.

(** When the profile extracted from [cfg] fails [validateProfileSettings],
    [SaveConfig name cfg] throws "Invalid configuration: ..." with the
    validator's (non-empty) list of errors, writes nothing, and leaves both the
    store and [defaultConfig] as they were; a name that was not stored and
    names no member of [Object.prototype] is still "not found" to [LoadConfig]
    afterwards.  [LoadConfig], on a document that has its global settings and
    on a stored profile that fails the same validation, only warns on the
    console, makes the profile current, writes, and returns it.  For
    [{ apiProvider: "bedrock", awsAccessKey: "k" }] the error is
    "Secret key is required for AWS Bedrock". *)
Theorem SaveConfig_invalid_settings_hard_LoadConfig_soft :
  forall (m : ConfigManager) (name : jstr) (cfg : ApiConfiguration),
    isValid (validateProfileSettings (extracted m cfg)) = false ->
    SaveConfig name cfg m
    = (Throw (rethrown "Failed to save config"
                (invalidConfiguration (errors (validateProfileSettings (extracted m cfg))))),
       afterExtract m cfg)
    /\ errors (validateProfileSettings (extracted m cfg)) <> []
    /\ secrets (afterExtract m cfg) = secrets m
    /\ defaultConfig (afterExtract m cfg) = defaultConfig m
    /\ console (afterExtract m cfg) = console m
    /\ (forall ps, profiles (currentDocument m) = Some ps -> Obj.get ps name = None ->
          Obj.inherited name = false ->
          LoadConfig name (afterExtract m cfg)
          = (Throw (rethrown "Failed to load config" (notFound name)), afterExtract m cfg))
    /\ (forall stored g ps p,
          globalSettings (currentDocument m) = Some g ->
          profiles (currentDocument m) = Some ps ->
          Obj.get ps stored = Some p ->
          isValid (validateProfileSettings p) = false ->
          LoadConfig stored m
          = (Normal p,
             committed
               (warned m (str "Loading profile with validation errors: "
                          ++ join (str ", ") (errors (validateProfileSettings p))))
               (withGlobalSettings (currentDocument m) (withCurrent g (Some stored)))))
    /\ errors (validateProfileSettings
                 (extracted (Sample.manager Sample.single) Sample.bedrockNoSecret))
       = [str "Secret key is required for AWS Bedrock"]
    /\ rethrown "Failed to save config"
         (invalidConfiguration
            (errors (validateProfileSettings
                       (extracted (Sample.manager Sample.single) Sample.bedrockNoSecret))))
       = Error (str "Failed to save config: Error: Invalid configuration: Secret key is required for AWS Bedrock").
Proof.
  intros m name cfg Hbad.
  split; [|split; [|split; [|split; [|split; [|split; [|split; [|split]]]]]]].
  - apply tryCatch_throw. rewrite bind_readConfig. unfold bind.
    rewrite extractProfileSettings_eq, Hbad. reflexivity.
  - apply invalid_has_errors. exact Hbad.
  - apply secrets_afterExtract.
  - unfold afterExtract. now destruct (opt_truthy (id cfg)).
  - unfold afterExtract. now destruct (opt_truthy (id cfg)).
  - intros ps Hp Hget Hname. apply tryCatch_throw. rewrite bind_readConfig. unfold bind.
    rewrite currentDocument_afterExtract, Hp. cbn [propertyOf ret].
    now rewrite element_parse, (lookup_absent ps name Hget Hname).
  - intros stored g ps p Hg Hp Hget Hp_bad. apply tryCatch_normal.
    rewrite bind_readConfig. unfold bind at 1. rewrite Hp. cbn [propertyOf ret].
    unfold bind at 1. rewrite element_parse, (lookup_stored ps stored p Hget).
    cbn [asSettings]. rewrite Hp_bad. cbn [negb]. rewrite Hg.
    set (line := str "Loading profile with validation errors: "
                 ++ join (str ", ") (errors (validateProfileSettings p))).
    set (config := withGlobalSettings (currentDocument m) (withCurrent g (Some stored))).
    unfold bind at 1. change (warn line m) with (Normal tt, warned m line).
    cbv beta iota.
    pose proof (commit_eq (warned m line) config) as Hc.
    change (refOf (warned m line)) with (refOf m) in Hc.
    unfold bind in Hc |- *.
    destruct (assign (refOf m) config (warned m line)) as [[[]|e|] m1]; try discriminate.
    destruct (writeConfig config m1) as [[[]|e|] m2]; try discriminate.
    injection Hc as ->. reflexivity.
  - vm_compute. reflexivity.
  - vm_compute. reflexivity.
Qed.

(** [SaveConfig_invalid_settings_hard_LoadConfig_soft] on the store with the
    single profile "default": saving the Bedrock configuration without its
    secret key under the new name "x" is refused, and "x" is still unknown. *)
Lemma SaveConfig_invalid_settings_witness :
  SaveConfig (str "x") Sample.bedrockNoSecret (Sample.manager Sample.single)
  = (Throw (rethrown "Failed to save config"
              (invalidConfiguration [str "Secret key is required for AWS Bedrock"])),
     afterExtract (Sample.manager Sample.single) Sample.bedrockNoSecret)
  /\ LoadConfig (str "x") (afterExtract (Sample.manager Sample.single) Sample.bedrockNoSecret)
     = (Throw (rethrown "Failed to load config" (notFound (str "x"))),
        afterExtract (Sample.manager Sample.single) Sample.bedrockNoSecret).
Proof.
  destruct (SaveConfig_invalid_settings_hard_LoadConfig_soft
              (Sample.manager Sample.single) (str "x") Sample.bedrockNoSecret eq_refl)
    as [Hsave [_ [_ [_ [_ [Hload _]]]]]].
  split.
  - exact Hsave.
  - exact (Hload [(str "default", Sample.profile "abc")] eq_refl eq_refl eq_refl).
Defined.

(* ================================================================== *)
(** ** SaveConfig: what it stores and what it leaves alone *)
(* ================================================================== *)

Lemma transitionWarned_secrets (m : ConfigManager) (existing : option ProfileSpecificSettings)
    (p : ProfileSpecificSettings) :
  secrets (transitionWarned m existing p) = secrets m.
Proof.
  unfold transitionWarned. destruct existing as [e|]; [|reflexivity].
  now destruct (isValid (validateProfileTransition e p)).
Qed.

(** The opening of [SaveConfig]: read, extract, and test the settings, whose
    validity [Hs] states. *)
Ltac save_extract Hs :=
  rewrite bind_readConfig;
  unfold bind at 1; rewrite extractProfileSettings_eq; cbv beta iota zeta;
  unfold extracted at 1; rewrite validateProfileSettings_profileFields, Hs;
  cbn [negb].

(** [SaveConfig] on settings and a name that both pass validation. *)
Lemma SaveConfig_valid (m : ConfigManager) (name : jstr) (cfg : ApiConfiguration)
    (ps : Obj.obj ProfileSpecificSettings) :
  profiles (currentDocument m) = Some ps ->
  isValid (validateProfileSettings cfg) = true ->
  isValid (validateProfileName name (otherNames ps name)) = true ->
  SaveConfig name cfg m = (Normal tt, saved m name cfg ps).
Proof.
  intros Hp Hs Hn. apply tryCatch_normal. save_extract Hs.
  unfold bind at 1. rewrite Hp. cbn [objectOf ret]. rewrite Hn. cbn [negb].
  cbv zeta. rewrite assign_parse. unfold saved.
  set (config := withProfiles (currentDocument m) (assigned ps name (extracted m cfg))).
  set (m1 := afterExtract m cfg).
  assert (Hstep : forall m2, secrets m2 = secrets m ->
            (assign (refOf m) config ;; writeConfig config) m2 = (Normal tt, committed m2 config)).
  { intros m2 H2. rewrite <- (commit_eq m2 config). unfold refOf. now rewrite H2. }
  unfold bind at 1. unfold bind at 1. rewrite element_parse.
  destruct (lookup ps name) as [v|]; cbn [option_map transitionWarned].
  - destruct (isValid (validateProfileTransition (asSettings v) (extracted m cfg)));
      cbn [negb].
    + cbn [ret]. apply Hstep. apply secrets_afterExtract.
    + unfold warn at 1. fold (warned m1 (str "Profile transition warnings: "
          ++ join (str ", ")
               (errors (validateProfileTransition (asSettings v) (extracted m cfg))))).
      apply Hstep. cbn [warned secrets]. apply secrets_afterExtract.
  - cbn [ret]. apply Hstep. apply secrets_afterExtract.
Qed.

(** A [SaveConfig] that completes normally went through both validations. *)
Lemma SaveConfig_normal (m m' : ConfigManager) (name : jstr) (cfg : ApiConfiguration) :
  SaveConfig name cfg m = (Normal tt, m') ->
  exists ps,
    profiles (currentDocument m) = Some ps
    /\ isValid (validateProfileSettings cfg) = true
    /\ isValid (validateProfileName name (otherNames ps name)) = true
    /\ m' = saved m name cfg ps.
Proof.
  intros H.
  destruct (isValid (validateProfileSettings cfg)) eqn:Hs;
    [destruct (profiles (currentDocument m)) as [ps|] eqn:Hp;
       [destruct (isValid (validateProfileName name (otherNames ps name))) eqn:Hn|]|].
  - exists ps. rewrite (SaveConfig_valid m name cfg ps Hp Hs Hn) in H.
    injection H as <-. auto.
  - exfalso. revert H. unfold SaveConfig, tryCatch. save_extract Hs.
    unfold bind at 1. rewrite Hp. cbn [objectOf ret]. rewrite Hn. discriminate.
  - exfalso. revert H. unfold SaveConfig, tryCatch. save_extract Hs.
    unfold bind at 1. rewrite Hp. discriminate.
  - exfalso. revert H. unfold SaveConfig, tryCatch. save_extract Hs. discriminate.
Qed.

Lemma currentDocument_saved (m : ConfigManager) (name : jstr) (cfg : ApiConfiguration)
    (ps : Obj.obj ProfileSpecificSettings) :
  currentDocument (saved m name cfg ps)
  = withProfiles (currentDocument m) (assigned ps name (extracted m cfg)).
Proof. reflexivity. Qed.

Lemma profileOf_saved (m : ConfigManager) (name : jstr) (cfg : ApiConfiguration)
    (ps : Obj.obj ProfileSpecificSettings) (k : jstr) :
  profiles (currentDocument m) = Some ps ->
  k <> name ->
  profileOf (saved m name cfg ps) k = profileOf m k.
Proof.
  intros Hp Hk. unfold profileOf. rewrite currentDocument_saved, Hp.
  cbn [withProfiles profiles]. now apply get_assigned_other.
Qed.

(** Under the name it was given, [SaveConfig] leaves the profile it
    extracted; except that an assignment to a [__proto__] that is not stored
    creates no entry. *)
Lemma profileOf_saved_same (m : ConfigManager) (name : jstr) (cfg : ApiConfiguration)
    (ps : Obj.obj ProfileSpecificSettings) :
  profiles (currentDocument m) = Some ps ->
  profileOf (saved m name cfg ps) name
  = if eqb name (str "__proto__") && negb (present (profileOf m name)) then None
    else Some (extracted m cfg).
Proof.
  intros Hp. unfold profileOf. rewrite currentDocument_saved, Hp.
  cbn [withProfiles profiles]. apply get_assigned_same.
Qed.

Lemma profileOf_saved_entry (m : ConfigManager) (name : jstr) (cfg : ApiConfiguration)
    (ps : Obj.obj ProfileSpecificSettings) :
  profiles (currentDocument m) = Some ps ->
  name <> str "__proto__" \/ Obj.get ps name <> None ->
  profileOf (saved m name cfg ps) name = Some (extracted m cfg).
Proof.
  intros Hp Hor. rewrite (profileOf_saved_same m name cfg ps Hp).
  unfold profileOf. rewrite Hp.
  destruct Hor as [Hne | Hstored].
  - apply eqb_neq in Hne. now rewrite Hne.
  - destruct (Obj.get ps name); [now rewrite andb_false_r | congruence].
Qed.

(** C8.  A [SaveConfig nameA cfgA] that completes normally writes the document
    it read with at most one change, the entry of [nameA]: the global settings
    (current name, mode bindings, toggles) are the same, every other profile is
    the same, and whatever is stored under [nameA] afterwards is the extraction
    of [cfgA], which carries none of the other properties bundled into [cfgA].
    That entry is stored for every name but a [__proto__] that was not stored
    before: for that name the assignment sets the prototype of [profiles] and
    stores no entry, so the document is written as it was.  A following
    successful [SaveConfig nameB cfgB] under a different name leaves what is
    stored under [nameA] as it is. *)
Theorem SaveConfig_changes_only_its_profile :
  forall (m mA mB : ConfigManager) (nameA nameB : jstr) (cfgA cfgB : ApiConfiguration),
    SaveConfig nameA cfgA m = (Normal tt, mA) ->
    (exists ps,
        profiles (currentDocument m) = Some ps
        /\ secrets mA
           = Some (withProfiles (currentDocument m) (assigned ps nameA (extracted m cfgA))))
    /\ globalSettings (currentDocument mA) = globalSettings (currentDocument m)
    /\ (forall q, profileOf mA nameA = Some q ->
          q = profileFields cfgA (extractedId m cfgA))
    /\ (nameA <> str "__proto__" \/ profileOf m nameA <> None ->
        profileOf mA nameA = Some (profileFields cfgA (extractedId m cfgA)))
    /\ (nameA = str "__proto__" -> profileOf m nameA = None ->
        profileOf mA nameA = None
        /\ secrets mA = Some (withProfiles (currentDocument m)
                                (match profiles (currentDocument m) with
                                 | Some ps => ps
                                 | None => []
                                 end)))
    /\ otherFields (profileFields cfgA (extractedId m cfgA)) = []
    /\ (forall other, other <> nameA -> profileOf mA other = profileOf m other)
    /\ (nameB <> nameA ->
        SaveConfig nameB cfgB mA = (Normal tt, mB) ->
        profileOf mB nameA = profileOf mA nameA).
Proof.
  intros m mA mB nameA nameB cfgA cfgB HA.
  destruct (SaveConfig_normal m mA nameA cfgA HA) as [ps [Hp [_ [_ ->]]]].
  pose proof (profileOf_saved_same m nameA cfgA ps Hp) as Hsame.
  split; [|split; [|split; [|split; [|split; [|split; [|split]]]]]].
  - exists ps. split; [exact Hp | reflexivity].
  - reflexivity.
  - intros q Hq. rewrite Hsame in Hq.
    destruct (eqb nameA (str "__proto__") && negb (present (profileOf m nameA)));
      [discriminate | now injection Hq as <-].
  - intros Hor. rewrite Hsame.
    destruct (eqb nameA (str "__proto__")) eqn:E; [|reflexivity].
    apply eqb_eq in E. destruct Hor as [Hne | Hstored]; [contradiction|].
    now destruct (profileOf m nameA).
  - intros -> Hnone. split.
    + rewrite Hsame, Hnone. reflexivity.
    + unfold saved, committed. cbn [secrets]. rewrite Hp. do 2 f_equal.
      unfold assigned. unfold profileOf in Hnone. rewrite Hp in Hnone.
      now rewrite Hnone.
  - reflexivity.
  - intros other Hother. now apply (profileOf_saved m nameA cfgA ps other Hp).
  - intros Hne HB.
    destruct (SaveConfig_normal _ mB nameB cfgB HB) as [psA [HpA [_ [_ ->]]]].
    apply (profileOf_saved _ nameB cfgB psA nameA HpA). congruence.
Qed.

(** [SaveConfig_changes_only_its_profile] on the store with the single profile
    "default": "work" is saved with a global setting bundled in, then "home". *)
Lemma SaveConfig_changes_only_its_profile_witness :
  profileOf (snd (SaveConfig (str "work") (Sample.provider "ollama")
                    (Sample.manager Sample.single))) (str "default")
  = Some (Sample.profile "abc")
  /\ profileOf (snd (SaveConfig (str "home") (Sample.provider "lmstudio")
                       (snd (SaveConfig (str "work") (Sample.provider "ollama")
                               (Sample.manager Sample.single))))) (str "work")
     = Some (profileFields (Sample.provider "ollama") (Some (Sample.random 1))).
Proof.
  destruct (SaveConfig_changes_only_its_profile
              (Sample.manager Sample.single)
              (snd (SaveConfig (str "work") (Sample.provider "ollama")
                      (Sample.manager Sample.single)))
              (snd (SaveConfig (str "home") (Sample.provider "lmstudio")
                      (snd (SaveConfig (str "work") (Sample.provider "ollama")
                              (Sample.manager Sample.single)))))
              (str "work") (str "home")
              (Sample.provider "ollama") (Sample.provider "lmstudio") eq_refl)
    as [_ [_ [_ [Hwork [_ [_ [Hother Hnext]]]]]]].
  split.
  - rewrite (Hother (str "default")); [reflexivity | vm_compute; discriminate].
  - rewrite Hnext;
      [apply Hwork; left; vm_compute; discriminate
      | vm_compute; discriminate | reflexivity].
Defined.

(* ================================================================== *)
(** ** RenameConfig on a document without mode bindings *)
(* ================================================================== *)

(** The object after a stored profile has been moved to a name that the
    assignment creates or overwrites as a property: it is the object
    [JSON.parse] would make of the profiles with the entry moved. *)
Lemma move_stored (ps : Obj.obj ProfileSpecificSettings) (oldName newName : jstr)
    (moved : ProfileSpecificSettings) :
  newName <> str "__proto__" \/ Obj.get ps newName <> None ->
  Profiles.delete (Profiles.assign (Profiles.parse ps) newName (Settings moved)) oldName
  = Profiles.parse (Obj.remove (Obj.set ps newName moved) oldName).
Proof.
  intros Hor. unfold Profiles.assign. rewrite get_parse.
  replace (eqb newName (str "__proto__")
           && negb (present (option_map Settings (Obj.get ps newName)))) with false.
  - unfold Profiles.delete. cbn [Profiles.own Profiles.prototype].
    rewrite set_parse, remove_parse. reflexivity.
  - destruct Hor as [Hne | Hstored].
    + apply eqb_neq in Hne. now rewrite Hne.
    + destruct (Obj.get ps newName); [now rewrite andb_false_r | congruence].
Qed.

(** The loop of [RenameConfig] on an object fresh from [JSON.parse] that has
    no property [oldName] (it has just been deleted).  With no mode bound it has
    nothing to do.  Otherwise its first round reads [profiles[oldName].id]:
    when [oldName] names a member of [Object.prototype] that member is found,
    it has no [id], and no round changes anything; for any other name the read
    throws. *)
Lemma renameModes_deleted (ref : Ref) (ps : Obj.obj ProfileSpecificSettings)
    (oldName newName : jstr) (entries : list (jstr * jstr)) (d : ApiConfigData)
    (m : ConfigManager) :
  Obj.get ps oldName = None ->
  renameModes ref (Profiles.parse ps) oldName newName entries d m
  = match entries with
    | [] => (Normal d, m)
    | _ :: _ =>
        if Obj.inherited oldName then (Normal d, m)
        else (Throw (cannotRead (str "id")), m)
    end.
Proof.
  intros Hgone. destruct (Obj.inherited oldName) eqn:Hin.
  - assert (H : renameModes ref (Profiles.parse ps) oldName newName entries d m
                = (Normal d, m)).
    { induction entries as [|[mode configId] rest IH]; [reflexivity|].
      cbn [renameModes]. unfold bind at 1. rewrite element_parse.
      destruct (lookup_inherited ps oldName Hgone Hin) as [v [-> Hv]].
      unfold bind at 1. cbn [propertyOf ret]. rewrite Hv.
      cbn [id emptySettings opt_eqb]. exact IH. }
    rewrite H. now destruct entries.
  - destruct entries as [|[mode configId] rest]; [reflexivity|].
    cbn [renameModes]. unfold bind. rewrite element_parse.
    now rewrite (lookup_absent ps oldName Hgone Hin).
Qed.

(** [RenameConfig] of a stored profile to an acceptable name that the
    assignment creates or overwrites as a property.  With no mode bound, or
    when [oldName] names a member of [Object.prototype], it moves the profile
    and writes; else the loop over the mode bindings throws. *)
Lemma RenameConfig_stored (m : ConfigManager) (oldName newName : jstr)
    (g : GlobalSettings) (ps : Obj.obj ProfileSpecificSettings)
    (moved : ProfileSpecificSettings) :
  globalSettings (currentDocument m) = Some g ->
  profiles (currentDocument m) = Some ps ->
  Obj.get ps oldName = Some moved ->
  newName <> str "__proto__" \/ Obj.get ps newName <> None ->
  isValid (validateProfileName newName (otherNames ps oldName)) = true ->
  RenameConfig oldName newName m
  = match modeApiConfigs g with
    | Some (_ :: _) =>
        if Obj.inherited oldName
        then (Normal tt,
              committed m (renamed (currentDocument m) g ps oldName newName moved))
        else (Throw (rethrown "Failed to rename config" (cannotRead (str "id"))),
              abandoned m (renamed (currentDocument m) g ps oldName newName moved))
    | _ => (Normal tt,
            committed m (renamed (currentDocument m) g ps oldName newName moved))
    end.
Proof.
  intros Hg Hp Hget Hor Hn. unfold RenameConfig, tryCatch. rewrite bind_readConfig.
  unfold bind at 1. rewrite Hp. cbn [propertyOf ret]. cbv zeta.
  unfold bind at 1. rewrite element_parse, (lookup_stored ps oldName moved Hget), Hn.
  cbn [negb]. rewrite (move_stored ps oldName newName moved Hor), stringify_parse.
  unfold renamed. cbv zeta.
  set (ps1 := Obj.remove (Obj.set ps newName moved) oldName).
  set (d1 := withProfiles (currentDocument m) ps1).
  assert (Hg1 : globalSettings d1 = Some g) by exact Hg.
  unfold bind at 1. unfold bind at 1. rewrite Hg1. cbn [propertyOf ret].
  set (d2 := if opt_eqb (currentApiConfigName g) (Some oldName)
             then withGlobalSettings d1 (withCurrent g (Some newName)) else d1).
  assert (Hgone : Obj.get ps1 oldName = None).
  { subst ps1. now rewrite ObjFacts.get_remove, eqb_refl. }
  unfold bind.
  destruct (modeApiConfigs g) as [[|binding rest]|].
  - cbn [renameModes ret].
    unfold assign, writeConfig, committed, refOf, ret.
    destruct m as [sec dflt rnd n out]; cbn [secrets defaultConfig random draws console].
    destruct sec; reflexivity.
  - unfold assign at 2. unfold assign at 1.
    cbv beta iota.
    destruct m as [sec dflt rnd n out]; unfold refOf, committed, abandoned;
      cbn [secrets defaultConfig random draws console].
    destruct sec; cbv beta iota;
      rewrite (renameModes_deleted _ ps1 oldName newName (binding :: rest) d2 _ Hgone);
      destruct (Obj.inherited oldName); reflexivity.
  - cbn [ret].
    unfold assign, writeConfig, committed, refOf, ret.
    destruct m as [sec dflt rnd n out]; cbn [secrets defaultConfig random draws console].
    destruct sec; reflexivity.
Qed.

(** With no mode bound the loop of [RenameConfig] has nothing to run over,
    and the method moves the profile and writes. *)
Lemma RenameConfig_unbound (m : ConfigManager) (oldName newName : jstr)
    (g : GlobalSettings) (ps : Obj.obj ProfileSpecificSettings)
    (moved : ProfileSpecificSettings) :
  globalSettings (currentDocument m) = Some g ->
  profiles (currentDocument m) = Some ps ->
  Obj.get ps oldName = Some moved ->
  newName <> str "__proto__" \/ Obj.get ps newName <> None ->
  isValid (validateProfileName newName (otherNames ps oldName)) = true ->
  noModes g ->
  RenameConfig oldName newName m
  = (Normal tt, committed m (renamed (currentDocument m) g ps oldName newName moved)).
Proof.
  intros Hg Hp Hget Hor Hn Hmodes.
  rewrite (RenameConfig_stored m oldName newName g ps moved Hg Hp Hget Hor Hn).
  destruct Hmodes as [-> | ->]; reflexivity.
Qed.

Lemma profileOf_renamed (m : ConfigManager) (oldName newName : jstr)
    (g : GlobalSettings) (ps : Obj.obj ProfileSpecificSettings)
    (moved : ProfileSpecificSettings) (k : jstr) :
  profileOf (committed m (renamed (currentDocument m) g ps oldName newName moved)) k
  = if eqb oldName k then None
    else if eqb newName k then Some moved else Obj.get ps k.
Proof.
  unfold profileOf. rewrite currentDocument_committed. unfold renamed. cbv zeta.
  destruct (opt_eqb (currentApiConfigName g) (Some oldName));
    cbn [withGlobalSettings withProfiles profiles];
    now rewrite ObjFacts.get_remove, ObjFacts.get_set.
Qed.

(* ================================================================== *)
(** ** initConfig on a document of the old shape *)
(* ================================================================== *)

Lemma drawsOnly_refl (m : ConfigManager) : drawsOnly m m.
Proof. repeat split. apply Nat.le_refl. Qed.

Lemma drawsOnly_afterExtract (m : ConfigManager) (config : ApiConfiguration) :
  drawsOnly m (afterExtract m config).
Proof.
  unfold afterExtract. destruct (opt_truthy (id config)); [apply drawsOnly_refl|].
  repeat split. simpl. apply Nat.le_succ_diag_r.
Qed.

Lemma drawsOnly_trans (m1 m2 m3 : ConfigManager) :
  drawsOnly m1 m2 -> drawsOnly m2 m3 -> drawsOnly m1 m3.
Proof.
  intros [A1 [A2 [A3 [A4 A5]]]] [B1 [B2 [B3 [B4 B5]]]].
  repeat split; try congruence. eapply Nat.le_trans; eassumption.
Qed.

Lemma migratedFrom_extracted (m : ConfigManager) (config : ApiConfiguration) :
  migratedFrom m config (extracted m config).
Proof.
  exists (extractedId m config). unfold extracted, extractedId.
  split; [reflexivity|].
  destruct (opt_truthy (id config)); split; try discriminate; auto.
  intros _. exists (draws m). split; [apply Nat.le_refl | reflexivity].
Qed.

Lemma migratedFrom_later (m m1 : ConfigManager) (config : ApiConfiguration)
    (q : ProfileSpecificSettings) :
  drawsOnly m m1 -> migratedFrom m1 config q -> migratedFrom m config q.
Proof.
  intros [_ [_ [Hr [_ Hd]]]] [i [Hq [Hid Hgen]]].
  exists i. split; [exact Hq|]. split; [exact Hid|].
  intros Hf. destruct (Hgen Hf) as [k [Hk Hi]].
  exists k. split; [eapply Nat.le_trans; eassumption | now rewrite <- Hr].
Qed.

(** An assignment of settings to an object all of whose properties are
    settings leaves such an object. *)
Lemma assign_settings (acc : Obj.obj ProfileSpecificSettings) (proto : option Value)
    (k : jstr) (p : ProfileSpecificSettings) :
  exists proto',
    Profiles.assign (Profiles.mkObject (Profiles.own (Profiles.parse acc)) proto) k
      (Settings p)
    = Profiles.mkObject (Profiles.own (Profiles.parse (assigned acc k p))) proto'.
Proof.
  unfold Profiles.assign, assigned.
  cbn [Profiles.own Profiles.prototype]. rewrite get_parse.
  replace (present (option_map Settings (Obj.get acc k))) with (present (Obj.get acc k))
    by (now destruct (Obj.get acc k)).
  destruct (eqb k (str "__proto__") && negb (present (Obj.get acc k))).
  - eexists. reflexivity.
  - eexists. rewrite set_parse. reflexivity.
Qed.

(** The migration loop: it completes, draws ids and does nothing else to the
    state, and leaves an object whose properties are settings: one per entry,
    under the entry's name, for every name but [__proto__], for which nothing
    is stored; the other keys of the accumulator are left alone. *)
Lemma migrateProfiles_spec (entries : list (jstr * ApiConfiguration)) :
  uniqueKeys entries ->
  forall (acc : Obj.obj ProfileSpecificSettings) (proto : option Value)
         (m : ConfigManager),
  exists newObject newProfiles m',
    migrateProfiles entries
      (Profiles.mkObject (Profiles.own (Profiles.parse acc)) proto) m
    = (Normal newObject, m')
    /\ Profiles.stringify newObject = newProfiles
    /\ drawsOnly m m'
    /\ (forall name, Obj.get entries name = None ->
          Obj.get newProfiles name = Obj.get acc name)
    /\ (forall name config, Obj.get entries name = Some config ->
          name <> str "__proto__" ->
          exists q, Obj.get newProfiles name = Some q /\ migratedFrom m config q)
    /\ (Obj.get acc (str "__proto__") = None ->
        Obj.get newProfiles (str "__proto__") = None).
Proof.
  induction entries as [|[n0 c0] rest IH]; intros Hu acc proto m.
  - exists (Profiles.mkObject (Profiles.own (Profiles.parse acc)) proto), acc, m.
    split; [reflexivity|]. split; [exact (stringify_parse acc)|].
    split; [apply drawsOnly_refl|].
    split; [reflexivity|]. split; [discriminate | auto].
  - assert (Hu' : uniqueKeys rest) by (inversion Hu; assumption).
    assert (Hn0 : Obj.get rest n0 = None).
    { apply ObjFacts.get_None_keys. inversion Hu; assumption. }
    destruct (assign_settings acc proto n0 (extracted m c0)) as [proto1 Hassign].
    destruct (IH Hu' (assigned acc n0 (extracted m c0)) proto1 (afterExtract m c0))
      as [newObject [newProfiles [m' [Hrun [Hstr [Hd [Hout [Hin Hproto]]]]]]]].
    exists newObject, newProfiles, m'. split; [|split; [|split; [|split; [|split]]]].
    + cbn [migrateProfiles]. unfold bind. rewrite extractProfileSettings_eq, Hassign.
      exact Hrun.
    + exact Hstr.
    + eapply drawsOnly_trans; [apply drawsOnly_afterExtract | exact Hd].
    + intros name. cbn [Obj.get]. destruct (eqb n0 name) eqn:E; [discriminate|].
      intros Hrest. rewrite (Hout name Hrest). apply get_assigned_other.
      apply eqb_neq in E. congruence.
    + intros name config. cbn [Obj.get]. destruct (eqb n0 name) eqn:E.
      * intros H Hname. injection H as <-. apply eqb_eq in E. subst name.
        exists (extracted m c0). split; [|apply migratedFrom_extracted].
        rewrite (Hout n0 Hn0), get_assigned_same.
        apply eqb_neq in Hname. now rewrite Hname.
      * intros H Hname. destruct (Hin name config H Hname) as [q [Hq Hm]].
        exists q. split; [exact Hq|].
        eapply migratedFrom_later; [apply drawsOnly_afterExtract | exact Hm].
    + intros Hacc. apply Hproto. unfold assigned.
      destruct (eqb n0 (str "__proto__") && negb (present (Obj.get acc n0))) eqn:E;
        [exact Hacc|].
      rewrite ObjFacts.get_set.
      destruct (eqb n0 (str "__proto__")) eqn:En; [|exact Hacc].
      apply eqb_eq in En. subst n0. rewrite Hacc in E. discriminate.
Qed.

(** What [initConfig] leaves in the store for a stored document of the old
    shape: the migrated document, whether or not the rest of the method then
    completes. *)
Lemma initConfig_old_shape_state (m m1 : ConfigManager) (old : ApiConfigData)
    (oldApiConfigs : Obj.obj ApiConfiguration) (newObject : Profiles.Object) :
  secrets m = Some old ->
  apiConfigs old = Some oldApiConfigs ->
  profiles old = None ->
  migrateProfiles oldApiConfigs (Profiles.parse []) m = (Normal newObject, m1) ->
  snd (initConfig m)
  = mkConfigManager
      (Some (document (migratedSettings old) (Profiles.stringify newObject)))
      (defaultConfig m1) (random m1) (draws m1) (console m1).
Proof.
  intros Hs Hac Hp Hrun.
  unfold initConfig, tryCatch. rewrite bind_readConfig.
  unfold currentDocument. rewrite Hs. cbn [objectTruthy negb].
  unfold bind at 1. rewrite Hac. unfold bind at 1. rewrite Hrun.
  unfold bind at 1. unfold writeConfig at 1. cbn [ret negb].
  unfold bind at 1. cbn [ret].
  destruct (globalSettings old); cbn [present negb ret snd].
  - reflexivity.
  - rewrite Hp. reflexivity.
Qed.

(** C2 as stated does not hold: after [initConfig] on the stored document
    [{ currentApiConfigName: "p2", apiConfigs: { p1: {}, p2: {} },
       modeApiConfigs: { chat: "p1" } }]
    the mode "chat" is bound to the string "p1", while the profile "p1" has the
    generated id "rnd1". *)
Lemma initConfig_migration_does_not_translate_names :
  modeBinding (snd (initConfig (Sample.manager Sample.legacy))) (str "chat")
  = Some (str "p1")
  /\ option_map id (profileOf (snd (initConfig (Sample.manager Sample.legacy))) (str "p1"))
     = Some (Some (str "rnd1"))
  /\ modeBinding (snd (initConfig (Sample.manager Sample.legacy))) (str "chat")
     <> Some (str "rnd1").
Proof. vm_compute. repeat split. discriminate. Qed.

(** C2, amended.  When [initConfig] finds in the store a document of the old
    shape (an [apiConfigs] object, no [profiles]), the document it writes has
    one profile for each old entry, under the same name, made by
    [extractProfileSettings] (so with a generated id where the entry had
    none), except that nothing is stored for an old entry named [__proto__];
    its mode bindings are the old [modeApiConfigs] copied as they are,
    each value still the profile name it was; and its current name is the old
    [currentApiConfigName], or "default" when that is missing or empty.  For
    the old document with entries p1 and p2, current name "p2" and
    [modeApiConfigs] [{ chat: "p1" }], "chat" stays bound to "p1" and the
    current name is "p2". *)
Theorem initConfig_migration_copies_mode_bindings :
  forall (m : ConfigManager) (old : ApiConfigData)
         (oldApiConfigs : Obj.obj ApiConfiguration),
    secrets m = Some old ->
    apiConfigs old = Some oldApiConfigs ->
    profiles old = None ->
    uniqueKeys oldApiConfigs ->
    (exists newProfiles,
        secrets (snd (initConfig m)) = Some (document (migratedSettings old) newProfiles)
        /\ (forall name, Obj.get oldApiConfigs name = None ->
              Obj.get newProfiles name = None)
        /\ (forall name config, Obj.get oldApiConfigs name = Some config ->
              name <> str "__proto__" ->
              exists q, Obj.get newProfiles name = Some q /\ migratedFrom m config q)
        /\ Obj.get newProfiles (str "__proto__") = None)
    /\ (forall mode,
          modeBinding (snd (initConfig m)) mode
          = match oldModeApiConfigs old with
            | Some modes => Obj.get modes mode
            | None => None
            end)
    /\ currentName (snd (initConfig m))
       = Some (or_else (oldCurrentApiConfigName old) (str "default"))
    /\ modeBinding (snd (initConfig (Sample.manager Sample.legacy))) (str "chat")
       = Some (str "p1")
    /\ currentName (snd (initConfig (Sample.manager Sample.legacy))) = Some (str "p2").
Proof.
  intros m old oldApiConfigs Hs Hac Hp Hu.
  destruct (migrateProfiles_spec oldApiConfigs Hu [] None m)
    as [newObject [newProfiles [m1 [Hrun [Hstr [_ [Hout [Hin Hproto]]]]]]]].
  pose proof (initConfig_old_shape_state m m1 old oldApiConfigs newObject Hs Hac Hp Hrun)
    as Hstate.
  rewrite Hstr in Hstate.
  split; [|split; [|split; [|split]]].
  - exists newProfiles. rewrite Hstate. split; [reflexivity|].
    split; [|split; [exact Hin | exact (Hproto eq_refl)]].
    intros name Hnone. now rewrite (Hout name Hnone).
  - intros mode. rewrite Hstate. unfold modeBinding, currentDocument.
    cbn [secrets document globalSettings migratedSettings modeApiConfigs].
    now destruct (oldModeApiConfigs old).
  - rewrite Hstate. reflexivity.
  - vm_compute. reflexivity.
  - vm_compute. reflexivity.
Qed.

(** [initConfig_migration_copies_mode_bindings] on the old document with
    entries p1 and p2. *)
Lemma initConfig_migration_copies_mode_bindings_witness :
  (exists newProfiles,
      secrets (snd (initConfig (Sample.manager Sample.legacy)))
      = Some (document (migratedSettings Sample.legacy) newProfiles)
      /\ (exists q, Obj.get newProfiles (str "p1") = Some q
                     /\ migratedFrom (Sample.manager Sample.legacy) emptySettings q))
  /\ modeBinding (snd (initConfig (Sample.manager Sample.legacy))) (str "chat")
     = Obj.get [(str "chat", str "p1")] (str "chat").
Proof.
  assert (Hu : uniqueKeys [(str "p1", emptySettings); (str "p2", emptySettings)]).
  { unfold uniqueKeys. repeat constructor; vm_compute; intuition discriminate. }
  destruct (initConfig_migration_copies_mode_bindings
              (Sample.manager Sample.legacy) Sample.legacy
              [(str "p1", emptySettings); (str "p2", emptySettings)]
              eq_refl eq_refl eq_refl Hu)
    as [[newProfiles [Hstore [_ [Hin _]]]] [Hmodes _]].
  split.
  - exists newProfiles. split; [exact Hstore|].
    apply (Hin (str "p1") emptySettings eq_refl). vm_compute. discriminate.
  - exact (Hmodes (str "chat")).
Defined.

(* ================================================================== *)
(** ** Further properties *)
(* ================================================================== *)

(** The names [validateProfileName] accepts: not empty, not blank, not
    among the existing names, at most 50 code units, and made of letters,
    digits, white space, hyphens and underscores. *)
Theorem validateProfileName_valid_iff :
  forall (name : jstr) (existingNames : list jstr),
    isValid (validateProfileName name existingNames) = true
    <-> (name <> [] /\ trim name <> [] /\ ~ In name existingNames
         /\ length name <= 50 /\ Forall (fun c => nameChar c = true) name).
Proof.
  intros name existingNames.
  unfold validateProfileName, validationOf, nameRegexTest. cbn [isValid].
  rewrite truthy_length.
  destruct (truthy name) eqn:Hn; cbn [negb andb].
  - apply truthy_nonempty in Hn.
    destruct (truthy (trim name)) eqn:Ht; cbn [negb].
    + apply truthy_nonempty in Ht.
      destruct (includes existingNames name) eqn:Hi.
      * apply includes_In in Hi. simpl. split; [discriminate | tauto].
      * assert (Hout : ~ In name existingNames).
        { intros H. apply includes_In in H. congruence. }
        destruct (Nat.ltb 50 (length name)) eqn:Hl.
        -- apply Nat.ltb_lt in Hl. simpl. split; [discriminate | lia].
        -- apply Nat.ltb_ge in Hl.
           destruct (forallb nameChar name) eqn:Hc; cbn [negb].
           ++ simpl. split; [|reflexivity]. intros _.
              repeat (split; [assumption|]).
              apply Forall_forall. apply forallb_forall. exact Hc.
           ++ simpl. split; [discriminate|]. intros [_ [_ [_ [_ Hall]]]].
              rewrite Forall_forall in Hall.
              rewrite (proj2 (forallb_forall nameChar name) Hall) in Hc. discriminate.
    + simpl. split; [discriminate|]. intros [_ [Hblank _]].
      destruct (trim name); [congruence | discriminate].
  - simpl. split; [discriminate|]. intros [Hne _]. destruct name; [congruence | discriminate].
Qed.

(** On a document with global settings, profiles and at least one mode
    bound, [RenameConfig] of a stored profile to an acceptable name other than
    [__proto__] throws a [TypeError] at the first binding, and the store is as
    it was, unless the old name names a member of [Object.prototype]: then the
    read after the deletion finds that member, no binding is touched, and the
    rename is written. *)
Theorem RenameConfig_bound_throws :
  forall (m : ConfigManager) (oldName newName : jstr) (g : GlobalSettings)
         (ps : Obj.obj ProfileSpecificSettings) (moved : ProfileSpecificSettings)
         (binding : jstr * jstr) (rest : Obj.obj jstr),
    globalSettings (currentDocument m) = Some g ->
    profiles (currentDocument m) = Some ps ->
    Obj.get ps oldName = Some moved ->
    newName <> str "__proto__" ->
    isValid (validateProfileName newName (otherNames ps oldName)) = true ->
    modeApiConfigs g = Some (binding :: rest) ->
    (Obj.inherited oldName = false ->
       exists m',
         RenameConfig oldName newName m
         = (Throw (rethrown "Failed to rename config" (cannotRead (str "id"))), m')
         /\ secrets m' = secrets m)
    /\ (Obj.inherited oldName = true ->
          RenameConfig oldName newName m
          = (Normal tt,
             committed m (renamed (currentDocument m) g ps oldName newName moved))).
Proof.
  intros m oldName newName g ps moved binding rest Hg Hp Hget Hnew Hn Hmodes.
  rewrite (RenameConfig_stored m oldName newName g ps moved Hg Hp Hget
             (or_introl Hnew) Hn), Hmodes.
  split; intros ->; [|reflexivity].
  eexists. split; reflexivity.
Qed.

Lemma RenameConfig_bound_throws_witness :
  exists m',
    RenameConfig (str "a") (str "c") (Sample.manager Sample.bound)
    = (Throw (rethrown "Failed to rename config" (cannotRead (str "id"))), m')
    /\ secrets m' = Some Sample.bound.
Proof.
  refine (proj1 (RenameConfig_bound_throws (Sample.manager Sample.bound) (str "a") (str "c")
           (mkGlobalSettings (Some (str "a")) None None None None None
              (Some [(str "code", str "id-a"); (str "ask", str "id-b")]))
           [(str "a", Sample.profile "id-a"); (str "b", Sample.profile "id-b")]
           (Sample.profile "id-a") (str "code", str "id-a") [(str "ask", str "id-b")]
           eq_refl eq_refl eq_refl _ eq_refl eq_refl) eq_refl).
  vm_compute. discriminate.
Defined.

(** On a document with no mode bound, [RenameConfig] of a stored profile to
    its own name (which name validation lets through, the old name being left
    out of the existing names) deletes the profile. *)
Theorem RenameConfig_same_name_deletes :
  forall (m : ConfigManager) (name : jstr) (g : GlobalSettings)
         (ps : Obj.obj ProfileSpecificSettings) (p : ProfileSpecificSettings),
    globalSettings (currentDocument m) = Some g ->
    profiles (currentDocument m) = Some ps ->
    Obj.get ps name = Some p ->
    isValid (validateProfileName name (otherNames ps name)) = true ->
    noModes g ->
    exists m',
      RenameConfig name name m = (Normal tt, m')
      /\ secrets m' = Some (currentDocument m')
      /\ profileOf m' name = None
      /\ currentName m' = currentApiConfigName g.
Proof.
  intros m name g ps p Hg Hp Hget Hn Hmodes.
  exists (committed m (renamed (currentDocument m) g ps name name p)).
  split; [apply RenameConfig_unbound; try assumption; right; congruence|].
  split; [reflexivity|]. split.
  - rewrite profileOf_renamed. now rewrite eqb_refl.
  - unfold currentName. rewrite currentDocument_committed. unfold renamed. cbv zeta.
    destruct (opt_eqb (currentApiConfigName g) (Some name)) eqn:E.
    + apply opt_eqb_eq in E. now rewrite E.
    + cbn [withProfiles globalSettings]. now rewrite Hg.
Qed.

Lemma RenameConfig_same_name_deletes_witness :
  exists m',
    RenameConfig (str "default") (str "default") (Sample.manager Sample.single)
    = (Normal tt, m')
    /\ profileOf m' (str "default") = None
    /\ currentName m' = Some (str "default").
Proof.
  destruct (RenameConfig_same_name_deletes (Sample.manager Sample.single) (str "default")
              (onlyCurrent (Some (str "default")))
              [(str "default", Sample.profile "abc")] (Sample.profile "abc")
              eq_refl eq_refl eq_refl eq_refl (or_introl eq_refl))
    as [m' [H1 [_ [H2 H3]]]].
  exists m'. repeat split; assumption.
Defined.

Lemma ensureIds_nothing_missing (ps : Obj.obj ProfileSpecificSettings) (m : ConfigManager) :
  allHaveIds ps -> ensureIds ps m = (Normal (ps, false), m).
Proof.
  induction ps as [|[name p] rest IH]; intros Hall; [reflexivity|].
  cbn [ensureIds]. rewrite (Hall name p (or_introl eq_refl)).
  unfold bind. rewrite IH; [reflexivity|].
  intros n q Hin. apply (Hall n q). now right.
Qed.

(** [initConfig] on a stored document that is already of the current shape,
    with global settings and an id on every profile, writes nothing and
    changes nothing; so does a second call. *)
Theorem initConfig_current_document_untouched :
  forall (m : ConfigManager) (d : ApiConfigData) (g : GlobalSettings)
         (ps : Obj.obj ProfileSpecificSettings),
    secrets m = Some d ->
    apiConfigs d = None ->
    globalSettings d = Some g ->
    profiles d = Some ps ->
    allHaveIds ps ->
    initConfig m = (Normal tt, m)
    /\ initConfig (snd (initConfig m)) = (Normal tt, m).
Proof.
  intros m d g ps Hs Hac Hg Hp Hall.
  assert (H : initConfig m = (Normal tt, m)).
  { apply tryCatch_normal. rewrite bind_readConfig.
    unfold currentDocument, refOf. rewrite Hs. cbn [objectTruthy negb].
    unfold bind at 1. rewrite Hac. cbn [ret negb].
    unfold bind at 1. unfold bind at 1. rewrite Hp. cbn [objectOf ret].
    unfold bind at 1. rewrite (ensureIds_nothing_missing ps m Hall).
    cbv beta iota zeta. unfold bind. cbn [assign ret].
    cbn [withProfiles globalSettings]. rewrite Hg. reflexivity. }
  split; [exact H|]. rewrite H. exact H.
Qed.

Lemma initConfig_current_document_untouched_witness :
  initConfig (Sample.manager Sample.bound) = (Normal tt, Sample.manager Sample.bound).
Proof.
  refine (proj1 (initConfig_current_document_untouched
                   (Sample.manager Sample.bound) Sample.bound
                   (mkGlobalSettings (Some (str "a")) None None None None None
                      (Some [(str "code", str "id-a"); (str "ask", str "id-b")]))
                   [(str "a", Sample.profile "id-a"); (str "b", Sample.profile "id-b")]
                   eq_refl eq_refl eq_refl eq_refl _)).
  intros name p [H|[H|[]]]; injection H as <- <-; reflexivity.
Defined.

(** A [DeleteConfig] that goes through keeps the invariant of the document:
    a profile remains, and the current name is the name of one. *)
Theorem DeleteConfig_keeps_consistent :
  forall (m : ConfigManager) (name : jstr) (g : GlobalSettings)
         (ps : Obj.obj ProfileSpecificSettings) (p : ProfileSpecificSettings),
    currentShape (currentDocument m) g ps ->
    consistent (currentDocument m) ->
    Obj.get ps name = Some p ->
    length (Obj.keys ps) <> 1 ->
    fst (DeleteConfig name m) = Normal tt
    /\ secrets (snd (DeleteConfig name m)) = Some (currentDocument (snd (DeleteConfig name m)))
    /\ consistent (currentDocument (snd (DeleteConfig name m))).
Proof.
  intros m name g ps p S [g0 [ps0 [c [Hg0 [Hp0 [_ [Hc Hin]]]]]]] Hget Hlen.
  destruct (DeleteConfig_deletes m name g ps p S Hget Hlen) as [g' [Hrun [Hcur _]]].
  destruct S as [Hg Hp Hu _ _].
  assert (g0 = g) by congruence. assert (ps0 = ps) by congruence. subst g0 ps0.
  rewrite Hrun. cbn [fst snd]. split; [reflexivity|]. split; [reflexivity|].
  rewrite currentDocument_committed.
  destruct (remaining_nonempty ps name p Hu Hget Hlen) as [n [Hhd _]].
  assert (Hn : In n (Obj.keys (Obj.remove ps name))).
  { destruct (Obj.keys (Obj.remove ps name)); [discriminate|].
    injection Hhd as ->. now left. }
  destruct (opt_eqb (currentApiConfigName g) (Some name)) eqn:E.
  - exists g', (Obj.remove ps name), n.
    split; [reflexivity|]. split; [reflexivity|].
    split; [intros Hnil; rewrite Hnil in Hn; contradiction|].
    split; [now rewrite Hcur | exact Hn].
  - exists g', (Obj.remove ps name), c.
    split; [reflexivity|]. split; [reflexivity|].
    split; [intros Hnil; rewrite Hnil in Hn; contradiction|].
    split; [now rewrite Hcur|].
    rewrite ObjFacts.keys_remove. apply filter_In. split; [exact Hin|].
    destruct (eqb c name) eqn:Ec; [|reflexivity].
    apply eqb_eq in Ec. subst c. rewrite Hc in E. simpl in E.
    rewrite eqb_refl in E. discriminate.
Qed.

Lemma DeleteConfig_keeps_consistent_witness :
  consistent (currentDocument (snd (DeleteConfig (str "a") (Sample.manager Sample.pair)))).
Proof.
  refine (proj2 (proj2 (DeleteConfig_keeps_consistent
            (Sample.manager Sample.pair) (str "a") (onlyCurrent (Some (str "a")))
            [(str "a", Sample.profile "id-a"); (str "b", Sample.profile "id-b")]
            (Sample.profile "id-a") _ _ eq_refl _))).
  - split; try reflexivity.
    + unfold uniqueKeys. repeat constructor; vm_compute; intuition discriminate.
    + vm_compute. intuition discriminate.
    + discriminate.
  - exists (onlyCurrent (Some (str "a"))),
      [(str "a", Sample.profile "id-a"); (str "b", Sample.profile "id-b")], (str "a").
    repeat split; try reflexivity; [discriminate | now left].
  - vm_compute. discriminate.
Defined.

(** After it has written the migrated document, [initConfig] goes on to
    look for [globalSettings] in the old document; when the old document has
    neither [globalSettings] nor [profiles], that throws a [TypeError]. *)
Theorem initConfig_old_shape_throws_after_writing :
  forall (m : ConfigManager) (old : ApiConfigData)
         (oldApiConfigs : Obj.obj ApiConfiguration),
    secrets m = Some old ->
    apiConfigs old = Some oldApiConfigs ->
    profiles old = None ->
    globalSettings old = None ->
    uniqueKeys oldApiConfigs ->
    fst (initConfig m)
    = Throw (rethrown "Failed to initialize config" (cannotRead (str "default")))
    /\ exists newProfiles,
         secrets (snd (initConfig m)) = Some (document (migratedSettings old) newProfiles).
Proof.
  intros m old oldApiConfigs Hs Hac Hp Hg Hu.
  destruct (migrateProfiles_spec oldApiConfigs Hu [] None m)
    as [newObject [newProfiles [m1 [Hrun _]]]].
  change (Profiles.mkObject (Profiles.own (Profiles.parse [])) None)
    with (Profiles.parse []) in Hrun.
  split.
  - unfold initConfig, tryCatch. rewrite bind_readConfig.
    unfold currentDocument. rewrite Hs. cbn [objectTruthy negb].
    unfold bind at 1. rewrite Hac. unfold bind at 1. rewrite Hrun.
    unfold bind at 1. unfold writeConfig at 1. cbn [ret negb].
    unfold bind at 1. cbn [ret]. rewrite Hg. cbn [present negb].
    unfold bind. rewrite Hp. reflexivity.
  - exists (Profiles.stringify newObject).
    now rewrite (initConfig_old_shape_state m m1 old oldApiConfigs newObject Hs Hac Hp Hrun).
Qed.

Lemma initConfig_old_shape_throws_after_writing_witness :
  fst (initConfig (Sample.manager Sample.legacy))
  = Throw (rethrown "Failed to initialize config" (cannotRead (str "default"))).
Proof.
  refine (proj1 (initConfig_old_shape_throws_after_writing
                   (Sample.manager Sample.legacy) Sample.legacy
                   [(str "p1", emptySettings); (str "p2", emptySettings)]
                   eq_refl eq_refl eq_refl eq_refl _)).
  unfold uniqueKeys. repeat constructor; vm_compute; intuition discriminate.
Defined.

(* ================================================================== *)
(** ** The validators of the settings *)
(* ================================================================== *)

Lemma shared_isValid (config : ApiConfiguration) :
  isValid (validateProfileSettings config)
  = Nat.eqb (length (providerErrors config)) 0 && negb (blankModelId config).
Proof.
  unfold validateProfileSettings, validationOf, blankModelId. cbn [isValid].
  rewrite length_app.
  destruct (apiModelId config) as [modelId|].
  - destruct (truthy modelId && negb (truthy (trim modelId))); cbn [negb length].
    + rewrite andb_false_r. now rewrite Nat.add_comm.
    + now rewrite Nat.add_0_r, andb_true_r.
  - cbn [negb length]. now rewrite Nat.add_0_r, andb_true_r.
Qed.

(** Reading the provider off a record whose provider is known. *)
Ltac provider_cases :=
  repeat match goal with
         | |- context [Js.eqb ?p (str ?l)] =>
             let E := fresh "E" in
             destruct (Js.eqb p (str l)) eqn:E;
             [apply eqb_eq in E; rewrite ?E; vm_compute;
              repeat match goal with
                     | |- context [match ?x with _ => _ end] => destruct x
                     end; reflexivity
             |]
         end.

(** The two validators of the settings agree on the provider's required
    fields: the manager's private boolean one accepts exactly the settings for
    which the shared one reports no provider error, and the shared one rejects,
    besides, a model id that is given and blank. *)
Theorem private_and_shared_validators_agree :
  forall (settings : ProfileSpecificSettings),
    Private.validateProfileSettings settings
    = Nat.eqb (length (providerErrors settings)) 0
    /\ isValid (validateProfileSettings settings)
       = Private.validateProfileSettings settings && negb (blankModelId settings).
Proof.
  intros settings.
  assert (H : Private.validateProfileSettings settings
              = Nat.eqb (length (providerErrors settings)) 0).
  { unfold Private.validateProfileSettings, providerErrors, providerIs,
      required, requiredObject.
    destruct (apiProvider settings) as [p|]; [|reflexivity].
    destruct p as [|c p]; [reflexivity|].
    cbn [opt_truthy truthy negb opt_eqb].
    provider_cases. reflexivity. }
  split; [exact H|]. rewrite shared_isValid. now rewrite H.
Qed.

(** [validateProfileTransition] lets a change through without a word exactly
    when the provider stays the same, or when the old settings name no model
    and one of the two providers is outside the list that asks for new
    credentials. *)
Theorem validateProfileTransition_valid_iff :
  forall (fromConfig toConfig : ApiConfiguration),
    isValid (validateProfileTransition fromConfig toConfig) = true
    <-> (apiProvider fromConfig = apiProvider toConfig
         \/ (opt_truthy (apiModelId fromConfig) = false
             /\ (reauthProvider fromConfig = false \/ reauthProvider toConfig = false))).
Proof.
  intros f t. unfold validateProfileTransition, validationOf, reauthProvider.
  cbn [isValid]. rewrite length_app.
  destruct (opt_eqb (apiProvider f) (apiProvider t)) eqn:E; cbn [negb andb].
  - apply opt_eqb_eq in E. rewrite andb_false_r. simpl. tauto.
  - assert (Hne : apiProvider f <> apiProvider t).
    { intros H. apply opt_eqb_eq in H. congruence. }
    rewrite andb_true_r.
    destruct (opt_truthy (apiModelId f)).
    + rewrite Nat.add_comm. simpl. split; [discriminate|].
      intros [H|[H _]]; [contradiction | discriminate].
    + destruct (includesOpt requiresReauth (apiProvider f));
        destruct (includesOpt requiresReauth (apiProvider t)); simpl;
        split; intros H; try reflexivity; try discriminate; auto.
      destruct H as [H|[_ [H|H]]]; [contradiction | discriminate | discriminate].
Qed.

(* ================================================================== *)
(** ** SaveConfig: names, warnings, round trips *)
(* ================================================================== *)

Lemma includes_otherNames (ps : Obj.obj ProfileSpecificSettings) (name : jstr) :
  includes (otherNames ps name) name = false.
Proof.
  destruct (includes (otherNames ps name) name) eqn:E; [|reflexivity].
  apply includes_In in E. unfold otherNames in E. apply filter_In in E.
  destruct E as [_ E]. rewrite eqb_refl in E. discriminate.
Qed.

(** The existing names [SaveConfig] and [RenameConfig] pass to the name
    validator never contain the name they left out. *)
Lemma validateProfileName_otherNames (ps : Obj.obj ProfileSpecificSettings) (name : jstr) :
  validateProfileName name (otherNames ps name) = validateProfileName name [].
Proof.
  unfold validateProfileName. now rewrite includes_otherNames.
Qed.

Lemma SaveConfig_invalid_name (m : ConfigManager) (name : jstr) (cfg : ApiConfiguration)
    (ps : Obj.obj ProfileSpecificSettings) :
  profiles (currentDocument m) = Some ps ->
  isValid (validateProfileSettings cfg) = true ->
  isValid (validateProfileName name (otherNames ps name)) = false ->
  SaveConfig name cfg m
  = (Throw (rethrown "Failed to save config"
              (invalidProfileName (errors (validateProfileName name (otherNames ps name))))),
     afterExtract m cfg).
Proof.
  intros Hp Hs Hn. apply tryCatch_throw. save_extract Hs.
  unfold bind at 1. rewrite Hp. cbn [objectOf ret]. rewrite Hn. reflexivity.
Qed.

(** Whether [SaveConfig] accepts a name does not depend on the profiles
    that exist: the name is validated against the other names only, so a name
    already in use is never refused as a duplicate.  With settings that pass
    validation, [SaveConfig] completes normally exactly when the name is
    acceptable on its own, and else throws "Invalid profile name: ..." and
    writes nothing. *)
Theorem SaveConfig_accepts_name_on_its_own :
  forall (m : ConfigManager) (name : jstr) (cfg : ApiConfiguration)
         (ps : Obj.obj ProfileSpecificSettings),
    profiles (currentDocument m) = Some ps ->
    isValid (validateProfileSettings cfg) = true ->
    (fst (SaveConfig name cfg m) = Normal tt
     <-> isValid (validateProfileName name []) = true)
    /\ (isValid (validateProfileName name []) = false ->
        SaveConfig name cfg m
        = (Throw (rethrown "Failed to save config"
                    (invalidProfileName (errors (validateProfileName name [])))),
           afterExtract m cfg)
        /\ secrets (afterExtract m cfg) = secrets m)
    /\ ~ In (str "Profile name already exists")
           (errors (validateProfileName name (otherNames ps name))).
Proof.
  intros m name cfg ps Hp Hs.
  pose proof (validateProfileName_otherNames ps name) as Hv.
  split; [|split].
  - destruct (isValid (validateProfileName name [])) eqn:Hn.
    + rewrite <- Hv in Hn. rewrite (SaveConfig_valid m name cfg ps Hp Hs Hn). tauto.
    + rewrite <- Hv in Hn. rewrite (SaveConfig_invalid_name m name cfg ps Hp Hs Hn).
      split; discriminate.
  - intros Hn. rewrite <- Hv in Hn |- *.
    split; [apply SaveConfig_invalid_name; assumption | apply secrets_afterExtract].
  - rewrite Hv. unfold validateProfileName, validationOf. cbn [errors includes existsb].
    destruct (negb (truthy name)); [simpl; intuition discriminate|].
    destruct (Nat.eqb (length (trim name)) 0); [simpl; intuition discriminate|].
    destruct (Nat.ltb 50 (length name)); [simpl; intuition discriminate|].
    destruct (negb (nameRegexTest name)); simpl; intuition discriminate.
Qed.

Lemma SaveConfig_accepts_name_on_its_own_witness :
  fst (SaveConfig (str "default") (Sample.provider "ollama") (Sample.manager Sample.single))
  = Normal tt.
Proof.
  apply (proj1 (SaveConfig_accepts_name_on_its_own
                  (Sample.manager Sample.single) (str "default") (Sample.provider "ollama")
                  [(str "default", Sample.profile "abc")] eq_refl eq_refl)).
  reflexivity.
Defined.

Lemma console_afterExtract (m : ConfigManager) (cfg : ApiConfiguration) :
  console (afterExtract m cfg) = console m.
Proof. unfold afterExtract. now destruct (opt_truthy (id cfg)). Qed.

(** [SaveConfig] over an existing profile never fails on account of the
    transition: when [validateProfileTransition] objects, the only effect is
    one line on the console. *)
Theorem SaveConfig_transition_only_warns :
  forall (m : ConfigManager) (name : jstr) (cfg : ApiConfiguration)
         (ps : Obj.obj ProfileSpecificSettings) (existing : ProfileSpecificSettings),
    profiles (currentDocument m) = Some ps ->
    Obj.get ps name = Some existing ->
    isValid (validateProfileSettings cfg) = true ->
    isValid (validateProfileName name []) = true ->
    exists m',
      SaveConfig name cfg m = (Normal tt, m')
      /\ profileOf m' name = Some (extracted m cfg)
      /\ console m'
         = (if isValid (validateProfileTransition existing (extracted m cfg))
            then console m
            else console m
                 ++ [str "Profile transition warnings: "
                     ++ join (str ", ")
                          (errors (validateProfileTransition existing (extracted m cfg)))]).
Proof.
  intros m name cfg ps existing Hp Hget Hs Hn.
  rewrite <- (validateProfileName_otherNames ps name) in Hn.
  exists (saved m name cfg ps). split; [apply SaveConfig_valid; assumption|]. split.
  - apply (profileOf_saved_entry m name cfg ps Hp). right. congruence.
  - unfold saved. rewrite (lookup_stored ps name existing Hget).
    cbn [option_map asSettings transitionWarned committed console].
    destruct (isValid (validateProfileTransition existing (extracted m cfg)));
      cbn [warned console]; now rewrite console_afterExtract.
Qed.

Lemma SaveConfig_transition_only_warns_witness :
  exists m',
    SaveConfig (str "claude") Cases.gemini (Sample.manager Cases.withAnthropic)
    = (Normal tt, m')
    /\ console m'
       = [str "Profile transition warnings: Switching between these providers may require re-authentication"].
Proof.
  destruct (SaveConfig_transition_only_warns
              (Sample.manager Cases.withAnthropic) (str "claude") Cases.gemini
              [(str "claude", Cases.anthropic); (str "default", Sample.profile "abc")]
              Cases.anthropic eq_refl eq_refl eq_refl eq_refl)
    as [m' [H1 [_ H2]]].
  exists m'. split; [exact H1 | exact H2].
Defined.

(** A [SaveConfig] that completes normally keeps the invariant of the
    document: a profile exists and the current name is the name of one. *)
Theorem SaveConfig_keeps_consistent :
  forall (m m' : ConfigManager) (name : jstr) (cfg : ApiConfiguration),
    consistent (currentDocument m) ->
    SaveConfig name cfg m = (Normal tt, m') ->
    consistent (currentDocument m') /\ secrets m' = Some (currentDocument m').
Proof.
  intros m m' name cfg [g [ps [c [Hg [Hp [_ [Hc Hin]]]]]]] H.
  destruct (SaveConfig_normal m m' name cfg H) as [ps0 [Hp0 [_ [_ ->]]]].
  assert (ps0 = ps) by congruence. subst ps0.
  split; [|reflexivity].
  exists g, (assigned ps name (extracted m cfg)), c.
  rewrite currentDocument_saved. cbn [withProfiles globalSettings profiles].
  split; [exact Hg|]. split; [reflexivity|].
  assert (Hkey : forall k, In k (Obj.keys ps) ->
                 In k (Obj.keys (assigned ps name (extracted m cfg)))).
  { intros k Hk. unfold assigned.
    destruct (eqb name (str "__proto__") && negb (present (Obj.get ps name)));
      [exact Hk|].
    assert (Hsome : exists v, Obj.get (Obj.set ps name (extracted m cfg)) k = Some v).
    { rewrite ObjFacts.get_set. destruct (eqb name k) eqn:E; [eauto|].
      now apply ObjFacts.keys_get. }
    destruct Hsome as [v Hv]. eapply ObjFacts.get_Some_keys; eassumption. }
  split; [|split; [exact Hc | apply Hkey; exact Hin]].
  intros Hnil. specialize (Hkey c Hin). rewrite Hnil in Hkey. exact Hkey.
Qed.

Lemma SaveConfig_keeps_consistent_witness :
  consistent (currentDocument
                (snd (SaveConfig (str "work") (Sample.provider "ollama")
                        (Sample.manager Sample.single)))).
Proof.
  refine (proj1 (SaveConfig_keeps_consistent
                   (Sample.manager Sample.single) _ (str "work") (Sample.provider "ollama")
                   _ eq_refl)).
  exists (onlyCurrent (Some (str "default"))), [(str "default", Sample.profile "abc")],
    (str "default").
  repeat split; try reflexivity; [discriminate | now left].
Defined.

(** [LoadConfig] of a stored profile that passes validation. *)
Lemma LoadConfig_found (m : ConfigManager) (name : jstr) (g : GlobalSettings)
    (ps : Obj.obj ProfileSpecificSettings) (p : ProfileSpecificSettings) :
  globalSettings (currentDocument m) = Some g ->
  profiles (currentDocument m) = Some ps ->
  Obj.get ps name = Some p ->
  isValid (validateProfileSettings p) = true ->
  LoadConfig name m
  = (Normal p, committed m (withGlobalSettings (currentDocument m) (withCurrent g (Some name)))).
Proof.
  intros Hg Hp Hget Hv. apply tryCatch_normal.
  rewrite bind_readConfig. unfold bind at 1. rewrite Hp. cbn [propertyOf ret].
  unfold bind at 1. rewrite element_parse, (lookup_stored ps name p Hget).
  cbn [asSettings]. rewrite Hv. cbn [negb]. rewrite Hg.
  set (config := withGlobalSettings (currentDocument m) (withCurrent g (Some name))).
  unfold bind at 1. cbn [ret].
  pose proof (commit_eq m config) as Hc. unfold bind in Hc |- *.
  destruct (assign (refOf m) config m) as [[[]|e|] m1]; try discriminate.
  destruct (writeConfig config m1) as [[[]|e|] m2]; try discriminate.
  injection Hc as ->. reflexivity.
Qed.

Lemma extracted_again (m m2 : ConfigManager) (cfg : ApiConfiguration) :
  opt_truthy (id (extracted m cfg)) = true ->
  extracted m2 (extracted m cfg) = extracted m cfg
  /\ afterExtract m2 (extracted m cfg) = m2.
Proof.
  intros H. unfold extracted at 1, extractedId at 1, afterExtract. rewrite H.
  split; reflexivity.
Qed.

(** What [SaveConfig] stores is what [LoadConfig] returns, and saving back
    what [LoadConfig] returned changes nothing in the profile: on a document
    with global settings, after a [SaveConfig name cfg] with acceptable settings
    and a name that is acceptable and not [__proto__], [LoadConfig name]
    returns the stored profile and makes [name] current; and when the stored
    id is not empty, [SaveConfig name] of the returned configuration stores the
    same profile again, under the same id, without generating one. *)
Theorem SaveConfig_LoadConfig_round_trip :
  forall (m : ConfigManager) (name : jstr) (cfg : ApiConfiguration)
         (g : GlobalSettings) (ps : Obj.obj ProfileSpecificSettings),
    globalSettings (currentDocument m) = Some g ->
    profiles (currentDocument m) = Some ps ->
    isValid (validateProfileSettings cfg) = true ->
    isValid (validateProfileName name []) = true ->
    name <> str "__proto__" ->
    exists m1 m2,
      SaveConfig name cfg m = (Normal tt, m1)
      /\ LoadConfig name m1 = (Normal (extracted m cfg), m2)
      /\ currentName m2 = Some name
      /\ profileOf m2 name = Some (extracted m cfg)
      /\ (opt_truthy (id (extracted m cfg)) = true ->
          exists m3,
            SaveConfig name (extracted m cfg) m2 = (Normal tt, m3)
            /\ profileOf m3 name = Some (extracted m cfg)
            /\ draws m3 = draws m2).
Proof.
  intros m name cfg g ps Hg Hp Hs Hn Hname.
  set (stored := extracted m cfg).
  set (ps1 := Obj.set ps name stored).
  set (m1 := saved m name cfg ps).
  assert (Hn0 : isValid (validateProfileName name (otherNames ps name)) = true)
    by now rewrite validateProfileName_otherNames.
  assert (Hp1 : profiles (currentDocument m1) = Some ps1).
  { subst m1 ps1 stored. rewrite currentDocument_saved.
    now rewrite (assigned_ordinary ps name (extracted m cfg) Hname). }
  assert (Hg1 : globalSettings (currentDocument m1) = Some g) by exact Hg.
  assert (Hget1 : Obj.get ps1 name = Some stored) by apply ObjFacts.get_set_same.
  assert (Hv1 : isValid (validateProfileSettings stored) = true) by exact Hs.
  set (m2 := committed m1 (withGlobalSettings (currentDocument m1) (withCurrent g (Some name)))).
  exists m1, m2.
  split; [apply SaveConfig_valid; assumption|].
  split; [apply LoadConfig_found with (ps := ps1); assumption|].
  split; [reflexivity|].
  assert (Hp2 : profiles (currentDocument m2) = Some ps1) by exact Hp1.
  split; [unfold profileOf; rewrite Hp2; exact Hget1|].
  intros Hid.
  destruct (extracted_again m m2 cfg Hid) as [Hex Hafter].
  fold stored in Hex, Hafter.
  assert (Hn2 : isValid (validateProfileName name (otherNames ps1 name)) = true)
    by now rewrite validateProfileName_otherNames.
  exists (saved m2 name stored ps1).
  split; [apply SaveConfig_valid; assumption|]. split.
  - rewrite (profileOf_saved_entry m2 name stored ps1 Hp2 (or_introl Hname)).
    now rewrite Hex.
  - unfold saved. rewrite Hafter, (lookup_stored ps1 name stored Hget1), Hex.
    cbn [option_map asSettings committed draws transitionWarned].
    now destruct (isValid (validateProfileTransition stored stored)).
Qed.

Lemma SaveConfig_LoadConfig_round_trip_witness :
  exists m1 m2,
    SaveConfig (str "work") (Sample.provider "ollama") (Sample.manager Sample.single)
    = (Normal tt, m1)
    /\ LoadConfig (str "work") m1
       = (Normal (profileFields (Sample.provider "ollama") (Some (str "rnd1"))), m2)
    /\ currentName m2 = Some (str "work").
Proof.
  destruct (SaveConfig_LoadConfig_round_trip
              (Sample.manager Sample.single) (str "work") (Sample.provider "ollama")
              (onlyCurrent (Some (str "default"))) [(str "default", Sample.profile "abc")]
              eq_refl eq_refl eq_refl eq_refl)
    as [m1 [m2 [H1 [H2 [H3 _]]]]].
  - vm_compute. discriminate.
  - exists m1, m2. split; [exact H1|]. split; [exact H2 | exact H3].
Defined.

(** The first [SaveConfig] on an empty store persists the default profile
    too: the manager works on its in-memory default document, so what it
    writes holds the profile "default", with the id generated at construction,
    beside the new one (saved under an acceptable name other than "default"
    and [__proto__]), and "default" stays current. *)
Theorem SaveConfig_on_empty_store_persists_default :
  forall (rnd : nat -> jstr) (name : jstr) (cfg : ApiConfiguration),
    isValid (validateProfileSettings cfg) = true ->
    isValid (validateProfileName name []) = true ->
    name <> str "default" ->
    name <> str "__proto__" ->
    exists m',
      SaveConfig name cfg (newConfigManager rnd None) = (Normal tt, m')
      /\ secrets m' = Some (defaultConfig m')
      /\ profileOf m' (str "default") = Some (withId emptySettings (Some (rnd 0)))
      /\ profileOf m' name
         = Some (profileFields cfg (if opt_truthy (id cfg) then id cfg else Some (rnd 1)))
      /\ currentName m' = Some (str "default").
Proof.
  intros rnd name cfg Hs Hn Hne Hname.
  set (m := newConfigManager rnd None).
  set (ps := [(str "default", withId emptySettings (Some (rnd 0)))]).
  assert (Hp : profiles (currentDocument m) = Some ps) by reflexivity.
  exists (saved m name cfg ps).
  split; [apply SaveConfig_valid; [exact Hp | exact Hs |
                                    now rewrite validateProfileName_otherNames]|].
  split.
  { unfold saved, committed. cbn [secrets defaultConfig].
    now rewrite transitionWarned_secrets, secrets_afterExtract. }
  split; [|split; [|reflexivity]].
  - rewrite (profileOf_saved m name cfg ps (str "default") Hp); [|congruence].
    unfold profileOf. rewrite Hp. subst ps. cbn [Obj.get].
    now rewrite eqb_refl.
  - apply (profileOf_saved_entry m name cfg ps Hp (or_introl Hname)).
Qed.

Lemma SaveConfig_on_empty_store_persists_default_witness :
  exists m',
    SaveConfig (str "work") (Sample.provider "ollama") (newConfigManager Sample.random None)
    = (Normal tt, m')
    /\ profileOf m' (str "default") = Some (Sample.profile "rnd0").
Proof.
  destruct (SaveConfig_on_empty_store_persists_default
              Sample.random (str "work") (Sample.provider "ollama") eq_refl eq_refl)
    as [m' [H1 [_ [H2 _]]]].
  - vm_compute. discriminate.
  - vm_compute. discriminate.
  - exists m'. split; [exact H1 | exact H2].
Defined.

(* ================================================================== *)
(** ** LoadConfig and SetCurrentConfig *)
(* ================================================================== *)

Lemma lookup_cases (ps : Obj.obj ProfileSpecificSettings) (name : jstr) (v : Value) :
  lookup ps name = Some v ->
  match Obj.get ps name with
  | Some stored => asSettings v = stored
  | None => Obj.inherited name = true /\ asSettings v = emptySettings
  end.
Proof.
  unfold lookup. destruct (Obj.get ps name) as [stored|].
  - intros H. now injection H as <-.
  - destruct (eqb name (str "__proto__")) eqn:E.
    + intros H. injection H as <-. apply eqb_eq in E. subst name.
      split; [apply inherited_proto | reflexivity].
    + destruct (Obj.inherited name); [|discriminate].
      intros H. injection H as <-. split; reflexivity.
Qed.

(** [LoadConfig name] and [SetCurrentConfig name] do the same to the
    document, whatever the state: they leave the same store and the same
    default object, and one completes normally exactly when the other does.
    What [LoadConfig] returns is the profile stored under [name]; or, when no
    profile is stored under [name], then [name] names a member of
    [Object.prototype] and [LoadConfig] returns the empty object.  Either way
    [name] is the current name afterwards and the document has been written. *)
Theorem LoadConfig_SetCurrentConfig_same_document :
  forall (m : ConfigManager) (name : jstr),
    secrets (snd (LoadConfig name m)) = secrets (snd (SetCurrentConfig name m))
    /\ defaultConfig (snd (LoadConfig name m)) = defaultConfig (snd (SetCurrentConfig name m))
    /\ (fst (SetCurrentConfig name m) = Normal tt
        <-> exists p, fst (LoadConfig name m) = Normal p)
    /\ (forall p, fst (LoadConfig name m) = Normal p ->
          match profileOf m name with
          | Some stored => p = stored
          | None => Obj.inherited name = true /\ p = emptySettings
          end
          /\ currentName (snd (LoadConfig name m)) = Some name
          /\ secrets (snd (LoadConfig name m))
             = Some (currentDocument (snd (LoadConfig name m)))).
Proof.
  intros m name.
  unfold LoadConfig, SetCurrentConfig, tryCatch, profileOf.
  rewrite !bind_readConfig. unfold bind.
  destruct (profiles (currentDocument m)) as [ps|]; cbn [propertyOf ret throw fst snd];
    [|repeat split; try discriminate; intros [p H]; discriminate].
  rewrite !element_parse.
  destruct (lookup ps name) as [found|] eqn:Hl; cbn [throw fst snd];
    [|repeat split; try discriminate; intros [p H]; discriminate].
  pose proof (lookup_cases ps name found Hl) as Hcases.
  unfold profileSettingsToApiConfig.
  revert Hcases. generalize (asSettings found). intros p Hcases.
  generalize (validateProfileSettings p). intros v.
  destruct (globalSettings (currentDocument m)) as [g|] eqn:Hg.
  - unfold assign, writeConfig, warn, refOf, currentName, currentDocument.
    destruct m as [sec dflt rnd n out]; cbn [secrets defaultConfig random draws console].
    destruct sec; destruct (isValid v); cbn;
      (split; [reflexivity|]; split; [reflexivity|]; split;
       [split; [intros _; eexists; reflexivity | reflexivity]|]);
      intros q Hq; injection Hq as <-; (split; [|split; reflexivity]);
      (destruct (Obj.get ps name); [now symmetry | tauto]).
  - unfold warn. destruct (isValid v); cbn [negb throw fst snd ret];
      repeat split; try discriminate; intros [q H]; discriminate.
Qed.

(** On a document with global settings and profiles, [SetCurrentConfig name]
    throws "not found" and changes nothing when no profile has that name and
    [name] names no member of [Object.prototype]; for a stored profile it
    writes the document with [name] current, whatever the current name was
    before, so the document is consistent afterwards, and it leaves the
    profiles and the mode bindings alone.  A name that is not stored but names
    a member of [Object.prototype] is accepted too: the document is written
    with a current name that is no profile. *)
Theorem SetCurrentConfig_makes_current :
  forall (m : ConfigManager) (name : jstr) (g : GlobalSettings)
         (ps : Obj.obj ProfileSpecificSettings),
    globalSettings (currentDocument m) = Some g ->
    profiles (currentDocument m) = Some ps ->
    (Obj.get ps name = None -> Obj.inherited name = false ->
       SetCurrentConfig name m
       = (Throw (rethrown "Failed to set current config" (notFound name)), m))
    /\ (forall p, Obj.get ps name = Some p ->
          exists m',
            SetCurrentConfig name m = (Normal tt, m')
            /\ secrets m' = Some (currentDocument m')
            /\ currentName m' = Some name
            /\ consistent (currentDocument m')
            /\ profiles (currentDocument m') = Some ps
            /\ (forall mode, modeBinding m' mode = modeBinding m mode))
    /\ (Obj.get ps name = None -> Obj.inherited name = true ->
          exists m',
            SetCurrentConfig name m = (Normal tt, m')
            /\ secrets m' = Some (currentDocument m')
            /\ currentName m' = Some name
            /\ profileOf m' name = None
            /\ profiles (currentDocument m') = Some ps).
Proof.
  intros m name g ps Hg Hp. split; [|split].
  - intros Hget Hname. apply tryCatch_throw. rewrite bind_readConfig. unfold bind.
    rewrite Hp. cbn [propertyOf ret].
    now rewrite element_parse, (lookup_absent ps name Hget Hname).
  - intros p Hget.
    exists (committed m (withGlobalSettings (currentDocument m) (withCurrent g (Some name)))).
    split.
    + apply tryCatch_normal. rewrite bind_readConfig. unfold bind at 1.
      rewrite Hp. cbn [propertyOf ret].
      unfold bind at 1. rewrite element_parse, (lookup_stored ps name p Hget), Hg.
      apply commit_eq.
    + split; [reflexivity|]. split; [reflexivity|]. split; [|split].
      * exists (withCurrent g (Some name)), ps, name.
        rewrite currentDocument_committed. cbn [withGlobalSettings globalSettings profiles].
        split; [reflexivity|]. split; [exact Hp|].
        split; [intros ->; discriminate|]. split; [reflexivity|].
        eapply ObjFacts.get_Some_keys; eassumption.
      * exact Hp.
      * intros mode. unfold modeBinding. rewrite currentDocument_committed, Hg. reflexivity.
  - intros Hget Hname.
    exists (committed m (withGlobalSettings (currentDocument m) (withCurrent g (Some name)))).
    split.
    + apply tryCatch_normal. rewrite bind_readConfig. unfold bind at 1.
      rewrite Hp. cbn [propertyOf ret].
      unfold bind at 1. rewrite element_parse.
      destruct (lookup_inherited ps name Hget Hname) as [v [-> _]]. rewrite Hg.
      apply commit_eq.
    + split; [reflexivity|]. split; [reflexivity|]. split; [|exact Hp].
      unfold profileOf. rewrite currentDocument_committed.
      cbn [withGlobalSettings profiles]. now rewrite Hp.
Qed.

Lemma SetCurrentConfig_makes_current_witness :
  exists m',
    SetCurrentConfig (str "b") (Sample.manager Sample.bound) = (Normal tt, m')
    /\ currentName m' = Some (str "b")
    /\ modeBinding m' (str "code") = Some (str "id-a").
Proof.
  destruct (SetCurrentConfig_makes_current (Sample.manager Sample.bound) (str "b")
              (mkGlobalSettings (Some (str "a")) None None None None None
                 (Some [(str "code", str "id-a"); (str "ask", str "id-b")]))
              [(str "a", Sample.profile "id-a"); (str "b", Sample.profile "id-b")]
              eq_refl eq_refl) as [_ [H _]].
  destruct (H (Sample.profile "id-b") eq_refl) as [m' [H1 [_ [H2 [_ [_ H3]]]]]].
  exists m'. split; [exact H1|]. split; [exact H2|]. exact (H3 (str "code")).
Defined.

(* ================================================================== *)
(** ** Mode bindings *)
(* ================================================================== *)

(** What [SetModeConfig] binds, [GetModeConfigId] returns: on a document
    with global settings, [SetModeConfig mode configId] completes normally and
    writes; afterwards [GetModeConfigId mode] returns [configId], every other
    mode answers as before, and the profiles and the current name are as they
    were.  No check is made that [configId] is the id of a profile. *)
Theorem SetModeConfig_GetModeConfigId_round_trip :
  forall (m : ConfigManager) (mode configId : jstr) (g : GlobalSettings),
    globalSettings (currentDocument m) = Some g ->
    exists m',
      SetModeConfig mode configId m = (Normal tt, m')
      /\ secrets m' = Some (currentDocument m')
      /\ GetModeConfigId mode m' = (Normal (Some configId), m')
      /\ (forall other, other <> mode ->
            fst (GetModeConfigId other m') = fst (GetModeConfigId other m))
      /\ profiles (currentDocument m') = profiles (currentDocument m)
      /\ currentName m' = currentName m.
Proof.
  intros m mode configId g Hg.
  set (modes := match modeApiConfigs g with Some ms => ms | None => [] end).
  set (d' := withGlobalSettings (currentDocument m)
               (withModes g (Some (Obj.set modes mode configId)))).
  exists (committed m d').
  assert (Hread : forall k,
             GetModeConfigId k (committed m d')
             = (Normal (Obj.get (Obj.set modes mode configId) k), committed m d')).
  { intros k. apply tryCatch_normal. rewrite bind_readConfig. unfold bind.
    rewrite currentDocument_committed. reflexivity. }
  split; [|split; [reflexivity|split; [|split; [|split]]]].
  - apply tryCatch_normal. rewrite bind_readConfig. unfold bind at 1.
    rewrite Hg. cbn [propertyOf ret]. apply commit_eq.
  - rewrite Hread. now rewrite ObjFacts.get_set_same.
  - intros other Hne. rewrite Hread. rewrite (ObjFacts.get_set_other modes mode configId other Hne).
    unfold GetModeConfigId, tryCatch. rewrite bind_readConfig. unfold bind.
    rewrite Hg. cbn [propertyOf ret fst]. subst modes. now destruct (modeApiConfigs g).
  - reflexivity.
  - unfold currentName. rewrite currentDocument_committed, Hg. reflexivity.
Qed.

Lemma SetModeConfig_GetModeConfigId_round_trip_witness :
  exists m',
    SetModeConfig (str "code") (str "id-b") (Sample.manager Sample.pair) = (Normal tt, m')
    /\ GetModeConfigId (str "code") m' = (Normal (Some (str "id-b")), m').
Proof.
  destruct (SetModeConfig_GetModeConfigId_round_trip
              (Sample.manager Sample.pair) (str "code") (str "id-b")
              (onlyCurrent (Some (str "a"))) eq_refl)
    as [m' [H1 [_ [H2 _]]]].
  exists m'. split; [exact H1 | exact H2].
Defined.

(* ================================================================== *)
(** ** ListConfig and HasConfig *)
(* ================================================================== *)

Lemma present_get_includes {V : Type} (o : Obj.obj V) (k : jstr) :
  present (Obj.get o k) = includes (Obj.keys o) k.
Proof.
  unfold includes. induction o as [|[k' v] r IH]; [reflexivity|].
  cbn [Obj.get Obj.keys map fst existsb]. rewrite (eqb_sym k k').
  destruct (eqb k' k); [reflexivity | exact IH].
Qed.

(** The three queries write nothing and change nothing.  On a document with
    profiles, [ListConfig] returns one entry per profile, in the order of the
    keys, each with the id and the provider of its profile; [HasConfig name]
    is true exactly for the names listed and for the names of the members of
    [Object.prototype], which the operator [in] finds too.  On a document
    without profiles both throw a [TypeError]. *)
Theorem queries_agree_and_change_nothing :
  forall (m : ConfigManager),
    snd (ListConfig m) = m
    /\ (forall name, snd (HasConfig name m) = m)
    /\ (forall mode, snd (GetModeConfigId mode m) = m)
    /\ (forall ps, profiles (currentDocument m) = Some ps ->
          exists listed,
            fst (ListConfig m) = Normal listed
            /\ map metaName listed = Obj.keys ps
            /\ Forall2 (fun entry meta =>
                          metaName meta = fst entry
                          /\ metaId meta = id (snd entry)
                          /\ metaApiProvider meta = apiProvider (snd entry))
                       ps listed
            /\ (forall name,
                  fst (HasConfig name m)
                  = Normal (includes (map metaName listed) name || Obj.inherited name)))
    /\ (profiles (currentDocument m) = None ->
        fst (ListConfig m) = Throw (rethrown "Failed to list configs" cannotConvert)
        /\ forall name,
             fst (HasConfig name m)
             = Throw (rethrown "Failed to check config existence" (cannotSearch name))).
Proof.
  intros m.
  assert (HL : forall ps, profiles (currentDocument m) = Some ps ->
             ListConfig m
             = (Normal (map (fun '(name, profile) =>
                               mkApiConfigMeta name (id profile) (apiProvider profile)) ps),
                m)).
  { intros ps Hp. apply tryCatch_normal. rewrite bind_readConfig. unfold bind.
    now rewrite Hp. }
  assert (HH : forall ps name, profiles (currentDocument m) = Some ps ->
             HasConfig name m = (Normal (Obj.has ps name), m)).
  { intros ps name Hp. apply tryCatch_normal. rewrite bind_readConfig. now rewrite Hp. }
  assert (HLn : profiles (currentDocument m) = None ->
             ListConfig m = (Throw (rethrown "Failed to list configs" cannotConvert), m)).
  { intros Hp. apply tryCatch_throw. rewrite bind_readConfig. unfold bind. now rewrite Hp. }
  assert (HHn : forall name, profiles (currentDocument m) = None ->
             HasConfig name m
             = (Throw (rethrown "Failed to check config existence" (cannotSearch name)), m)).
  { intros name Hp. apply tryCatch_throw. rewrite bind_readConfig. now rewrite Hp. }
  split; [|split; [|split; [|split]]].
  - destruct (profiles (currentDocument m)) as [ps|] eqn:Hp;
      [now rewrite (HL ps eq_refl) | now rewrite (HLn eq_refl)].
  - intros name. destruct (profiles (currentDocument m)) as [ps|] eqn:Hp;
      [now rewrite (HH ps name eq_refl) | now rewrite (HHn name eq_refl)].
  - intros mode. unfold GetModeConfigId, tryCatch. rewrite bind_readConfig. unfold bind.
    now destruct (globalSettings (currentDocument m)).
  - intros ps Hp. eexists. rewrite (HL ps Hp). split; [reflexivity|].
    assert (Hnames : map metaName
                       (map (fun '(name, profile) =>
                               mkApiConfigMeta name (id profile) (apiProvider profile)) ps)
                     = Obj.keys ps).
    { unfold Obj.keys. rewrite map_map. apply map_ext. now intros [n q]. }
    split; [exact Hnames|]. split.
    + clear. induction ps as [|[n q] r IH]; constructor; [repeat split | exact IH].
    + intros name. rewrite (HH ps name Hp), Hnames. cbn [fst].
      unfold Obj.has. now rewrite present_get_includes.
  - intros Hp. rewrite (HLn Hp). split; [reflexivity|].
    intros name. now rewrite (HHn name Hp).
Qed.

Lemma queries_agree_and_change_nothing_witness :
  exists listed,
    fst (ListConfig (Sample.manager Sample.pair)) = Normal listed
    /\ map metaName listed = [str "a"; str "b"]
    /\ fst (HasConfig (str "b") (Sample.manager Sample.pair)) = Normal true.
Proof.
  destruct (queries_agree_and_change_nothing (Sample.manager Sample.pair))
    as [_ [_ [_ [H _]]]].
  destruct (H [(str "a", Sample.profile "id-a"); (str "b", Sample.profile "id-b")] eq_refl)
    as [listed [H1 [H2 [_ H3]]]].
  exists listed. split; [exact H1|]. split; [exact H2|].
  rewrite (H3 (str "b")), H2. reflexivity.
Defined.

(* ================================================================== *)
(** ** After DeleteConfig *)
(* ================================================================== *)

Lemma get_filter_unique {V : Type} (f : jstr * V -> bool) (o : Obj.obj V) (k : jstr) :
  uniqueKeys o ->
  Obj.get (filter f o) k
  = match Obj.get o k with
    | Some v => if f (k, v) then Some v else None
    | None => None
    end.
Proof.
  induction o as [|[k' v'] r IH]; intros Hu; [reflexivity|].
  assert (Hr : uniqueKeys r) by (inversion Hu; assumption).
  assert (Hk' : Obj.get r k' = None).
  { apply ObjFacts.get_None_keys. inversion Hu; assumption. }
  cbn [filter Obj.get]. destruct (eqb k' k) eqn:E.
  - apply eqb_eq in E. subst k'. destruct (f (k, v')).
    + cbn [Obj.get]. now rewrite eqb_refl.
    + rewrite (IH Hr), Hk'. reflexivity.
  - destruct (f (k', v')); [cbn [Obj.get]; rewrite E|]; exact (IH Hr).
Qed.

(** After a [DeleteConfig] that goes through, no mode is bound to the id of
    the deleted profile any more, and every mode bound to another id is bound
    as before. *)
Theorem DeleteConfig_leaves_no_binding_to_deleted :
  forall (m : ConfigManager) (name : jstr) (g : GlobalSettings)
         (ps : Obj.obj ProfileSpecificSettings) (p : ProfileSpecificSettings)
         (deletedId : jstr),
    currentShape (currentDocument m) g ps ->
    Obj.get ps name = Some p ->
    length (Obj.keys ps) <> 1 ->
    id p = Some deletedId ->
    fst (DeleteConfig name m) = Normal tt
    /\ (forall mode, modeBinding (snd (DeleteConfig name m)) mode <> Some deletedId)
    /\ (forall mode bound,
          modeBinding m mode = Some bound -> bound <> deletedId ->
          modeBinding (snd (DeleteConfig name m)) mode = Some bound).
Proof.
  intros m name g ps p deletedId S Hget Hlen Hid.
  destruct (DeleteConfig_deletes m name g ps p S Hget Hlen) as [g' [Hrun [_ [Hmodes _]]]].
  destruct S as [Hg _ _ _ Hm].
  rewrite Hrun. cbn [fst snd]. split; [reflexivity|].
  assert (Hb : forall mode,
             modeBinding (committed m (withProfiles (withGlobalSettings (currentDocument m) g')
                                                    (Obj.remove ps name))) mode
             = match modeBinding m mode with
               | Some bound => if eqb bound deletedId then None else Some bound
               | None => None
               end).
  { intros mode. unfold modeBinding. rewrite currentDocument_committed, Hg.
    cbn [withProfiles withGlobalSettings globalSettings]. rewrite Hmodes.
    destruct (modeApiConfigs g) as [modes|] eqn:E; cbn [option_map]; [|reflexivity].
    rewrite (get_filter_unique _ modes mode (Hm modes eq_refl)).
    destruct (Obj.get modes mode) as [bound|]; [|reflexivity].
    unfold keptBinding. cbn [snd]. rewrite Hid. cbn [opt_eqb].
    now destruct (eqb bound deletedId). }
  split.
  - intros mode. rewrite Hb. destruct (modeBinding m mode) as [bound|]; [|discriminate].
    destruct (eqb bound deletedId) eqn:E; [discriminate|].
    apply eqb_neq in E. congruence.
  - intros mode bound Hbound Hne. rewrite Hb, Hbound.
    apply eqb_neq in Hne. now rewrite Hne.
Qed.

Lemma currentShape_bound :
  currentShape (currentDocument (Sample.manager Sample.bound))
    (mkGlobalSettings (Some (str "a")) None None None None None
       (Some [(str "code", str "id-a"); (str "ask", str "id-b")]))
    [(str "a", Sample.profile "id-a"); (str "b", Sample.profile "id-b")].
Proof.
  split; try reflexivity.
  - unfold uniqueKeys. repeat constructor; vm_compute; intuition discriminate.
  - vm_compute. intuition discriminate.
  - intros modes H. injection H as <-.
    unfold uniqueKeys. repeat constructor; vm_compute; intuition discriminate.
Defined.

Lemma DeleteConfig_leaves_no_binding_to_deleted_witness :
  modeBinding (snd (DeleteConfig (str "a") (Sample.manager Sample.bound))) (str "code")
  <> Some (str "id-a")
  /\ modeBinding (snd (DeleteConfig (str "a") (Sample.manager Sample.bound))) (str "ask")
     = Some (str "id-b").
Proof.
  destruct (DeleteConfig_leaves_no_binding_to_deleted
              (Sample.manager Sample.bound) (str "a") _ _ (Sample.profile "id-a")
              (str "id-a") currentShape_bound eq_refl) as [_ [H1 H2]].
  - vm_compute. discriminate.
  - reflexivity.
  - split; [exact (H1 (str "code"))|].
    apply (H2 (str "ask") (str "id-b")); [reflexivity | vm_compute; discriminate].
Defined.

(** After a [DeleteConfig name] that goes through, [ListConfig] lists the
    other names in their order; and, when [name] names no member of
    [Object.prototype], the profile is gone for every other method:
    [HasConfig name] is false, and [LoadConfig name] and a second
    [DeleteConfig name] throw "not found" and change nothing. *)
Theorem DeleteConfig_then_not_found :
  forall (m : ConfigManager) (name : jstr) (g : GlobalSettings)
         (ps : Obj.obj ProfileSpecificSettings) (p : ProfileSpecificSettings),
    currentShape (currentDocument m) g ps ->
    Obj.get ps name = Some p ->
    length (Obj.keys ps) <> 1 ->
    Obj.inherited name = false ->
    exists m',
      DeleteConfig name m = (Normal tt, m')
      /\ HasConfig name m' = (Normal false, m')
      /\ LoadConfig name m' = (Throw (rethrown "Failed to load config" (notFound name)), m')
      /\ DeleteConfig name m'
         = (Throw (rethrown "Failed to delete config" (notFound name)), m')
      /\ (exists listed,
            ListConfig m' = (Normal listed, m')
            /\ map metaName listed = filter (fun n => negb (eqb n name)) (Obj.keys ps)).
Proof.
  intros m name g ps p S Hget Hlen Hname.
  destruct (DeleteConfig_deletes m name g ps p S Hget Hlen) as [g' [Hrun _]].
  set (m' := committed m (withProfiles (withGlobalSettings (currentDocument m) g')
                                       (Obj.remove ps name))) in *.
  assert (Hp' : profiles (currentDocument m') = Some (Obj.remove ps name)) by reflexivity.
  assert (Hgone : Obj.get (Obj.remove ps name) name = None).
  { rewrite ObjFacts.get_remove. now rewrite eqb_refl. }
  exists m'. split; [exact Hrun|]. split; [|split; [|split]].
  - apply tryCatch_normal. rewrite bind_readConfig. rewrite Hp'.
    unfold Obj.has. now rewrite Hgone, Hname.
  - apply tryCatch_throw. rewrite bind_readConfig. unfold bind. rewrite Hp'.
    cbn [propertyOf ret].
    now rewrite element_parse, (lookup_absent _ name Hgone Hname).
  - apply tryCatch_throw. rewrite bind_readConfig. unfold bind. rewrite Hp'.
    cbn [propertyOf ret].
    now rewrite element_parse, (lookup_absent _ name Hgone Hname).
  - eexists. split.
    + apply tryCatch_normal. rewrite bind_readConfig. unfold bind. rewrite Hp'. reflexivity.
    + rewrite <- ObjFacts.keys_remove. unfold Obj.keys. rewrite map_map.
      apply map_ext. now intros [n q].
Qed.

Lemma DeleteConfig_then_not_found_witness :
  exists m',
    DeleteConfig (str "a") (Sample.manager Sample.bound) = (Normal tt, m')
    /\ HasConfig (str "a") m' = (Normal false, m').
Proof.
  destruct (DeleteConfig_then_not_found
              (Sample.manager Sample.bound) (str "a") _ _ (Sample.profile "id-a")
              currentShape_bound eq_refl) as [m' [H1 [H2 _]]].
  - vm_compute. discriminate.
  - reflexivity.
  - exists m'. split; [exact H1 | exact H2].
Defined.

(* ================================================================== *)
(** ** RenameConfig: what it refuses, and the current name *)
(* ================================================================== *)

Lemma RenameConfig_invalid_name (m : ConfigManager) (oldName newName : jstr)
    (ps : Obj.obj ProfileSpecificSettings) (p : ProfileSpecificSettings) :
  profiles (currentDocument m) = Some ps ->
  Obj.get ps oldName = Some p ->
  isValid (validateProfileName newName (otherNames ps oldName)) = false ->
  RenameConfig oldName newName m
  = (Throw (rethrown "Failed to rename config"
              (invalidProfileName
                 (errors (validateProfileName newName (otherNames ps oldName))))), m).
Proof.
  intros Hp Hget Hn. apply tryCatch_throw. rewrite bind_readConfig. unfold bind.
  rewrite Hp. cbn [propertyOf ret].
  rewrite element_parse, (lookup_stored ps oldName p Hget), Hn. reflexivity.
Qed.

(** What [RenameConfig] refuses, it refuses before it changes anything: on
    a document with profiles it throws "not found" when [oldName] is no
    profile and names no member of [Object.prototype], "Invalid profile name:
    Profile name already exists" when [newName] (not blank) is the name of
    another profile, and "Invalid profile name: ..." with the validator's
    errors for any other unacceptable name; the state is as it was each time.
    A name such as "toString" is not refused: with profiles "a" and "b" stored,
    renaming "toString" to "x" completes normally and writes the document as
    it was. *)
Theorem RenameConfig_refusals_change_nothing :
  forall (m : ConfigManager) (oldName newName : jstr)
         (ps : Obj.obj ProfileSpecificSettings),
    profiles (currentDocument m) = Some ps ->
    (Obj.get ps oldName = None -> Obj.inherited oldName = false ->
       RenameConfig oldName newName m
       = (Throw (rethrown "Failed to rename config" (notFound oldName)), m))
    /\ (forall p q,
          Obj.get ps oldName = Some p -> Obj.get ps newName = Some q ->
          newName <> oldName -> trim newName <> [] ->
          RenameConfig oldName newName m
          = (Throw (rethrown "Failed to rename config"
                      (invalidProfileName [str "Profile name already exists"])), m))
    /\ (forall p,
          Obj.get ps oldName = Some p ->
          isValid (validateProfileName newName (otherNames ps oldName)) = false ->
          RenameConfig oldName newName m
          = (Throw (rethrown "Failed to rename config"
                      (invalidProfileName
                         (errors (validateProfileName newName (otherNames ps oldName))))),
             m))
    /\ RenameConfig (str "toString") (str "x") (Sample.manager Sample.pair)
       = (Normal tt, Sample.manager Sample.pair).
Proof.
  intros m oldName newName ps Hp. split; [|split; [|split]]; [| | |vm_compute; reflexivity].
  - intros Hget Hname. apply tryCatch_throw. rewrite bind_readConfig. unfold bind.
    rewrite Hp. cbn [propertyOf ret].
    now rewrite element_parse, (lookup_absent ps oldName Hget Hname).
  - intros p q Hold Hnew Hne Hblank.
    assert (Hin : includes (otherNames ps oldName) newName = true).
    { apply includes_In. unfold otherNames. apply filter_In. split.
      - eapply ObjFacts.get_Some_keys; eassumption.
      - apply negb_true_iff. now apply eqb_neq. }
    assert (Hv : validateProfileName newName (otherNames ps oldName)
                 = mkValidationResult false [str "Profile name already exists"]).
    { unfold validateProfileName. rewrite Hin.
      destruct newName as [|c rest]; [now contradiction Hblank|].
      cbn [truthy negb]. destruct (trim (c :: rest)); [congruence | reflexivity]. }
    rewrite (RenameConfig_invalid_name m oldName newName ps p Hp Hold);
      rewrite Hv; reflexivity.
  - intros p Hold Hn. now apply RenameConfig_invalid_name with (p := p).
Qed.

Lemma RenameConfig_refusals_change_nothing_witness :
  RenameConfig (str "a") (str "b") (Sample.manager Sample.bound)
  = (Throw (rethrown "Failed to rename config"
              (invalidProfileName [str "Profile name already exists"])),
     Sample.manager Sample.bound).
Proof.
  destruct (RenameConfig_refusals_change_nothing
              (Sample.manager Sample.bound) (str "a") (str "b")
              [(str "a", Sample.profile "id-a"); (str "b", Sample.profile "id-b")] eq_refl)
    as [_ [H _]].
  apply (H (Sample.profile "id-a") (Sample.profile "id-b") eq_refl eq_refl);
    vm_compute; discriminate.
Defined.

(** On a consistent document with no mode bound, [RenameConfig] to a
    different acceptable name other than [__proto__] keeps the document
    consistent: the current name follows the profile when the renamed profile
    was current, and stays what it was otherwise.  The name [__proto__] is
    acceptable to the validator, but the assignment to it stores nothing: with
    profiles "a" and "b" stored and "a" current, renaming "a" to [__proto__]
    completes normally and writes a document that has lost the profile and
    whose current name, [__proto__], is no profile. *)
Theorem RenameConfig_current_name_follows :
  forall (m : ConfigManager) (oldName newName : jstr) (g : GlobalSettings)
         (ps : Obj.obj ProfileSpecificSettings) (p : ProfileSpecificSettings),
    globalSettings (currentDocument m) = Some g ->
    profiles (currentDocument m) = Some ps ->
    Obj.get ps oldName = Some p ->
    newName <> oldName ->
    newName <> str "__proto__" ->
    isValid (validateProfileName newName (otherNames ps oldName)) = true ->
    noModes g ->
    consistent (currentDocument m) ->
    (exists m',
       RenameConfig oldName newName m = (Normal tt, m')
       /\ currentName m'
          = (if opt_eqb (currentApiConfigName g) (Some oldName)
             then Some newName else currentApiConfigName g)
       /\ consistent (currentDocument m'))
    /\ RenameConfig (str "a") (str "__proto__") (Sample.manager Sample.pair)
       = (Normal tt,
          Sample.manager (document (onlyCurrent (Some (str "__proto__")))
                                   [(str "b", Sample.profile "id-b")])).
Proof.
  intros m oldName newName g ps p Hg Hp Hget Hne Hproto Hn Hmodes
         [g0 [ps0 [c [Hg0 [Hp0 [_ [Hc Hin]]]]]]].
  split; [|vm_compute; reflexivity].
  assert (g0 = g) by congruence. assert (ps0 = ps) by congruence. subst g0 ps0.
  set (m' := committed m (renamed (currentDocument m) g ps oldName newName p)).
  assert (Hon : eqb oldName newName = false) by (apply eqb_neq; congruence).
  assert (Hcur : currentName m'
                 = (if opt_eqb (currentApiConfigName g) (Some oldName)
                    then Some newName else currentApiConfigName g)).
  { unfold currentName. subst m'. rewrite currentDocument_committed. unfold renamed.
    cbv zeta. destruct (opt_eqb (currentApiConfigName g) (Some oldName));
      cbn [withGlobalSettings withProfiles globalSettings withCurrent currentApiConfigName];
      [reflexivity | now rewrite Hg]. }
  exists m'. split; [apply RenameConfig_unbound; try assumption; now left|].
  split; [exact Hcur|].
  set (ps' := Obj.remove (Obj.set ps newName p) oldName).
  assert (Hp' : profiles (currentDocument m') = Some ps').
  { subst m'. rewrite currentDocument_committed. unfold renamed. cbv zeta.
    now destruct (opt_eqb (currentApiConfigName g) (Some oldName)). }
  assert (Hg' : exists g', globalSettings (currentDocument m') = Some g'
                           /\ currentApiConfigName g' = currentName m').
  { unfold currentName. destruct (globalSettings (currentDocument m')) as [g'|] eqn:E.
    - exists g'. split; reflexivity.
    - exfalso. revert E. subst m'. rewrite currentDocument_committed. unfold renamed.
      cbv zeta. destruct (opt_eqb (currentApiConfigName g) (Some oldName));
        cbn [withGlobalSettings withProfiles globalSettings]; [discriminate | congruence]. }
  destruct Hg' as [g' [Hg' Hcg']].
  assert (Hnew : Obj.get ps' newName = Some p).
  { subst ps'. rewrite ObjFacts.get_remove, Hon. apply ObjFacts.get_set_same. }
  destruct (opt_eqb (currentApiConfigName g) (Some oldName)) eqn:E.
  - exists g', ps', newName. rewrite Hcg', Hcur.
    repeat split; try assumption.
    + intros Hnil. rewrite Hnil in Hnew. discriminate.
    + eapply ObjFacts.get_Some_keys; eassumption.
  - exists g', ps', c. rewrite Hcg', Hcur.
    assert (Hco : eqb oldName c = false).
    { apply eqb_neq. intros ->. rewrite Hc in E. cbn in E. rewrite eqb_refl in E.
      discriminate. }
    destruct (ObjFacts.keys_get ps c Hin) as [v Hv].
    assert (Hc' : exists w, Obj.get ps' c = Some w).
    { subst ps'. rewrite ObjFacts.get_remove, Hco, ObjFacts.get_set.
      destruct (eqb newName c); eauto. }
    destruct Hc' as [w Hw].
    repeat split; try assumption.
    + intros Hnil. rewrite Hnil in Hnew. discriminate.
    + eapply ObjFacts.get_Some_keys; eassumption.
Qed.

Lemma RenameConfig_current_name_follows_witness :
  exists m',
    RenameConfig (str "a") (str "c") (Sample.manager Sample.pair) = (Normal tt, m')
    /\ currentName m' = Some (str "c").
Proof.
  destruct (RenameConfig_current_name_follows
              (Sample.manager Sample.pair) (str "a") (str "c")
              (onlyCurrent (Some (str "a")))
              [(str "a", Sample.profile "id-a"); (str "b", Sample.profile "id-b")]
              (Sample.profile "id-a") eq_refl eq_refl eq_refl)
    as [[m' [H1 [H2 _]]] _].
  - vm_compute. discriminate.
  - vm_compute. discriminate.
  - reflexivity.
  - left. reflexivity.
  - exists (onlyCurrent (Some (str "a"))),
      [(str "a", Sample.profile "id-a"); (str "b", Sample.profile "id-b")], (str "a").
    repeat split; try reflexivity; [discriminate | now left].
  - exists m'. split; [exact H1 | exact H2].
Defined.

(* ================================================================== *)
(** ** initConfig on a document of the current shape *)
(* ================================================================== *)

Lemma backfilledEntry_later (m m1 : ConfigManager)
    (entry filled : jstr * ProfileSpecificSettings) :
  drawsOnly m m1 -> backfilledEntry m1 entry filled -> backfilledEntry m entry filled.
Proof.
  intros [_ [_ [Hr [_ Hd]]]] [Hk [H|[Hno [k [Hle Hq]]]]].
  - split; [exact Hk | now left].
  - split; [exact Hk | right]. split; [exact Hno|].
    exists k. split; [eapply Nat.le_trans; eassumption | now rewrite <- Hr].
Qed.

(** The id loop: it completes, draws ids and does nothing else to the state,
    keeps the keys in their order, leaves alone every profile that has a
    non-empty id and gives the others a drawn one; it reports a change exactly
    when some profile lacked an id, and without one it changes nothing. *)
Lemma ensureIds_spec (ps : Obj.obj ProfileSpecificSettings) :
  forall (m : ConfigManager),
  exists filled needsMigration m',
    ensureIds ps m = (Normal (filled, needsMigration), m')
    /\ drawsOnly m m'
    /\ Forall2 (backfilledEntry m) ps filled
    /\ (needsMigration = false -> filled = ps /\ m' = m).
Proof.
  induction ps as [|[name p] rest IH]; intros m.
  - exists [], false, m. split; [reflexivity|]. split; [apply drawsOnly_refl|].
    split; [constructor | auto].
  - cbn [ensureIds]. destruct (opt_truthy (id p)) eqn:Hid.
    + destruct (IH m) as [filled [b [m' [Hrun [Hd [Hall Hsame]]]]]].
      exists ((name, p) :: filled), b, m'. unfold bind. rewrite Hrun.
      split; [reflexivity|]. split; [exact Hd|]. split.
      * constructor; [|exact Hall]. split; [reflexivity | left; auto].
      * intros Hb. destruct (Hsame Hb) as [-> ->]. auto.
    + set (m1 := mkConfigManager (secrets m) (defaultConfig m) (random m) (S (draws m))
                   (console m)).
      assert (Hd1 : drawsOnly m m1).
      { repeat split. simpl. apply Nat.le_succ_diag_r. }
      destruct (IH m1) as [filled [b [m' [Hrun [Hd [Hall _]]]]]].
      exists ((name, withId p (Some (random m (draws m)))) :: filled), true, m'.
      unfold bind at 1. unfold generateId at 1. fold m1.
      unfold bind. rewrite Hrun.
      split; [reflexivity|]. split; [eapply drawsOnly_trans; eassumption|].
      split; [|discriminate].
      constructor.
      * split; [reflexivity | right]. split; [exact Hid|].
        exists (draws m). split; [apply Nat.le_refl | reflexivity].
      * eapply Forall2_impl; [|exact Hall].
        intros a b0 Hab. eapply backfilledEntry_later; eassumption.
Qed.

Lemma withProfiles_same (d : ApiConfigData) (ps : Obj.obj ProfileSpecificSettings) :
  profiles d = Some ps -> withProfiles d ps = d.
Proof. destruct d; simpl; now intros ->. Qed.

Lemma chosenCurrent_key (ps : Obj.obj ProfileSpecificSettings) :
  ps <> [] -> exists c, chosenCurrent ps = Some c /\ In c (Obj.keys ps).
Proof.
  intros Hne. unfold chosenCurrent.
  destruct (Obj.get ps (str "default")) as [v|] eqn:E; cbn [present].
  - exists (str "default"). split; [reflexivity|].
    eapply ObjFacts.get_Some_keys; eassumption.
  - destruct ps as [|[k v] r]; [congruence|]. exists k. split; [reflexivity | now left].
Qed.

(** [initConfig] on a stored document that has profiles and no
    [apiConfigs], once its id loop has run: the method writes the profiles
    with their ids when the loop has given one, and then looks at the global
    settings. *)
Lemma initConfig_after_ids (m m1 : ConfigManager) (d : ApiConfigData)
    (ps filled : Obj.obj ProfileSpecificSettings) (b : bool) :
  secrets m = Some d ->
  apiConfigs d = None ->
  profiles d = Some ps ->
  ensureIds ps m = (Normal (filled, b), m1) ->
  initConfig m
  = tryCatch "Failed to initialize config"
      (fun _ =>
         (if negb (present (globalSettings (withProfiles d filled))) then
            ps0 <- propertyOf (profiles (withProfiles d filled)) (str "default") ;;
            assign Parsed
              (withGlobalSettings (withProfiles d filled)
                 (onlyCurrent (chosenCurrent ps0))) ;;
            writeConfig (withGlobalSettings (withProfiles d filled)
                           (onlyCurrent (chosenCurrent ps0)))
          else ret tt)
           (if b then mkConfigManager (Some (withProfiles d filled)) (defaultConfig m1)
                       (random m1) (draws m1) (console m1)
            else m1)) m.
Proof.
  intros Hs Hac Hp Hrun.
  unfold initConfig, tryCatch. rewrite bind_readConfig.
  unfold currentDocument, refOf. rewrite Hs. cbn [objectTruthy negb].
  unfold bind at 1. rewrite Hac. cbn [ret negb].
  unfold bind at 1. unfold bind at 1. rewrite Hp. cbn [objectOf ret].
  unfold bind at 1. rewrite Hrun. cbv beta iota zeta.
  unfold bind at 1. unfold bind at 1. cbn [assign].
  unfold bind at 1. unfold chosenCurrent.
  destruct b; reflexivity.
Qed.

(** [initConfig] repairs a stored document of the current shape and always
    completes: every profile that lacks a non-empty id gets a generated one,
    the others and the order of the keys are untouched; global settings that
    exist are kept; and when there are none, the document gets global settings
    whose current name is "default" if there is such a profile and else the
    first key, so that a document with at least one profile is consistent
    afterwards. *)
Theorem initConfig_repairs_current_shape :
  forall (m : ConfigManager) (d : ApiConfigData) (ps : Obj.obj ProfileSpecificSettings),
    secrets m = Some d ->
    apiConfigs d = None ->
    profiles d = Some ps ->
    exists m' filled,
      initConfig m = (Normal tt, m')
      /\ secrets m' = Some (currentDocument m')
      /\ profiles (currentDocument m') = Some filled
      /\ Forall2 (backfilledEntry m) ps filled
      /\ (forall g, globalSettings d = Some g ->
            globalSettings (currentDocument m') = Some g)
      /\ (globalSettings d = None ->
          globalSettings (currentDocument m') = Some (onlyCurrent (chosenCurrent filled))
          /\ (ps <> [] -> consistent (currentDocument m'))).
Proof.
  intros m d ps Hs Hac Hp.
  destruct (ensureIds_spec ps m) as [filled [b [m1 [Hrun [Hd [Hall Hsame]]]]]].
  assert (Hs1 : secrets m1 = Some d).
  { destruct Hd as [H _]. now rewrite H. }
  pose proof (initConfig_after_ids m m1 d ps filled b Hs Hac Hp Hrun) as Hfront.
  set (config1 := withProfiles d filled) in *.
  assert (Hg1 : globalSettings config1 = globalSettings d) by reflexivity.
  assert (Hp1 : profiles config1 = Some filled) by reflexivity.
  destruct (globalSettings d) as [g|] eqn:Hg.
  - (* the global settings are there *)
    assert (Hlen : ps <> [] -> filled <> []).
    { intros Hne ->. inversion Hall. congruence. }
    destruct b.
    + exists (mkConfigManager (Some config1) (defaultConfig m1) (random m1) (draws m1)
                (console m1)), filled.
      split; [rewrite Hfront; unfold tryCatch; rewrite Hg1; reflexivity|].
      split; [reflexivity|]. split; [reflexivity|]. split; [exact Hall|].
      split; [intros g0 H0; now injection H0 as -> | discriminate].
    + destruct (Hsame eq_refl) as [-> ->].
      exists m, ps.
      split; [rewrite Hfront; unfold tryCatch; rewrite Hg1; reflexivity|].
      unfold currentDocument. rewrite Hs.
      split; [reflexivity|]. split; [exact Hp|]. split; [exact Hall|].
      split; [intros g0 H0; now rewrite <- H0 | discriminate].
  - (* the global settings are missing *)
    set (config2 := withGlobalSettings config1 (onlyCurrent (chosenCurrent filled))).
    exists (mkConfigManager (Some config2) (defaultConfig m1) (random m1) (draws m1)
              (console m1)), filled.
    split.
    { rewrite Hfront. unfold tryCatch. rewrite Hg1. cbn [present negb].
      unfold bind. rewrite Hp1. cbn [propertyOf ret assign writeConfig].
      destruct b; reflexivity. }
    split; [reflexivity|]. split; [reflexivity|]. split; [exact Hall|].
    split; [discriminate|]. intros _. split; [reflexivity|].
    intros Hne.
    assert (Hfilled : filled <> []).
    { intros ->. inversion Hall. congruence. }
    destruct (chosenCurrent_key filled Hfilled) as [c [Hc Hin]].
    exists (onlyCurrent (chosenCurrent filled)), filled, c.
    repeat split; assumption.
Qed.

Lemma initConfig_repairs_current_shape_witness :
  exists m' filled,
    initConfig (Sample.manager Cases.unfinished) = (Normal tt, m')
    /\ profiles (currentDocument m') = Some filled
    /\ Obj.get filled (str "b") = Some (Sample.profile "rnd1")
    /\ currentName m' = Some (str "a").
Proof.
  destruct (initConfig_repairs_current_shape
              (Sample.manager Cases.unfinished) Cases.unfinished
              [(str "a", Sample.profile "id-a"); (str "b", emptySettings)]
              eq_refl eq_refl eq_refl)
    as [m' [filled [H1 [_ [H2 _]]]]].
  exists m', filled. split; [exact H1|]. split; [exact H2|].
  assert (E : m' = snd (initConfig (Sample.manager Cases.unfinished))) by now rewrite H1.
  rewrite E in H2 |- *. vm_compute in H2. injection H2 as <-.
  split; vm_compute; reflexivity.
Defined.

(* ================================================================== *)
(** ** A stored document without global settings *)
(* ================================================================== *)

(** On a stored document that has profiles but no [globalSettings], every
    method that touches the global settings throws a [TypeError] and leaves the
    store as it was, for a profile that exists: [SetCurrentConfig],
    [LoadConfig], [DeleteConfig] (of a profile that is not the last),
    [RenameConfig] (to an acceptable name), and also [SetModeConfig] and
    [GetModeConfigId]. *)
Theorem methods_throw_without_globalSettings :
  forall (m : ConfigManager) (d : ApiConfigData) (ps : Obj.obj ProfileSpecificSettings)
         (name : jstr) (p : ProfileSpecificSettings),
    secrets m = Some d ->
    globalSettings d = None ->
    profiles d = Some ps ->
    Obj.get ps name = Some p ->
    SetCurrentConfig name m
    = (Throw (rethrown "Failed to set current config"
                (cannotSet (str "currentApiConfigName"))), m)
    /\ fst (LoadConfig name m)
       = Throw (rethrown "Failed to load config" (cannotSet (str "currentApiConfigName")))
    /\ secrets (snd (LoadConfig name m)) = Some d
    /\ (length (Obj.keys ps) <> 1 ->
        DeleteConfig name m
        = (Throw (rethrown "Failed to delete config"
                    (cannotRead (str "currentApiConfigName"))), m))
    /\ (forall newName,
          isValid (validateProfileName newName (otherNames ps name)) = true ->
          RenameConfig name newName m
          = (Throw (rethrown "Failed to rename config"
                      (cannotRead (str "currentApiConfigName"))), m))
    /\ (forall mode configId,
          SetModeConfig mode configId m
          = (Throw (rethrown "Failed to set mode config"
                      (cannotRead (str "modeApiConfigs"))), m))
    /\ (forall mode,
          GetModeConfigId mode m
          = (Throw (rethrown "Failed to get mode config"
                      (cannotRead (str "modeApiConfigs"))), m)).
Proof.
  intros m d ps name p Hs Hg Hp Hget.
  assert (Hd : currentDocument m = d) by (unfold currentDocument; now rewrite Hs).
  assert (Hr : refOf m = Parsed) by (unfold refOf; now rewrite Hs).
  split; [|split; [|split; [|split; [|split; [|split]]]]].
  - apply tryCatch_throw. rewrite bind_readConfig, Hd. unfold bind.
    rewrite Hp. cbn [propertyOf ret].
    now rewrite element_parse, (lookup_stored ps name p Hget), Hg.
  - unfold LoadConfig, tryCatch. rewrite bind_readConfig, Hd. unfold bind.
    rewrite Hp. cbn [propertyOf ret].
    rewrite element_parse, (lookup_stored ps name p Hget), Hg. cbn [asSettings].
    now destruct (isValid (validateProfileSettings p)).
  - unfold LoadConfig, tryCatch. rewrite bind_readConfig, Hd. unfold bind.
    rewrite Hp. cbn [propertyOf ret].
    rewrite element_parse, (lookup_stored ps name p Hget), Hg. cbn [asSettings].
    now destruct (isValid (validateProfileSettings p)).
  - intros Hlen. apply tryCatch_throw. rewrite bind_readConfig, Hd. unfold bind.
    rewrite Hp. cbn [propertyOf ret].
    rewrite element_parse, (lookup_stored ps name p Hget).
    apply Nat.eqb_neq in Hlen. rewrite Hlen, Hg. reflexivity.
  - intros newName Hn. apply tryCatch_throw. rewrite bind_readConfig, Hd, Hr. unfold bind.
    rewrite Hp. cbn [propertyOf ret].
    rewrite element_parse, (lookup_stored ps name p Hget), Hn.
    cbn [negb assign withProfiles globalSettings]. rewrite Hg. reflexivity.
  - intros mode configId. apply tryCatch_throw. rewrite bind_readConfig, Hd. unfold bind.
    now rewrite Hg.
  - intros mode. apply tryCatch_throw. rewrite bind_readConfig, Hd. unfold bind.
    now rewrite Hg.
Qed.

Lemma methods_throw_without_globalSettings_witness :
  SetCurrentConfig (str "a") (Sample.manager Cases.unfinished)
  = (Throw (rethrown "Failed to set current config"
              (cannotSet (str "currentApiConfigName"))),
     Sample.manager Cases.unfinished).
Proof.
  exact (proj1 (methods_throw_without_globalSettings
                  (Sample.manager Cases.unfinished) Cases.unfinished
                  [(str "a", Sample.profile "id-a"); (str "b", emptySettings)]
                  (str "a") (Sample.profile "id-a") eq_refl eq_refl eq_refl eq_refl)).
Defined.

(* ================================================================== *)
(** ** The id of a profile across the operations *)
(* ================================================================== *)











